(** * Queso Ventures audit generator ([audit.py]): model and checked properties

    A shallow embedding of the scoring helpers, the terminal prompts, the
    three network collaborators and the data-collection pipeline of
    [audit.py], followed by the properties of the specification.

    Conventions of the model.
    - A Python [str] is a [string]; non-ASCII literals of the program are
      kept as their UTF-8 bytes.  Character classes ([str.strip],
      [str.lower], [str.isdigit], [\s], [\d], [\w], [\b]) are Python's
      restricted to ASCII: the model is exact on ASCII terminal input and
      ASCII page text ([Str.is_ascii]), and a property that rests on these
      classes is stated for such texts.  A slice [s[:n]] counts characters,
      not bytes.
    - An [int] is unbounded; between [int] and [str] CPython converts at
      most 4300 digits ([sys.int_max_str_digits], the default): [int(s)] on
      a longer text and [str(n)] of a longer integer raise [ValueError].
    - A Python [float] is an IEEE-754 binary64 value ([spec_float] with
      precision 53 and maximal exponent 1024), every operation rounding to
      nearest-even as CPython does.
    - The terminal is a list of pending input lines and a log of writes; the
      network is an oracle answering each GET from the history of requests;
      exceptions are values of type [exn].
    - Third-party code that is not part of the repository ([requests],
      [BeautifulSoup], [str()] of a float, [date.today()]) is a field of the
      [Platform] record. *)

From Stdlib Require Import ZArith QArith Qround Floats.SpecFloat Lia.
From Stdlib Require Import Ascii String.
From stdpp Require Import gmap strings list pretty.

Local Open Scope string_scope.
Local Open Scope Z_scope.

(** ** Python strings *)

Module Str.

Definition code (c : ascii) : Z := Z.of_N (N_of_ascii c).

(** [str.isspace] on ASCII: TAB, LF, VT, FF, CR, FS, GS, RS, US, SPACE. *)
Definition is_space (c : ascii) : bool :=
  let n := code c in
  ((9 <=? n) && (n <=? 13)) || ((28 <=? n) && (n <=? 32)).

Definition is_digit (c : ascii) : bool :=
  let n := code c in (48 <=? n) && (n <=? 57).

(** A byte of an ASCII character. *)
Definition is_ascii_char (c : ascii) : bool := code c <? 128.

(** [s.isascii()]: the text holds ASCII characters only.  On such a text
    the character classes of this module are Python's. *)
Fixpoint is_ascii (s : string) : bool :=
  match s with
  | EmptyString => true
  | String c s' => is_ascii_char c && is_ascii s'
  end.

(** A continuation byte of a character encoded on several bytes. *)
Definition is_cont (c : ascii) : bool :=
  let n := code c in (128 <=? n) && (n <=? 191).

Definition digit_val (c : ascii) : Z := code c - 48.

Definition is_upper (c : ascii) : bool :=
  let n := code c in (65 <=? n) && (n <=? 90).

Definition is_alpha (c : ascii) : bool :=
  let n := code c in
  ((65 <=? n) && (n <=? 90)) || ((97 <=? n) && (n <=? 122)).

(** [\w] on ASCII. *)
Definition is_word (c : ascii) : bool :=
  is_alpha c || is_digit c || (code c =? 95).

Definition lower_char (c : ascii) : ascii :=
  if is_upper c then ascii_of_N (Z.to_N (code c + 32)) else c.

(** [s.lower()] of an ASCII text: bytes above 127 are left as they are. *)
Fixpoint lower (s : string) : string :=
  match s with
  | EmptyString => EmptyString
  | String c s' => String (lower_char c) (lower s')
  end.

Fixpoint lstrip (s : string) : string :=
  match s with
  | EmptyString => EmptyString
  | String c s' => if is_space c then lstrip s' else s
  end.

Definition rstrip (s : string) : string := String.rev (lstrip (String.rev s)).

(** [s.strip()] *)
Definition strip (s : string) : string := rstrip (lstrip s).

(** [s.startswith(p)] *)
Definition startswith (s p : string) : bool := String.prefix p s.

(** [sub in s] *)
Fixpoint contains (sub s : string) : bool :=
  String.prefix sub s ||
  match s with
  | EmptyString => false
  | String _ s' => contains sub s'
  end.

(** [s.replace(old, new)] for a non-empty [old]: occurrences are replaced
    from left to right without overlap; [skip] counts the characters of
    the occurrence just replaced that are still to be dropped. *)
Fixpoint replace_go (old new : string) (skip : nat) (s : string) : string :=
  match s with
  | EmptyString => EmptyString
  | String c s' =>
      match skip with
      | S k => replace_go old new k s'
      | O =>
          if String.prefix old s
          then new +:+ replace_go old new (Nat.pred (String.length old)) s'
          else String c (replace_go old new O s')
      end
  end.

Definition replace (s old new : string) : string := replace_go old new O s.

Fixpoint all_digits (s : string) : bool :=
  match s with
  | EmptyString => true
  | String c s' => is_digit c && all_digits s'
  end.

(** [s.isdigit()] of an ASCII text: the digits are 0 to 9 only. *)
Definition isdigit (s : string) : bool :=
  match s with
  | EmptyString => false
  | _ => all_digits s
  end.

(** Digits of an integer literal, single underscores allowed between
    digits; [prev] tells whether the previous character was a digit. *)
Fixpoint int_digits (acc : Z) (prev : bool) (s : string) : option Z :=
  match s with
  | EmptyString => if prev then Some acc else None
  | String c s' =>
      if is_digit c then int_digits (10 * acc + digit_val c) true s'
      else if (code c =? 95) && prev then int_digits acc false s'
      else None
  end.

(** The number of digits of a text. *)
Fixpoint digit_count (s : string) : nat :=
  match s with
  | EmptyString => O
  | String c s' => if is_digit c then S (digit_count s') else digit_count s'
  end.

(** [sys.int_max_str_digits] *)
Definition max_str_digits : nat := 4300.

(** [int(s)]: [None] stands for [ValueError], raised for a text that is
    not an integer literal and for one of more than 4300 digits. *)
Definition to_int (s : string) : option Z :=
  if (max_str_digits <? digit_count (strip s))%nat then None
  else
    match strip s with
    | String "+" r => int_digits 0 false r
    | String "-" r => Z.opp <$> int_digits 0 false r
    | t => int_digits 0 false t
    end.

(** [c * n] for a one-character string [c] *)
Fixpoint repeat (c : string) (n : nat) : string :=
  match n with
  | O => EmptyString
  | S k => c +:+ repeat c k
  end.

(** [s[:n]]: the first [n] characters, a character encoded on several
    bytes being kept with its continuation bytes. *)
Fixpoint take (n : nat) (s : string) : string :=
  match s with
  | EmptyString => EmptyString
  | String c s' =>
      if is_cont c then String c (take n s')
      else
        match n with
        | O => EmptyString
        | S k => String c (take k s')
        end
  end.

(** [s.split(",")[0]] *)
Fixpoint before_comma (s : string) : string :=
  match s with
  | EmptyString => EmptyString
  | String c s' => if (code c =? 44) then EmptyString else String c (before_comma s')
  end.

Fixpoint take_word (s : string) : string :=
  match s with
  | EmptyString => EmptyString
  | String c s' => if is_space c then EmptyString else String c (take_word s')
  end.

(** [s.split()[0]]: [None] stands for [IndexError] (no word at all). *)
Definition first_word (s : string) : option string :=
  match lstrip s with
  | EmptyString => None
  | t => Some (take_word t)
  end.

Definition nl : string := String "010"%char EmptyString.

End Str.

(** ** Python numbers: unbounded [int] and binary64 [float] *)

Module F64.

Definition prec : Z := 53.
Definition emax : Z := 1024.

Definition of_Z (z : Z) : spec_float := binary_normalize prec emax z 0 false.
Definition sub : spec_float -> spec_float -> spec_float := SFsub prec emax.
Definition mul : spec_float -> spec_float -> spec_float := SFmul prec emax.
Definition div : spec_float -> spec_float -> spec_float := SFdiv prec emax.
Definition ltb : spec_float -> spec_float -> bool := SFltb.

(** A decimal literal [n/d] is read as the binary64 value nearest to it,
    which is the correctly rounded quotient of the two integers. *)
Definition lit (n d : Z) : spec_float := div (of_Z n) (of_Z d).

(** [a / b] on two [int]s is the correctly rounded exact quotient. *)
Definition int_truediv (a b : Z) : spec_float :=
  match a with
  | Z0 => S754_zero false
  | _ =>
      let '(mz, ez, lz) := SFdiv_core_binary prec emax (Z.abs a) 0 (Z.abs b) 0 in
      binary_round_aux prec emax (xorb (a <? 0) (b <? 0)) mz ez lz
  end.

(** [int(x)]: truncation toward zero; [None] on NaN and infinities. *)
Definition trunc (x : spec_float) : option Z :=
  match x with
  | S754_zero _ => Some 0
  | S754_finite s m e =>
      let v := if 0 <=? e then Zpos m * 2 ^ e else Zpos m / 2 ^ (- e) in
      Some (if s then - v else v)
  | _ => None
  end.

(** [round(x)]: nearest integer, ties to the even one; [None] on NaN and
    infinities. *)
Definition round (x : spec_float) : option Z :=
  match x with
  | S754_zero _ => Some 0
  | S754_finite s m e =>
      let v :=
        if 0 <=? e then Zpos m * 2 ^ e
        else
          let d := 2 ^ (- e) in
          let q := Zpos m / d in
          let r := Zpos m mod d in
          if 2 * r <? d then q
          else if d <? 2 * r then q + 1
          else if Z.even q then q else q + 1 in
      Some (if s then - v else v)
  | _ => None
  end.

End F64.

Inductive num : Type :=
  | Int (z : Z)
  | Float (f : spec_float).

Module Num.

Definition to_float (x : num) : spec_float :=
  match x with
  | Int z => F64.of_Z z
  | Float f => f
  end.

(** [x - y] *)
Definition sub (x y : num) : num :=
  match x, y with
  | Int a, Int b => Int (a - b)
  | _, _ => Float (F64.sub (to_float x) (to_float y))
  end.

(** [round(x)] with one argument; [None] stands for the error raised on
    NaN and infinities. *)
Definition round (x : num) : option Z :=
  match x with
  | Int z => Some z
  | Float f => F64.round f
  end.

End Num.

(** ** Python values, exceptions, the terminal and the network *)

(** The values the script stores in its dictionaries and reads from JSON. *)
#[local] Set Warnings "-register-all".
Inductive pyval : Type :=
  | VNone
  | VBool (b : bool)
  | VInt (z : Z)
  | VFloat (f : spec_float)
  | VStr (s : string)
  | VList (l : list pyval)
  | VDict (d : list (string * pyval)).

(** The exceptions the script can meet.  [SSLError] and [RequestError] are
    raised by [requests.get]; [RequestError] stands for every other failure
    of a request (connection, timeout, invalid URL).  Operator interrupts
    ([KeyboardInterrupt]) are outside the model. *)
Inductive exn : Type :=
  | EOFError
  | ValueError
  | TypeError
  | AttributeError
  | IndexError
  | OverflowError
  | ZeroDivisionError
  | JSONDecodeError
  | SSLError (msg : string)
  | RequestError (msg : string).

Inductive result (A : Type) : Type :=
  | Ok (a : A)
  | Raise (e : exn).
Arguments Ok {A} a.
Arguments Raise {A} e.

(** One call of [requests.get]. *)
Record request : Type := Request {
  req_url : string;
  req_params : list (string * string);
  req_headers : bool;       (* [headers=HEADERS] given *)
  req_timeout : Z
}.

Record response : Type := Response {
  status_code : Z;
  resp_url : string;        (* [resp.url], after redirects *)
  resp_text : string;       (* [resp.text] *)
  resp_json : option pyval  (* [resp.json()]; [None]: the body is not JSON *)
}.

(** What [BeautifulSoup(html, "html.parser")] offers to the script. *)
Record soup : Type := Soup {
  get_text : string -> bool -> string;  (* [get_text(sep, strip=...)] *)
  find_title : option string;           (* [find("title")], its text *)
  find_all_h1 : list string;            (* texts of [find_all("h1")] *)
  find_viewport : bool                  (* [find("meta", name=viewport)] found *)
}.

(** Everything the script takes from outside the repository. *)
Record Platform : Type := {
  net : list request -> request -> result response;
  BeautifulSoup : string -> soup;
  quote : string -> string;             (* [requests.utils.quote] *)
  str_other : pyval -> string;          (* [str()] of floats, lists, dicts *)
  str_exn : exn -> string;              (* [str(e)] *)
  PAGESPEED_API_KEY : string;           (* environment variable PAGESPEED_KEY *)
  today : string                        (* [date.today().strftime("%B %d, %Y")] *)
}.

(** The state of a run: pending terminal lines, what was written so far
    (oldest first) and the requests sent so far (oldest first). *)
Record world : Type := World {
  stdin : list string;
  stdout : list string;
  sent : list request
}.

(** Computations that read and write the world and may raise. *)
Definition M (A : Type) : Type := world -> result A * world.

Definition ret {A} (a : A) : M A := fun w => (Ok a, w).

Definition raise {A} (e : exn) : M A := fun w => (Raise e, w).

Definition bind {A B} (m : M A) (k : A -> M B) : M B :=
  fun w =>
    match m w with
    | (Ok a, w') => k a w'
    | (Raise e, w') => (Raise e, w')
    end.

(** [try: m except Exception as e: h e] *)
Definition try_except {A} (m : M A) (h : exn -> M A) : M A :=
  fun w =>
    match m w with
    | (Ok a, w') => (Ok a, w')
    | (Raise e, w') => h e w'
    end.

Definition lift {A} (r : result A) : M A := fun w => (r, w).

Declare Scope py_scope.
Delimit Scope py_scope with py.
Notation "x <- m ;; k" := (bind m (fun x => k))
  (at level 100, m at next level, right associativity) : py_scope.
Notation "m ;;; k" := (bind m (fun _ => k))
  (at level 100, right associativity) : py_scope.
Local Open Scope py_scope.

(** [sys.stdout.write(s)] *)
Definition write (s : string) : M unit :=
  fun w => (Ok tt, World (stdin w) (stdout w ++ [s])%list (sent w)).

(** [print(s)] *)
Definition print (s : string) : M unit := write (s +:+ Str.nl).

(** [print(s, end=e, flush=True)] *)
Definition print_end (s e : string) : M unit := write (s +:+ e).

(** [input(p)]: writes the prompt, then takes the next line; at the end of
    the input it raises [EOFError]. *)
Definition input (p : string) : M string :=
  fun w =>
    let out := (stdout w ++ [p])%list in
    match stdin w with
    | [] => (Raise EOFError, World [] out (sent w))
    | l :: rest => (Ok l, World rest out (sent w))
    end.

(** [str(n)] of an [int], as an f-string renders it: [ValueError] for an
    integer of more than 4300 digits. *)
Definition str_int (n : Z) : result string :=
  if Z.abs n <? 10 ^ Z.of_nat Str.max_str_digits then Ok (pretty n)
  else Raise ValueError.

(** Truthiness of a value. *)
Definition truthy (v : pyval) : bool :=
  match v with
  | VNone => false
  | VBool b => b
  | VInt z => negb (z =? 0)
  | VFloat (S754_zero _) => false
  | VFloat _ => true
  | VStr s => negb (String.eqb s "")
  | VList l => match l with [] => false | _ => true end
  | VDict d => match d with [] => false | _ => true end
  end.

(** [v == s] for a string literal [s] *)
Definition is_str (v : pyval) (s : string) : bool :=
  match v with
  | VStr t => String.eqb t s
  | _ => false
  end.

(** [d.get(k)] on a dictionary given as its items *)
Fixpoint assoc (d : list (string * pyval)) (k : string) : option pyval :=
  match d with
  | [] => None
  | (k', v) :: d' => if String.eqb k' k then Some v else assoc d' k
  end.

(** [v.get(k, default)]: [AttributeError] when [v] is not a dictionary. *)
Definition dict_get (v : pyval) (k : string) (dflt : pyval) : result pyval :=
  match v with
  | VDict d => Ok (default dflt (assoc d k))
  | _ => Raise AttributeError
  end.

(** [x * 100] *)
Definition times100 (x : pyval) : result pyval :=
  match x with
  | VBool b => Ok (VInt (if b then 100 else 0))
  | VInt z => Ok (VInt (z * 100))
  | VFloat f => Ok (VFloat (F64.mul f (F64.of_Z 100)))
  | VStr s => Ok (VStr (String.concat "" (replicate 100 s)))
  | VList l => Ok (VList (concat (replicate 100 l)))
  | VNone | VDict _ => Raise TypeError
  end.

(** [int(x)] *)
Definition int_of (x : pyval) : result Z :=
  match x with
  | VBool b => Ok (if b then 1 else 0)
  | VInt z => Ok z
  | VFloat S754_nan => Raise ValueError
  | VFloat (S754_infinity _) => Raise OverflowError
  | VFloat f => match F64.trunc f with Some z => Ok z | None => Raise ValueError end
  | VStr s => match Str.to_int s with Some z => Ok z | None => Raise ValueError end
  | VNone | VList _ | VDict _ => Raise TypeError
  end.

(** [a / b] on two [int]s *)
Definition truediv (a b : Z) : result spec_float :=
  if b =? 0 then Raise ZeroDivisionError
  else
    match F64.int_truediv a b with
    | S754_infinity _ => Raise OverflowError
    | f => Ok f
    end.

(** The palette of the report. *)
Inductive color : Type :=
  | YELLOW | DARK | LIGHT_GRAY | MID_GRAY | TEXT_GRAY | WHITE
  | RED | ORANGE | GREEN.

(** ** Helpers *)

Definition score_color (score max_score : Z) : result color :=
  match truediv score max_score with
  | Ok pct =>
      Ok (if F64.ltb pct (F64.lit 4 10) then RED
          else if F64.ltb pct (F64.lit 7 10) then ORANGE
          else GREEN)
  | Raise e => Raise e
  end.

Definition score_label (score max_score : Z) : result string :=
  match truediv score max_score with
  | Ok pct =>
      Ok (if F64.ltb pct (F64.lit 4 10) then "Needs Work"
          else if F64.ltb pct (F64.lit 7 10) then "Fair"
          else "Good")
  | Raise e => Raise e
  end.

Definition clean_url (url : option string) : option string :=
  match url with
  | None => None
  | Some EmptyString => None
  | Some u =>
      let u := Str.strip u in
      Some (if Str.startswith u "http" then u else "https://" +:+ u)
  end.

Definition divider (title : string) : M unit :=
  let width := 55 in
  match title with
  | EmptyString => print (Str.nl +:+ Str.repeat "─" (Z.to_nat width))
  | _ =>
      let pad := Z.to_nat ((width - Z.of_nat (String.length title) - 2) / 2) in
      print (Str.nl +:+ Str.repeat "─" pad +:+ " " +:+ title +:+ " "
             +:+ Str.repeat "─" pad)
  end.

Section Script.

Context (P : Platform).

(** [str(v)], as an f-string renders a value *)
Definition str (v : pyval) : string :=
  match v with
  | VNone => "None"
  | VBool true => "True"
  | VBool false => "False"
  | VInt z => pretty z
  | VStr s => s
  | _ => str_other P v
  end.

(** [for i, o in enumerate(options, i): print(f"    {i}. {o}")] *)
Fixpoint print_options (i : Z) (options : list string) : M unit :=
  match options with
  | [] => ret tt
  | o :: os =>
      print ("    " +:+ pretty i +:+ ". " +:+ o) ;;;
      print_options (i + 1) os
  end.

(** The [while True] loop of [prompt]: one turn per terminal line, [n]
    being [len(options)]. *)
Fixpoint choose (n : Z) (pending out : list string)
  : result Z * list string * list string :=
  let out := (out ++ ["    Enter number: "])%list in
  match pending with
  | [] => (Raise EOFError, [], out)
  | l :: rest =>
      let again := choose n rest (out ++ ["    Invalid. Try again." +:+ Str.nl])%list in
      match Str.to_int (Str.strip l) with
      | Some val => if (1 <=? val) && (val <=? n) then (Ok val, rest, out) else again
      | None => again
      end
  end.

(** The loop, run on the terminal. *)
Definition read_choice (n : Z) : M Z :=
  fun w =>
    let '(r, pending, out) := choose n (stdin w) (stdout w) in
    (r, World pending out (sent w)).

Definition prompt (label : string) (options : list string) (default : pyval)
  : M pyval :=
  match options with
  | _ :: _ =>
      print (Str.nl +:+ "  " +:+ label) ;;;
      print_options 1 options ;;;
      val <- read_choice (Z.of_nat (length options)) ;;
      ret (VInt val)
  | [] =>
      let suffix := if truthy default then " [" +:+ str default +:+ "]" else "" in
      val <- input ("  " +:+ label +:+ suffix +:+ ": ") ;;
      let val := Str.strip val in
      ret (if String.eqb val "" then default else VStr val)
  end.

(** ** Auto-fetch functions *)

(** [requests.get(...)]: the request is recorded and the network answers. *)
Definition requests_get (r : request) : M response :=
  fun w => (net P (sent w) r, World (stdin w) (stdout w) (sent w ++ [r])%list).

Definition check_website (url : option string)
  : M (bool * option string * option string) :=
  if match url with
     | None => true
     | Some u => String.eqb u "" || bool_decide (Str.lower u ∈ ["none"; "n"; ""])
     end
  then ret (false, None, Some "No website provided")
  else
    (* [url] is a non-empty string here, so [clean_url] returns a string *)
    let clean := default "" (clean_url url) in
    try_except
      (resp <- requests_get (Request clean [] true 8) ;;
       if status_code resp <? 400 then
         print ("  ✓ Website reachable: " +:+ resp_url resp +:+ " (HTTP "
                +:+ pretty (status_code resp) +:+ ")") ;;;
         ret (true, Some clean, Some (resp_text resp))
       else
         print ("  ✗ Website returned HTTP " +:+ pretty (status_code resp)) ;;;
         ret (false, Some clean, None))
      (fun e =>
         match e with
         | SSLError _ =>
             try_except
               (let clean_http := Str.replace clean "https://" "http://" in
                resp <- requests_get (Request clean_http [] true 8) ;;
                ret (true, Some clean_http, Some (resp_text resp)))
               (fun _ => ret (false, Some clean, None))
         | _ =>
             print ("  ✗ Could not reach website: " +:+ str_exn P e) ;;;
             ret (false, Some clean, None)
         end).

(** Lines 133-143: the request sent to the page-speed service. *)
Definition pagespeed_request (url : string) : request :=
  let api_url := "https://www.googleapis.com/pagespeedonline/v5/runPagespeed" in
  let params :=
    ([("url", url); ("strategy", "mobile"); ("category", "performance")]
     ++ (if String.eqb (PAGESPEED_API_KEY P) "" then []
         else [("key", PAGESPEED_API_KEY P)]))%list in
  Request api_url params false 20.

Definition get_pagespeed_score (url : option string) : M (option Z * pyval) :=
  match url with
  | None | Some EmptyString => ret (None, VStr "No website")
  | Some u =>
      print_end "  Fetching PageSpeed score..." " " ;;;
      try_except
        (resp <- requests_get (pagespeed_request u) ;;
         data <- lift (match resp_json resp with
                       | Some v => Ok v
                       | None => Raise JSONDecodeError
                       end) ;;
         lighthouse <- lift (dict_get data "lighthouseResult" (VDict [])) ;;
         categories <- lift (dict_get lighthouse "categories" (VDict [])) ;;
         performance <- lift (dict_get categories "performance" (VDict [])) ;;
         score <- lift (dict_get performance "score" VNone) ;;
         match score with
         | VNone =>
             err <- lift (dict_get data "error" (VDict [])) ;;
             error <- lift (dict_get err "message" (VStr "Unknown error")) ;;
             print ("API error: " +:+ str error) ;;;
             ret (None, error)
         | _ =>
             scaled <- lift (times100 score) ;;
             pct <- lift (int_of scaled) ;;
             shown_pct <- lift (str_int pct) ;;
             print (shown_pct +:+ "/100") ;;;
             ret (Some pct, VNone)
         end)
        (fun e =>
           print ("Failed (" +:+ str_exn P e +:+ ")") ;;;
           ret (None, VStr (str_exn P e)))
  end.

Definition pagespeed_to_score (pct : option Z) : option Z :=
  match pct with
  | None => None
  | Some pct =>
      Some (if 90 <=? pct then 5
            else if 70 <=? pct then 4
            else if 50 <=? pct then 3
            else if 30 <=? pct then 2
            else 1)
  end.

(** *** The regular expressions of the script

    Each pattern is written as the test of a match starting at one
    position ([prev] is the character before it, if any) and is searched
    from left to right as [re.search] does.  The patterns leave the
    backtracking matcher no choice: a shorter repetition or a skipped
    optional part always fails on the very next character, so the greedy
    reading below is the only possible match at a position. *)

Definition head (s : string) : option ascii :=
  match s with
  | EmptyString => None
  | String c _ => Some c
  end.

Definition word_opt (c : option ascii) : bool :=
  match c with
  | Some c => Str.is_word c
  | None => false
  end.

(** [\b] between [prev] and [next] *)
Definition boundary (prev next : option ascii) : bool :=
  xorb (word_opt prev) (word_opt next).

(** [re.search]: the leftmost position where [here] matches *)
Fixpoint search {A} (here : option ascii -> string -> option A)
    (prev : option ascii) (s : string) : option A :=
  match here prev s with
  | Some r => Some r
  | None =>
      match s with
      | EmptyString => None
      | String c s' => search here (Some c) s'
      end
  end.

(** The longest prefix of characters in a class, and what follows it. *)
Fixpoint span (p : ascii -> bool) (s : string) : string * string :=
  match s with
  | EmptyString => (EmptyString, EmptyString)
  | String c s' =>
      if p c then let '(a, b) := span p s' in (String c a, b)
      else (EmptyString, s)
  end.

(** A literal under [re.IGNORECASE] ([lit] in lower case): what follows it. *)
Fixpoint ci_prefix (lit s : string) : option string :=
  match lit, s with
  | EmptyString, _ => Some s
  | String a lit', String c s' =>
      if Ascii.eqb (Str.lower_char c) a then ci_prefix lit' s' else None
  | String _ _, EmptyString => None
  end.

(** Exactly [n] digits: what follows them. *)
Fixpoint digits (n : nat) (s : string) : option string :=
  match n, s with
  | O, _ => Some s
  | S k, String c s' => if Str.is_digit c then digits k s' else None
  | S _, EmptyString => None
  end.

(** [\b([1-5]\.[0-9])\b], group 1, on an ASCII text *)
Definition rating_at (prev : option ascii) (s : string) : option string :=
  match s with
  | String a (String b (String c rest)) =>
      if boundary prev (Some a)
         && ((49 <=? Str.code a) && (Str.code a <=? 53))
         && Ascii.eqb b "."
         && Str.is_digit c
         && boundary (Some c) (head rest)
      then Some (String a (String b (String c EmptyString)))
      else None
  | _ => None
  end.

(** [reviews?\b] after the optional part, case-insensitive *)
Definition reviews_here (s : string) : bool :=
  match ci_prefix "review" s with
  | Some r =>
      match r with
      | String c r' =>
          (Ascii.eqb (Str.lower_char c) "s" && boundary (Some c) (head r'))
          || boundary (Some "w"%char) (Some c)
      | EmptyString => boundary (Some "w"%char) None
      end
  | None => false
  end.

(** [[\(\s](\d{1,5})\s*(?:Google\s+)?reviews?\b] with
    [re.IGNORECASE], group 1, on an ASCII text *)
Definition review_at (prev : option ascii) (s : string) : option string :=
  match s with
  | String c s1 =>
      if Ascii.eqb c "(" || Str.is_space c then
        let '(count, s2) := span Str.is_digit s1 in
        if ((1 <=? String.length count)%nat && (String.length count <=? 5)%nat)
           && (let '(_, s3) := span Str.is_space s2 in
               reviews_here s3
               || match ci_prefix "google" s3 with
                  | Some s4 =>
                      let '(gap, s5) := span Str.is_space s4 in
                      negb (String.eqb gap "") && reviews_here s5
                  | None => false
                  end)
        then Some count
        else None
      else None
  | EmptyString => None
  end.

(** [\b(open|closed|hours|AM|PM)\b] with [re.IGNORECASE], on an ASCII
    text *)
Definition hours_at (prev : option ascii) (s : string) : option unit :=
  if boundary prev (head s)
     && existsb
          (fun w =>
             match ci_prefix w s with
             | Some r => boundary (head w) (head r)
             | None => false
             end)
          ["open"; "closed"; "hours"; "am"; "pm"]
  then Some tt
  else None.

(** [\(?\d{3}\)?[\s\-\.]\d{3}[\s\-\.]\d{4}], on an ASCII text *)
Definition phone_at (prev : option ascii) (s : string) : option unit :=
  let sep (s : string) : option string :=
    match s with
    | String c s' =>
        if Str.is_space c || Ascii.eqb c "-" || Ascii.eqb c "." then Some s' else None
    | EmptyString => None
    end in
  let s1 := match s with String "(" r => r | _ => s end in
  s2 ← digits 3 s1;
  let s3 := match s2 with String ")" r => r | _ => s2 end in
  s4 ← sep s3;
  s5 ← digits 3 s4;
  s6 ← sep s5;
  _ ← digits 4 s6;
  Some tt.

(** Lines 173-177: the request sent to the search engine. *)
Definition gbp_request (business_name city : pyval) : request :=
  let query := str business_name +:+ " " +:+ str city in
  let search_url := "https://www.google.com/search?q=" +:+ quote P query in
  Request search_url [] true 10.

Definition scrape_gbp_basics (business_name city : pyval)
  : M (gmap string pyval) :=
  print_end "  Fetching Google Business Profile data..." " " ;;;
  try_except
    (resp <- requests_get (gbp_request business_name city) ;;
     let soup := BeautifulSoup P (resp_text resp) in
     let text := get_text soup " " true in
     let rating := search rating_at None (Str.take 3000 text) in
     let review_count := search review_at None (Str.take 3000 text) in
     let has_hours := bool_decide (is_Some (search hours_at None (Str.take 3000 text))) in
     print ("rating=" +:+ default "?" rating +:+ ", reviews="
            +:+ default "?" review_count) ;;;
     ret ({[ "rating" := VStr (default "?" rating);
             "review_count" := VStr (default "?" review_count);
             "has_hours" := VBool has_hours ]} : gmap string pyval))
    (fun e =>
       print ("Failed (" +:+ str_exn P e +:+ ")") ;;;
       ret ({[ "rating" := VStr "?";
               "review_count" := VStr "?";
               "has_hours" := VBool false ]} : gmap string pyval)).

(** [v.lower()]: [AttributeError] when [v] is not a string. *)
Definition lower_of (v : pyval) : result string :=
  match v with
  | VStr s => Ok (Str.lower s)
  | _ => Raise AttributeError
  end.

Definition check_website_seo_basics (html : option string)
    (city business_type : pyval) : result (gmap string bool) :=
  match html with
  | None | Some EmptyString => Ok ∅
  | Some html =>
      let soup := BeautifulSoup P html in
      let text_lower := Str.lower (get_text soup " " false) in
      match lower_of city with
      | Raise e => Raise e
      | Ok c =>
          let city_lower := Str.strip (Str.before_comma c) in
          match lower_of business_type with
          | Raise e => Raise e
          | Ok t =>
              match Str.first_word t with
              | None => Raise IndexError
              | Some type_lower =>
                  let title_text :=
                    match find_title soup with
                    | Some t => Str.lower t
                    | None => ""
                    end in
                  let h1_tags := Str.lower <$> find_all_h1 soup in
                  let viewport := find_viewport soup in
                  let phone := search phone_at None (get_text soup "" false) in
                  let city_in_title := Str.contains city_lower title_text in
                  let city_in_h1 := existsb (Str.contains city_lower) h1_tags in
                  let city_in_content := Str.contains city_lower text_lower in
                  let service_mentioned := Str.contains type_lower text_lower in
                  let is_mobile_ready := viewport in
                  let has_phone := bool_decide (is_Some phone) in
                  Ok ({[ "city_in_title" := city_in_title;
                         "city_in_h1" := city_in_h1;
                         "city_in_content" := city_in_content;
                         "service_mentioned" := service_mentioned;
                         "is_mobile_ready" := is_mobile_ready;
                         "has_phone" := has_phone ]} : gmap string bool)
              end
          end
      end
  end.

(** [not seo.get(key)] *)
Definition missing (seo : gmap string bool) (key : string) : bool :=
  match seo !! key with
  | Some true => false
  | _ => true
  end.

(** [if not seo.get(key): score -= penalty; issues.append(issue)] *)
Definition penalize (seo : gmap string bool) (key : string) (penalty : num)
    (issue : string) (st : num * list string) : num * list string :=
  if missing seo key
  then (Num.sub (fst st) penalty, (snd st ++ [issue])%list)
  else st.

Definition auto_website_score (site_exists : bool) (seo : gmap string bool)
  : result (Z * list string) :=
  if negb site_exists then Ok (1, ["No website found"])
  else
    let st := (Int 5, []) in
    let st := penalize seo "city_in_title" (Float (F64.lit 5 10))
                "City not in page title" st in
    let st := penalize seo "city_in_h1" (Float (F64.lit 5 10))
                "City not in main headline" st in
    let st := penalize seo "city_in_content" (Int 1)
                "City name not found in page content" st in
    let st := penalize seo "service_mentioned" (Int 1)
                "Service type not clearly mentioned on page" st in
    let st := penalize seo "is_mobile_ready" (Int 1)
                "No mobile viewport meta tag — may not be mobile friendly" st in
    let st := penalize seo "has_phone" (Float (F64.lit 5 10))
                "No phone number detected on page" st in
    match Num.round (fst st) with
    | Some r => Ok (Z.max 1 r, snd st)
    | None => Raise ValueError
    end.

(** ** Data collection *)

Definition dq : string := String "034"%char EmptyString.

Definition score_opts : list string :=
  ["1 - Very Poor"; "2 - Poor"; "3 - Fair"; "4 - Good"; "5 - Excellent"].

(** A string argument taken from a value of the record. *)
Definition str_arg (v : pyval) : option string :=
  match v with
  | VStr s => Some s
  | _ => None
  end.

(** Lines 296-305: the website check with its manual fallback.  Returns
    [site_exists, site_url, html]. *)
Definition website_check (has_website : bool) (website_url : pyval)
  : M (bool * option string * option string) :=
  r <- check_website (if has_website then str_arg website_url else None) ;;
  let '(site_exists, site_url, html) := r in
  if has_website && negb site_exists then
    print "  ✗ Could not reach site automatically." ;;;
    answer <- prompt "  Do you know the site exists? (y/n)" [] (VStr "n") ;;
    manual_confirm <- lift (lower_of answer) ;;
    if String.eqb manual_confirm "y" then
      print "  ✓ Marked as existing (manual confirm) — SEO checks skipped" ;;;
      ret (true, clean_url (str_arg website_url), None)
    else ret (site_exists, site_url, html)
  else ret (site_exists, site_url, html).

(** Lines 317-321: the findings derived from the page-speed percentage. *)
Definition speed_findings (pagespeed_pct : option Z) : list string :=
  match pagespeed_pct with
  | None => []
  | Some pct =>
      if pct <? 50 then
        ["Mobile PageSpeed score is " +:+ pretty pct
         +:+ "/100 — very slow, hurts rankings"]
      else if pct <? 70 then
        ["Mobile PageSpeed score is " +:+ pretty pct
         +:+ "/100 — needs improvement"]
      else []
  end.

(** Lines 326-333: rating and review count, scraped or asked. *)
Definition review_fields (gbp : gmap string pyval) : M (pyval * pyval) :=
  let rating := default VNone (gbp !! "rating") in
  let review_count := default VNone (gbp !! "review_count") in
  if is_str rating "?" || is_str review_count "?" then
    print "  Could not scrape GBP data — enter manually." ;;;
    print ("  (Look at their Google listing in your browser)" +:+ Str.nl) ;;;
    review_rating <- prompt "  Google star rating (e.g. 4.2, or 'none')" [] (VStr "none") ;;
    review_count <- prompt "  Number of Google reviews (or '0')" [] (VStr "0") ;;
    ret (review_rating, review_count)
  else ret (rating, review_count).

(** [pagespeed_pct if pagespeed_pct else 'Could not fetch (quota or no key)'] *)
Definition pagespeed_line (pagespeed_pct : option Z) : string :=
  "    PageSpeed:    " +:+
  match pagespeed_pct with
  | Some pct => if pct =? 0 then "Could not fetch (quota or no key)" else pretty pct
  | None => "Could not fetch (quota or no key)"
  end.

Definition tick (b : bool) : string := if b then "✓" else "✗".

(** Lines 336-347: the summary of what was detected. *)
Definition print_summary (site_exists : bool) (html : option string)
    (pagespeed_pct : option Z) (seo : gmap string bool)
    (review_rating review_count : pyval) : M unit :=
  print (Str.nl +:+ "  Auto-detected:") ;;;
  print ("    Website:      " +:+ (if site_exists then "✓ Found" else "✗ Not found")) ;;;
  (if site_exists && truthy (from_option VStr VNone html) then
     print (pagespeed_line pagespeed_pct) ;;;
     print ("    City in title:" +:+ tick (negb (missing seo "city_in_title"))) ;;;
     print ("    Mobile ready: " +:+ tick (negb (missing seo "is_mobile_ready"))) ;;;
     print ("    Phone on site:" +:+ tick (negb (missing seo "has_phone")))
   else if site_exists then
     print (pagespeed_line pagespeed_pct) ;;;
     print "    SEO checks:   Skipped (site confirmed manually)"
   else ret tt) ;;;
  print ("    Rating:       " +:+ str review_rating) ;;;
  print ("    Reviews:      " +:+ str review_count).

(** [int(override) if override.isdigit() else auto] *)
Definition override_or (override : pyval) (auto : Z) : M pyval :=
  match override with
  | VStr o =>
      if Str.isdigit o then
        match Str.to_int o with
        | Some z => ret (VInt z)
        | None => raise ValueError
        end
      else ret (VInt auto)
  | _ => raise AttributeError
  end.

(** Lines 365-373: the website score stored in the record. *)
Definition website_score_of (auto_site_score : Z) (site_exists : bool)
  : M pyval :=
  if negb (auto_site_score =? 0) && site_exists then
    print (Str.nl +:+ "  Website Quality — auto-detected score: "
           +:+ pretty auto_site_score +:+ "/5") ;;;
    override <- prompt "  Override? (leave blank to accept)" [] (VStr "") ;;
    override_or override auto_site_score
  else if negb site_exists then
    print (Str.nl +:+ "  Website Quality — set to 1 (no website found)") ;;;
    ret (VInt 1)
  else
    prompt ("Website Quality" +:+ Str.nl
            +:+ "   (Does it exist? Clear content, mentions city+service?)")
      score_opts VNone.

(** Lines 376-388: the speed score stored in the record. *)
Definition speed_score_of (auto_speed_score pagespeed_pct : option Z)
    (site_exists : bool) : M pyval :=
  (* [if auto_speed_score:] holds for an integer other than 0 *)
  let auto := default 0 auto_speed_score in
  if negb (auto =? 0) then
    print (Str.nl +:+ "  Mobile Page Speed — auto-detected score: "
           +:+ pretty auto +:+ "/5 ("
           +:+ from_option pretty "None" pagespeed_pct +:+ "/100)") ;;;
    override <- prompt "  Override? (leave blank to accept)" [] (VStr "") ;;
    override_or override auto
  else if negb site_exists then
    print (Str.nl +:+ "  Mobile Page Speed — set to 1 (no website found)") ;;;
    ret (VInt 1)
  else
    print (Str.nl +:+ "  Mobile Page Speed — could not auto-fetch") ;;;
    (if String.eqb (PAGESPEED_API_KEY P) "" then
       print "  Tip: Add a free PageSpeed API key to enable auto-scoring" ;;;
       print "  Get one at: https://developers.google.com/speed/docs/insights/v5/get-started"
     else ret tt) ;;;
    prompt "  Score manually" score_opts VNone.

(** Lines 416-421: the operator's own findings, one turn of the loop per
    terminal line; [manual_findings] is the list built so far. *)
Fixpoint read_findings (manual_findings : list string)
    (pending out : list string) : result (list string) * list string * list string :=
  let out := (out ++ ["  > "])%list in
  match pending with
  | [] => (Raise EOFError, [], out)
  | l :: rest =>
      let line := Str.strip l in
      if String.eqb line ""
         && (match manual_findings with [] => true | _ => false end
             || from_option (String.eqb "") false (last manual_findings))
      then (Ok manual_findings, rest, out)
      else
        read_findings
          (if String.eqb line "" then manual_findings
           else (manual_findings ++ [line])%list)
          rest out
  end.

(** The loop, run on the terminal with [manual_findings = []]. *)
Definition read_manual_findings : M (list string) :=
  fun w =>
    let '(r, pending, out) := read_findings [] (stdin w) (stdout w) in
    (r, World pending out (sent w)).

(** Lines 429-432: up to three recommendations, the empty ones dropped. *)
Fixpoint read_recommendations (i : Z) (n : nat) (acc : list pyval)
  : M (list pyval) :=
  match n with
  | O => ret acc
  | S k =>
      r <- prompt ("  Recommendation " +:+ pretty i) [] VNone ;;
      read_recommendations (i + 1) k
        (if truthy r then (acc ++ [r])%list else acc)
  end.

Definition collect_data : M (gmap string pyval) :=
  print (Str.nl +:+ Str.repeat "=" 55) ;;;
  print "  QUESO VENTURES — SMART AUDIT GENERATOR" ;;;
  print (Str.repeat "=" 55) ;;;
  let data : gmap string pyval := ∅ in
  let auto_findings : list string := [] in
  (* Business info *)
  divider "BUSINESS INFO" ;;;
  business_name <- prompt "Business name" [] VNone ;;
  let data := <["business_name" := business_name]> data in
  business_type <- prompt "Business type (e.g. Auto Repair, Barber Shop)" [] VNone ;;
  let data := <["business_type" := business_type]> data in
  business_city <- prompt "City / Neighborhood (e.g. Humble, TX)" [] VNone ;;
  let data := <["business_city" := business_city]> data in
  website_input <- prompt "Website URL (or leave blank if none)" [] (VStr "") ;;
  has_website <-
    (if truthy website_input then
       l <- lift (lower_of website_input) ;;
       ret (negb (bool_decide (l ∈ ["none"; "n"; ""])))
     else ret false) ;;
  let data := <["has_website" := VBool has_website]> data in
  let website_url := if has_website then website_input else VStr "None" in
  let data := <["website_url" := website_url]> data in
  (* Auto-fetch phase *)
  divider "AUTO-FETCHING DATA" ;;;
  checked <- website_check has_website website_url ;;
  let '(site_exists, site_url, html) := checked in
  let data := <["has_website" := VBool site_exists]> data in
  seo <- lift (if truthy (from_option VStr VNone html)
               then check_website_seo_basics html business_city business_type
               else Ok ∅) ;;
  scored <- lift (auto_website_score site_exists seo) ;;
  let '(auto_site_score, site_issues) := scored in
  let auto_findings := (auto_findings ++ site_issues)%list in
  fetched <- (if site_exists then get_pagespeed_score site_url
              else ret (None, VStr "No website")) ;;
  let '(pagespeed_pct, ps_error) := fetched in
  let auto_speed_score := pagespeed_to_score pagespeed_pct in
  let auto_findings := (auto_findings ++ speed_findings pagespeed_pct)%list in
  gbp <- scrape_gbp_basics business_name business_city ;;
  reviews <- review_fields gbp ;;
  let '(review_rating, review_count) := reviews in
  let data := <["review_rating" := review_rating]> data in
  let data := <["review_count" := review_count]> data in
  print_summary site_exists html pagespeed_pct seo review_rating review_count ;;;
  (* Competitor *)
  divider "COMPETITOR" ;;;
  print ("  Search Google for: " +:+ dq +:+ str business_type +:+ " "
         +:+ str business_city +:+ dq) ;;;
  print "  Find the top map result that isn't this business." ;;;
  print ("  Leave blank and hit Enter to skip any field." +:+ Str.nl) ;;;
  comp_name <- prompt "Competitor name" [] (VStr "N/A") ;;
  let data := <["comp_name" := comp_name]> data in
  comp_reviews <- prompt "Competitor review count" [] (VStr "N/A") ;;
  let data := <["comp_reviews" := comp_reviews]> data in
  comp_rating <- prompt "Competitor star rating" [] (VStr "N/A") ;;
  let data := <["comp_rating" := comp_rating]> data in
  answer <- prompt "Competitor has website? (y/n)" [] (VStr "y") ;;
  comp_has_site <- lift (lower_of answer) ;;
  let data := <["comp_has_site" := VBool (String.eqb comp_has_site "y")]> data in
  (* Scoring *)
  divider "SCORING" ;;;
  website_score <- website_score_of auto_site_score site_exists ;;
  let data := <["website_score" := website_score]> data in
  speed_score <- speed_score_of auto_speed_score pagespeed_pct site_exists ;;
  let data := <["speed_score" := speed_score]> data in
  print (Str.nl +:+ "  Google Business Profile") ;;;
  print "  Check: photos, services listed, description written, posts, correct hours" ;;;
  gbp_score <- prompt "  Score" score_opts VNone ;;
  let data := <["gbp_score" := gbp_score]> data in
  print (Str.nl +:+ "  Local Search Visibility") ;;;
  print ("  Search: " +:+ dq +:+ str business_type +:+ " " +:+ str business_city
         +:+ dq +:+ " — are they in the top 3 map results?") ;;;
  visibility_score <- prompt "  Score" score_opts VNone ;;
  let data := <["visibility_score" := visibility_score]> data in
  print (Str.nl +:+ "  GEO / AI Search Readiness") ;;;
  print ("  Ask ChatGPT: " +:+ dq +:+ "best " +:+ str business_type +:+ " in "
         +:+ str business_city +:+ dq +:+ " — do they appear?") ;;;
  geo_score <- prompt "  Score" score_opts VNone ;;
  let data := <["geo_score" := geo_score]> data in
  (* Findings *)
  divider "FINDINGS" ;;;
  (match auto_findings with
   | [] => ret tt
   | _ =>
       print (Str.nl +:+ "  Auto-detected issues (will be included automatically):") ;;;
       foldr (fun f k => print ("    → " +:+ f) ;;; k) (ret tt) auto_findings
   end) ;;;
  print (Str.nl +:+ "  Add your own findings (press Enter twice when done):") ;;;
  manual_findings <- read_manual_findings ;;
  let data := <["findings" := VList (VStr <$> (auto_findings ++ manual_findings)%list)]> data in
  (* Recommendations *)
  divider "RECOMMENDATIONS" ;;;
  print ("  Enter top 3 recommendations:" +:+ Str.nl) ;;;
  recommendations <- read_recommendations 1 3 [] ;;
  let data := <["recommendations" := VList recommendations]> data in
  auditor_name <- prompt (Str.nl +:+ "Your name") [] (VStr "Queso Ventures") ;;
  let data := <["auditor_name" := auditor_name]> data in
  let data := <["audit_date" := VStr (today P)]> data in
  ret data.

End Script.

(** ** The report: what [build_pdf] and [main] compute from the record *)

(** The keys of the five category scores, in the order of the report. *)
Definition category_keys : list string :=
  ["website_score"; "speed_score"; "gbp_score"; "visibility_score"; "geo_score"].

(** [data[key]] where the record holds an integer; [None] stands for the
    failure of the lookup or of the arithmetic on another kind of value. *)
Definition score_at (data : gmap string pyval) (key : string) : option Z :=
  match data !! key with
  | Some (VInt z) => Some z
  | _ => None
  end.

(** Line 489: [sum([data[k] for k in [...]])] *)
Definition total_score (data : gmap string pyval) : option Z :=
  foldr (fun key acc => z ← score_at data key; t ← acc; Some (z + t))
        (Some 0) category_keys.

(** Line 490: [int((total_score / 25) * 100)] *)
Definition total_pct (total_score : Z) : result Z :=
  match truediv total_score 25 with
  | Ok ratio =>
      match F64.trunc (F64.mul ratio (F64.of_Z 100)) with
      | Some pct => Ok pct
      | None => Raise OverflowError
      end
  | Raise e => Raise e
  end.

(** Line 491: [score_color(total_score, 25)] *)
Definition overall_col (total_score : Z) : result color :=
  score_color total_score 25.

(** Line 662: [data["business_name"].replace(" ", "_").replace("/", "-").lower()] *)
Definition safe_name (business_name : pyval) : result string :=
  match business_name with
  | VStr s => Ok (Str.lower (Str.replace (Str.replace s " " "_") "/" "-"))
  | _ => Raise AttributeError
  end.

(** Line 663: the name of the file, [stamp] being
    [date.today().strftime('%Y%m%d')] *)
Definition audit_filename (stamp : string) (business_name : pyval)
  : result string :=
  match safe_name business_name with
  | Ok name => Ok ("audit_" +:+ name +:+ "_" +:+ stamp +:+ ".pdf")
  | Raise e => Raise e
  end.


(** * Reference definitions, in the words of the specification *)

(** ** Website score: penalties as exact rationals *)

Definition penalty_table : list (string * Q) :=
  [("city_in_title", 1 # 2); ("city_in_h1", 1 # 2); ("has_phone", 1 # 2);
   ("city_in_content", 1 # 1); ("service_mentioned", 1 # 1);
   ("is_mobile_ready", 1 # 1)]%Q.

(** The sum of the penalties of the signals that are not true in [seo]. *)
Definition penalties (seo : gmap string bool) : Q :=
  foldr (fun kp acc => if missing seo (fst kp) then (snd kp + acc)%Q else acc)
        (0 # 1)%Q penalty_table.

(** Nearest integer, a tie going to the even neighbour. *)
Definition round_half_even (q : Q) : Z :=
  let f := Qfloor q in
  match Qcompare (q - inject_Z f)%Q (1 # 2)%Q with
  | Lt => f
  | Gt => f + 1
  | Eq => if Z.even f then f else f + 1
  end.

(** 5 minus the penalties, rounded by [rnd] and not below 1. *)
Definition derived_score (rnd : Q -> Z) (seo : gmap string bool) : Z :=
  Z.max 1 (rnd (5 - penalties seo)%Q).

(** The issue texts of the signals that are not true in [seo], in the order
    the script tests them. *)
Definition issue_table : list (string * string) :=
  [("city_in_title", "City not in page title");
   ("city_in_h1", "City not in main headline");
   ("city_in_content", "City name not found in page content");
   ("service_mentioned", "Service type not clearly mentioned on page");
   ("is_mobile_ready", "No mobile viewport meta tag — may not be mobile friendly");
   ("has_phone", "No phone number detected on page")].

Definition issues_of (seo : gmap string bool) : list string :=
  snd <$> filter (fun ki => missing seo (fst ki) = true) issue_table.

(** ** Score bands: exact comparison of [score / max_score] with 40% and 70% *)

Inductive tier : Type := Lowest | Middle | Top.

Definition band (score max_score : Z) : tier :=
  if 10 * score <? 4 * max_score then Lowest
  else if 10 * score <? 7 * max_score then Middle
  else Top.

Definition tier_color (t : tier) : color :=
  match t with Lowest => RED | Middle => ORANGE | Top => GREEN end.

Definition tier_label (t : tier) : string :=
  match t with Lowest => "Needs Work" | Middle => "Fair" | Top => "Good" end.

Definition color_eqb (a b : color) : bool :=
  match a, b with
  | YELLOW, YELLOW | DARK, DARK | LIGHT_GRAY, LIGHT_GRAY | MID_GRAY, MID_GRAY
  | TEXT_GRAY, TEXT_GRAY | WHITE, WHITE | RED, RED | ORANGE, ORANGE
  | GREEN, GREEN => true
  | _, _ => false
  end.

(** [score_color] and [score_label] both answer with the band of [score]. *)
Definition in_band (max_score score : Z) : bool :=
  match score_color score max_score, score_label score max_score with
  | Ok c, Ok l =>
      color_eqb c (tier_color (band score max_score))
      && String.eqb l (tier_label (band score max_score))
  | _, _ => false
  end.

(** The scores [0 .. n-1]. *)
Definition scores_below (n : nat) : list Z := Z.of_nat <$> seq 0 n.

(** ** The menu prompt *)

(** A terminal line is accepted by a menu of [n] entries when it reads as
    an integer between 1 and [n]. *)
Definition accepted (n : Z) (line : string) : Prop :=
  exists v, Str.to_int (Str.strip line) = Some v /\ 1 <= v <= n.

(** ** The page-speed response *)

(** The value reached by following [keys] through nested dictionaries. *)
Fixpoint lookup_path (v : pyval) (keys : list string) : option pyval :=
  match keys with
  | [] => Some v
  | k :: ks =>
      match v with
      | VDict d =>
          match assoc d k with
          | Some v' => lookup_path v' ks
          | None => None
          end
      | _ => None
      end
  end.

Definition score_path : list string :=
  ["lighthouseResult"; "categories"; "performance"; "score"].

(** The normalized percentage field of a response: present when the path
    leads to a value other than [null]. *)
Definition score_field (data : pyval) : option pyval :=
  match lookup_path data score_path with
  | Some VNone => None
  | found => found
  end.

(** ** First matches of a pattern *)

(** The character before position [i] of a text and the text from [i] on. *)
Fixpoint split_at (prev : option ascii) (s : string) (i : nat)
  : option (option ascii * string) :=
  match i with
  | O => Some (prev, s)
  | S k =>
      match s with
      | EmptyString => None
      | String c s' => split_at (Some c) s' k
      end
  end.

(** The pattern matches at position [i] of [s] and captures [r]. *)
Definition matches_at {A} (here : option ascii -> string -> option A)
    (s : string) (i : nat) (r : A) : Prop :=
  exists p t, split_at None s i = Some (p, t) /\ here p t = Some r.

(** [r] is captured by the leftmost match of the pattern in [s]. *)
Definition first_match {A} (here : option ascii -> string -> option A)
    (s : string) (r : A) : Prop :=
  exists i, matches_at here s i r
            /\ forall j r', (j < i)%nat -> ~ matches_at here s j r'.

Definition no_match {A} (here : option ascii -> string -> option A)
    (s : string) : Prop :=
  forall i r, ~ matches_at here s i r.

(** ** The listing lookup *)

(** The part of the page text that is searched. *)
Definition searched_text (P : Platform) (resp : response) : string :=
  Str.take 3000 (get_text (BeautifulSoup P (resp_text resp)) " " true).

(** ** What the terminal shows *)

(** The line announcing that the SEO checks are skipped. *)
Definition skipped_notice : string :=
  "  ✓ Marked as existing (manual confirm) — SEO checks skipped" +:+ Str.nl.

(** The announcement has not been written. *)
Definition quiet (w : world) : Prop := skipped_notice ∉ stdout w.

(** A computation that never writes the announcement. *)
Definition silent {A} (m : M A) : Prop :=
  forall w r w', m w = (r, w') -> quiet w -> quiet w'.

Fixpoint last_char (s : string) : option ascii :=
  match s with
  | EmptyString => None
  | String c EmptyString => Some c
  | String _ s' => last_char s'
  end.

(** The six issue texts, in the order of the tests. *)
Definition all_issues : list string := snd <$> issue_table.

(** ** The stages of a run of [collect_data] that returned [data]

    The website check ran from [wa] to [wb], the page-speed lookup from
    [wc] to [wd], the two score blocks from [we] to [wg]; the record holds
    what they produced. *)
Definition collected (P : Platform) (w : world) (data : gmap string pyval)
    (w' : world) : Prop :=
  exists (has_website : bool) (website_url business_city business_type : pyval)
         (site_exists : bool) (site_url html : option string)
         (seo : gmap string bool) (auto_site_score : Z)
         (site_issues : list string) (pagespeed_pct : option Z)
         (ps_error website_score speed_score : pyval)
         (manual_findings : list string) (wa wb wc wd we wf wg : world),
    website_check P has_website website_url wa
    = (Ok (site_exists, site_url, html), wb)
    /\ (if truthy (from_option VStr VNone html)
        then check_website_seo_basics P html business_city business_type
        else Ok ∅) = Ok seo
    /\ auto_website_score site_exists seo = Ok (auto_site_score, site_issues)
    /\ (if site_exists then get_pagespeed_score P site_url
        else ret (None, VStr "No website")) wc
       = (Ok (pagespeed_pct, ps_error), wd)
    /\ website_score_of P auto_site_score site_exists we = (Ok website_score, wf)
    /\ speed_score_of P (pagespeed_to_score pagespeed_pct) pagespeed_pct
         site_exists wf = (Ok speed_score, wg)
    /\ data !! "has_website" = Some (VBool site_exists)
    /\ data !! "website_score" = Some website_score
    /\ data !! "speed_score" = Some speed_score
    /\ data !! "findings"
       = Some (VList (VStr <$> (site_issues ++ speed_findings pagespeed_pct
                                ++ manual_findings)%list))
    /\ (quiet w -> quiet wa)
    /\ (quiet wb -> quiet w').

(** * Concrete platforms and sessions *)

(** A parser that finds no tag: the page is its own text. *)
Definition plain_soup (html : string) : soup :=
  Soup (fun _ _ => html) None [] false.

Definition message_of (e : exn) : string :=
  match e with
  | SSLError m | RequestError m => m
  | _ => "error"
  end.

(** A platform on [net]; nothing else varies. *)
Definition platform_on (net : list request -> request -> result response)
  : Platform :=
  {| net := net;
     BeautifulSoup := plain_soup;
     quote := fun s => s;
     str_other := fun _ => "<value>";
     str_exn := message_of;
     PAGESPEED_API_KEY := "";
     today := "November 04, 2026" |}.

(** No network at all. *)
Definition offline : Platform :=
  platform_on (fun _ _ => Raise (RequestError "offline")).

(** TLS fails; over plain HTTP every page answers with status 500. *)
Definition tls_broken : Platform :=
  platform_on (fun _ r =>
    if Str.startswith (req_url r) "https://"
    then Raise (SSLError "certificate verify failed")
    else Ok (Response 500 (req_url r) "Internal Server Error" None)).

(** The page-speed service reports 0.55; every other page is a small site. *)
Definition slow_site : Platform :=
  platform_on (fun _ r =>
    if String.eqb (req_url r)
         "https://www.googleapis.com/pagespeedonline/v5/runPagespeed"
    then Ok (Response 200 (req_url r) ""
               (Some (VDict [("lighthouseResult",
                  VDict [("categories",
                    VDict [("performance",
                      VDict [("score", VFloat (F64.lit 55 100))])])])])))
    else Ok (Response 200 (req_url r) "Joe's Garage of Humble - auto repair" None)).

(** A result page whose only rating and review count come after 3000
    characters of other text. *)
Definition late_listing : string :=
  Str.repeat "-" 3000 +:+ " Joe's Garage 4.8 (12 reviews)".

Definition long_page : Platform :=
  platform_on (fun _ r => Ok (Response 200 (req_url r) late_listing None)).

(** A result page with the rating and the review count at its start. *)
Definition short_page : Platform :=
  platform_on (fun _ r =>
    Ok (Response 200 (req_url r) "Joe's Garage 4.8 (12 reviews)" None)).

(** A result page that starts with the review count. *)
Definition bare_count : Platform :=
  platform_on (fun _ r =>
    Ok (Response 200 (req_url r) "692 reviews, rated 4.8" None)).

Definition fresh (lines : list string) : world := World lines [] [].

(** "Joe's Garage", no website given. *)
Definition joes_garage : world :=
  fresh ["Joe's Garage"; "Auto Repair"; "Humble, TX"; "";
         "none"; "0";
         ""; ""; ""; "";
         "3"; "2"; "x"; "1";
         "";
         "Claim the listing"; ""; ""; ""].

(** A site that cannot be reached and is confirmed by hand. *)
Definition confirmed_by_hand : world :=
  fresh ["Joe's Garage"; "Auto Repair"; "Humble, TX"; "joesgarage.example";
         "y";
         "4.2"; "17";
         ""; ""; ""; "";
         ""; "2";
         "3"; "2"; "1";
         "";
         ""; ""; ""; ""].

(** A reachable site measured at 55/100. *)
Definition measured_site : world :=
  fresh ["Joe's Garage"; "Auto Repair"; "Humble, TX"; "joesgarage.example";
         "4.2"; "17";
         ""; ""; ""; "";
         ""; "";
         "3"; "2"; "1";
         "";
         ""; ""; ""; ""].

(** All signals found but the city in the title: 5 - 0.5 = 4.5. *)
Definition tie_seo : gmap string bool :=
  {[ "city_in_title" := false; "city_in_h1" := true;
     "city_in_content" := true; "service_mentioned" := true;
     "is_mobile_ready" := true; "has_phone" := true ]}.

(** The fields of a record that the properties look at. *)
Definition shown (r : result (gmap string pyval) * world)
  : option (list (option pyval)) :=
  match fst r with
  | Ok data =>
      Some ((fun k => data !! k) <$>
            ["has_website"; "website_score"; "speed_score"; "findings"])
  | Raise _ => None
  end.

(** ** Page-speed findings *)

Definition improvement_finding (pct : Z) : string :=
  "Mobile PageSpeed score is " +:+ pretty pct +:+ "/100 — needs improvement".

(** ** Shapes of the scraped fields *)

(** A digit from 1 to 5, a dot and a digit. *)
Definition is_rating (r : string) : Prop :=
  exists a c, r = String a (String "." (String c EmptyString))
              /\ 49 <= Str.code a <= 53 /\ Str.is_digit c = true.

(** One to five digits. *)
Definition is_count (n : string) : Prop :=
  Str.isdigit n = true /\ (1 <= String.length n <= 5)%nat.

(** The announcement is among what a run wrote. *)
Definition announced (r : result (gmap string pyval) * world) : bool :=
  bool_decide (skipped_notice ∈ stdout (snd r)).

(** * Further reference definitions *)

(** No white space at either end. *)
Definition trimmed (s : string) : Prop :=
  (forall c, head s = Some c -> Str.is_space c = false)
  /\ (forall c, last_char s = Some c -> Str.is_space c = false).

(** The test of [check_website] for "no website was given". *)
Definition no_website_given (url : option string) : bool :=
  match url with
  | None => true
  | Some u => String.eqb u "" || bool_decide (Str.lower u ∈ ["none"; "n"; ""])
  end.

(** What the menu loop writes for a rejected line: the question, then the
    complaint. *)
Definition rejected_turn : list string :=
  ["    Enter number: "; "    Invalid. Try again." +:+ Str.nl].

(** The characters of a text. *)
Fixpoint chars (s : string) : list ascii :=
  match s with
  | EmptyString => []
  | String c s' => c :: chars s'
  end.

(** The keys of a record returned by [collect_data]. *)
Definition record_keys : gset string :=
  list_to_set
    ["business_name"; "business_type"; "business_city"; "has_website";
     "website_url"; "review_rating"; "review_count"; "comp_name";
     "comp_reviews"; "comp_rating"; "comp_has_site"; "website_score";
     "speed_score"; "gbp_score"; "visibility_score"; "geo_score"; "findings";
     "recommendations"; "auditor_name"; "audit_date"].

(** The keys of the dictionary of SEO signals. *)
Definition signal_keys : gset string :=
  list_to_set
    ["city_in_title"; "city_in_h1"; "city_in_content"; "service_mentioned";
     "is_mobile_ready"; "has_phone"].

(** A non-empty string value. *)
Definition filled (v : pyval) : Prop := exists s, v = VStr s /\ s <> "".

(** An answer to a free-text question: the default, or a non-empty text
    without white space at its ends. *)
Definition answer_of (default : pyval) (v : pyval) : Prop :=
  v = default \/ exists s, v = VStr s /\ s <> "" /\ trimmed s.

(** The lines of a menu: [f"    {i}. {o}"] for the options numbered from [i]. *)
Fixpoint menu_lines (i : Z) (options : list string) : list string :=
  match options with
  | [] => []
  | o :: os =>
      (("    " +:+ pretty i +:+ ". " +:+ o) +:+ Str.nl) :: menu_lines (i + 1) os
  end.

(** What a menu writes before its first question. *)
Definition menu_header (label : string) (options : list string) : list string :=
  ((Str.nl +:+ "  " +:+ label) +:+ Str.nl) :: menu_lines 1 options.

(** [int(score * 100)] *)
Definition percent_of (score : pyval) : result Z :=
  match times100 score with
  | Ok scaled => int_of scaled
  | Raise e => Raise e
  end.

(** The answer to a free-text question read from [line]. *)
Definition text_answer (default : pyval) (line : string) : pyval :=
  if String.eqb (Str.strip line) "" then default else VStr (Str.strip line).

(** A field of the scraped listing was found. *)
Definition scraped (gbp : gmap string pyval) (key : string) : bool :=
  negb (is_str (default VNone (gbp !! key)) "?").

(** A dictionary of signals holding the six flags. *)
Definition flags_seo (f : list bool) : gmap string bool :=
  list_to_map
    (zip ["city_in_title"; "city_in_h1"; "city_in_content";
          "service_mentioned"; "is_mobile_ready"; "has_phone"] f).

(** The six flags of a dictionary of signals, a missing key counting as
    false. *)
Definition seo_flags (seo : gmap string bool) : list bool :=
  (fun k => negb (missing seo k)) <$>
  ["city_in_title"; "city_in_h1"; "city_in_content"; "service_mentioned";
   "is_mobile_ready"; "has_phone"].

(** All lists of [n] flags. *)
Fixpoint all_flags (n : nat) : list (list bool) :=
  match n with
  | O => [[]]
  | S k => (cons true <$> all_flags k) ++ (cons false <$> all_flags k)
  end.

(** Every flag raised in [f] is raised in [g]. *)
Fixpoint flags_le (f g : list bool) : bool :=
  match f, g with
  | a :: f', b :: g' => implb a b && flags_le f' g'
  | _, _ => true
  end.

(** The score of the flags, as the script computes it. *)
Definition flag_score (f : list bool) : Z :=
  match auto_website_score true (flags_seo f) with
  | Ok (s, _) => s
  | Raise _ => 0
  end.

Definition flag_issues (f : list bool) : list string :=
  match auto_website_score true (flags_seo f) with
  | Ok (_, issues) => issues
  | Raise _ => []
  end.

(** Over all pairs of flag lists: more flags, no smaller score and no more
    issues; the score is 5 exactly without issue; one issue per missing
    flag. *)
Definition flags_checked : bool :=
  let table :=
    (fun f => (f, flag_score f, length (flag_issues f))) <$> all_flags 6 in
  forallb (fun '(f, s, n) =>
    (Bool.eqb (s =? 5) (n =? 0)%nat)
    && (n =? length (filter (fun b => b = false) f))%nat
    && forallb (fun '(g, t, m) =>
         implb (flags_le f g) ((s <=? t) && (m <=? n)%nat))
         table)
    table.

(** A computation that sends at most [n] requests, whatever its outcome. *)
Definition sends {A} (n : nat) (m : M A) : Prop :=
  forall w r w', m w = (r, w') ->
    exists reqs, sent w' = (sent w ++ reqs)%list /\ (length reqs <= n)%nat.

(** The text of a free-text question. *)
Definition question (P : Platform) (label : string) (default : pyval)
  : string :=
  "  " +:+ label
  +:+ (if truthy default then " [" +:+ str P default +:+ "]" else "") +:+ ": ".

(** The character of the file name made from a character of the business
    name. *)
Definition safe_char (c : ascii) : ascii :=
  if Ascii.eqb c " " then "_"%char
  else if Ascii.eqb c "/" then "-"%char
  else Str.lower_char c.

(** The colour of the overall score out of 25. *)
Definition overall_band (t : Z) : color :=
  if t <? 10 then RED else if t <? 18 then ORANGE else GREEN.

(** The overview of the report is exact for the total [t]. *)
Definition overview_exact (t : Z) : bool :=
  match total_pct t, overall_col t with
  | Ok pct, Ok c => (pct =? 4 * t) && color_eqb c (overall_band t)
  | _, _ => false
  end.

(** A separator of the groups of a telephone number: white space, a hyphen
    or a dot. *)
Definition is_sep (c : ascii) : bool :=
  Str.is_space c || Ascii.eqb c "-" || Ascii.eqb c ".".

(** [n] digits. *)
Definition digit_group (n : nat) (d : string) : Prop :=
  String.length d = n /\ Str.all_digits d = true.

(** A telephone number as the script looks for it: three digits, in
    brackets or not (either bracket may be missing), a separator, three
    digits, a separator, four digits. *)
Definition phone_number (m : string) : Prop :=
  exists (op cl a b c : string) (s1 s2 : ascii),
    m = op +:+ a +:+ cl +:+ String s1 b +:+ String s2 c
    /\ (op = "" \/ op = "(") /\ (cl = "" \/ cl = ")")
    /\ digit_group 3 a /\ digit_group 3 b /\ digit_group 4 c
    /\ is_sep s1 = true /\ is_sep s2 = true.

(** What follows a separator at the head of a text. *)
Definition after_sep (s : string) : option string :=
  match s with
  | String c s' => if is_sep c then Some s' else None
  | EmptyString => None
  end.

(** A value that holds no text, or an ASCII text. *)
Definition plain_value (v : pyval) : bool :=
  match v with
  | VStr s => Str.is_ascii s
  | _ => true
  end.

(** What the page-speed lookup returns for the score of the response: the
    percentage [int(score * 100)] when it can be computed and printed,
    and otherwise the text of the exception. *)
Definition lookup_result (P : Platform) (score : pyval) : option Z * pyval :=
  match percent_of score with
  | Ok pct =>
      match str_int pct with
      | Ok _ => (Some pct, VNone)
      | Raise e => (None, VStr (str_exn P e))
      end
  | Raise e => (None, VStr (str_exn P e))
  end.

(** ** The page-speed service *)

(** The page-speed service answers every request, whatever was sent before,
    with a score whose percentage [int(score * 100)] is [p]. *)
Definition measures (P : Platform) (p : Z) : Prop :=
  forall (history : list request) (u : string),
    exists resp data score,
      net P history (pagespeed_request P u) = Ok resp
      /\ resp_json resp = Some data
      /\ score_field data = Some score
      /\ plain_value score = true
      /\ percent_of score = Ok p.

(** The line that offers the speed score [s] derived from the percentage
    [p]. *)
Definition speed_offer (s p : Z) : string :=
  (Str.nl +:+ "  Mobile Page Speed — auto-detected score: " +:+ pretty s
   +:+ "/5 (" +:+ pretty p +:+ "/100)") +:+ Str.nl.

(** The terminal later in a run: lines were taken from the input, texts
    were added to the output. *)
Definition continues (w w' : world) : Prop :=
  (exists used, stdin w = (used ++ stdin w')%list)
  /\ (exists out, stdout w' = (stdout w ++ out)%list).

(** A computation that only takes lines from the input and adds texts to
    the output. *)
Definition orderly {A} (m : M A) : Prop :=
  forall w r w', m w = (r, w') -> continues w w'.

(** ** The patterns of the listing lookup, in words *)

(** All the characters of a text are in a class. *)
Fixpoint all_chars (p : ascii -> bool) (s : string) : bool :=
  match s with
  | EmptyString => true
  | String c s' => p c && all_chars p s'
  end.

(** The first character of a text is not in a class (or there is none). *)
Definition not_headed (p : ascii -> bool) (s : string) : Prop :=
  forall c, head s = Some c -> p c = false.

(** A rating at the start of [s], after the character [prev]: a digit from
    1 to 5, a dot and a digit, neither preceded nor followed by a letter, a
    digit or an underscore. *)
Definition rating_phrase (prev : option ascii) (s r : string) : Prop :=
  exists rest,
    s = r +:+ rest /\ is_rating r
    /\ word_opt prev = false /\ word_opt (head rest) = false.

(** The word "review" or "reviews" in any letter case at the start of [t],
    not followed by a letter, a digit or an underscore. *)
Definition review_word (t : string) : Prop :=
  exists r rest,
    t = r +:+ rest
    /\ (Str.lower r = "review" \/ Str.lower r = "reviews")
    /\ word_opt (head rest) = false.

(** A review count at the start of [s]: an opening bracket or a white-space
    character, one to five digits (the count [n]), white space or none,
    then the word "review" or "reviews", or the word "Google", white space
    and that word; letters in any case. *)
Definition review_phrase (s n : string) : Prop :=
  exists lead ws tail,
    s = String lead (n +:+ ws +:+ tail)
    /\ (lead = "("%char \/ Str.is_space lead = true)
    /\ is_count n
    /\ all_chars Str.is_space ws = true
    /\ (review_word tail
        \/ exists g gap tail',
             tail = g +:+ gap +:+ tail'
             /\ Str.lower g = "google"
             /\ gap <> "" /\ all_chars Str.is_space gap = true
             /\ review_word tail').


(** * Proofs *)

(** ** Running computations *)

Lemma bind_Ok {A B} (m : M A) (k : A -> M B) w b w' :
  bind m k w = (Ok b, w') ->
  exists a w1, m w = (Ok a, w1) /\ k a w1 = (Ok b, w').
Proof.
  unfold bind. destruct (m w) as [[a|e] w1]; [eauto | discriminate].
Qed.

Lemma bind_print {B} s (k : unit -> M B) w :
  bind (print s) k w
  = k tt (World (stdin w) (stdout w ++ [s +:+ Str.nl])%list (sent w)).
Proof. reflexivity. Qed.

Lemma print_options_run i os w :
  exists out, print_options i os w = (Ok tt, World (stdin w) out (sent w)).
Proof.
  revert i w. induction os as [|o os IH]; intros i w; cbn [print_options].
  - exists (stdout w). destruct w; reflexivity.
  - rewrite bind_print.
    match goal with |- context [print_options ?j os ?w0] =>
      destruct (IH j w0) as [out Hout] end.
    exists out. exact Hout.
Qed.

Lemma lift_Ok {A} (r : result A) w a w' : lift r w = (Ok a, w') -> r = Ok a.
Proof. unfold lift. congruence. Qed.

Lemma ret_Ok {A} (x : A) w a w' : ret x w = (Ok a, w') -> a = x /\ w' = w.
Proof. unfold ret. intros H; inversion H; auto. Qed.

(** Naming the result of the next statement of a run that returned. *)
Tactic Notation "step" hyp(H) "as" simple_intropattern(a) ident(Ha) :=
  let w1 := fresh "w" in
  apply bind_Ok in H as (a & w1 & Ha & H); cbv beta zeta in H.

Tactic Notation "skip" hyp(H) :=
  let w1 := fresh "w" in
  apply bind_Ok in H as (_ & w1 & _ & H); cbv beta zeta in H.

(** ** The model on small inputs *)

Example strip_spaces : Str.strip "  joesgarage.example 	" = "joesgarage.example".
Proof. reflexivity. Qed.

Example replace_every_scheme :
  Str.replace "https://a.example/?next=https://b" "https://" "http://"
  = "http://a.example/?next=http://b".
Proof. reflexivity. Qed.

Example to_int_readings :
  Str.to_int " +1_000 " = Some 1000 /\ Str.to_int "-7" = Some (-7)
  /\ Str.to_int "1__0" = None /\ Str.to_int "" = None
  /\ Str.to_int "3.5" = None.
Proof. repeat split. Qed.

Example clean_url_adds_scheme :
  clean_url (Some " example.com ") = Some "https://example.com"
  /\ clean_url (Some "http://example.com") = Some "http://example.com"
  /\ clean_url (Some "httpbin.org") = Some "httpbin.org"
  /\ clean_url (Some "") = None /\ clean_url None = None.
Proof. repeat split. Qed.

(** The literals 0.4, 0.7 and 0.5 as binary64 values
    (0x3FD999999999999A, 0x3FE6666666666666, 0x3FE0000000000000). *)
Example float_literals :
  F64.lit 4 10 = S754_finite false 7205759403792794 (-54)
  /\ F64.lit 7 10 = S754_finite false 6305039478318694 (-53)
  /\ F64.lit 5 10 = S754_finite false 4503599627370496 (-53).
Proof. repeat split; vm_compute; reflexivity. Qed.

(** [int(0.57 * 100)] is 56 and [int(0.55 * 100)] is 55, as in CPython. *)
Example percent_of_float :
  int_of (VFloat (F64.mul (F64.lit 57 100) (F64.of_Z 100))) = Ok 56
  /\ int_of (VFloat (F64.mul (F64.lit 55 100) (F64.of_Z 100))) = Ok 55.
Proof. split; vm_compute; reflexivity. Qed.

Example round_ties_to_even :
  F64.round (F64.lit 45 10) = Some 4 /\ F64.round (F64.lit 35 10) = Some 4
  /\ F64.round (F64.lit 25 10) = Some 2 /\ F64.round (F64.lit 5 10) = Some 0
  /\ F64.round (F64.lit 26 10) = Some 3.
Proof. repeat split; vm_compute; reflexivity. Qed.

Example rating_needs_word_boundaries :
  search rating_at None "Joe 14.5 and 4.95 then (4.8) stars" = Some "4.8".
Proof. reflexivity. Qed.

Example review_needs_a_leading_character :
  search review_at None "692 reviews" = None
  /\ search review_at None " 692 reviews" = Some "692"
  /\ search review_at None "(692) Google reviews" = None
  /\ search review_at None "(34 Google  Reviews)" = Some "34"
  /\ search review_at None " 123456 reviews" = None.
Proof. repeat split. Qed.

Example phone_found :
  search phone_at None "call (281) 555-1234 now" = Some tt
  /\ search phone_at None "call 281.555.123 now" = None.
Proof. split; reflexivity. Qed.

(** ** Scoring helpers *)

Lemma forallb_scores_below (f : Z -> bool) (n : nat) (s : Z) :
  forallb f (scores_below n) = true -> 0 <= s < Z.of_nat n -> f s = true.
Proof.
  intros Hall Hs. rewrite forallb_forall in Hall. apply Hall.
  unfold scores_below. apply in_map_iff. exists (Z.to_nat s). split; [lia|].
  apply in_seq. lia.
Qed.

Lemma bands_checked_5 : forallb (in_band 5) (scores_below 1001) = true.
Proof. vm_compute. reflexivity. Qed.

Lemma bands_checked_25 : forallb (in_band 25) (scores_below 1001) = true.
Proof. vm_compute. reflexivity. Qed.

(** ** Website score *)

(** The score and the issues depend on [seo] only through the six tests
    [missing seo key]. *)
Lemma auto_website_score_cases (seo : gmap string bool) :
  auto_website_score true seo
  = Ok (derived_score round_half_even seo, issues_of seo).
Proof.
  unfold auto_website_score, derived_score, penalties, issues_of, penalize,
    penalty_table, issue_table.
  cbn [negb foldr fst snd filter list_filter fmap list_fmap].
  generalize (missing seo "city_in_title") (missing seo "city_in_h1")
    (missing seo "city_in_content") (missing seo "service_mentioned")
    (missing seo "is_mobile_ready") (missing seo "has_phone").
  intros [] [] [] [] [] []; vm_compute; reflexivity.
Qed.

Lemma derived_score_range (seo : gmap string bool) :
  1 <= derived_score round_half_even seo <= 5.
Proof.
  unfold derived_score, penalties, penalty_table. cbn [foldr fst snd].
  generalize (missing seo "city_in_title") (missing seo "city_in_h1")
    (missing seo "city_in_content") (missing seo "service_mentioned")
    (missing seo "is_mobile_ready") (missing seo "has_phone").
  intros [] [] [] [] [] []; vm_compute; split; discriminate.
Qed.

(** ** The menu prompt *)

Lemma choose_Ok n pending out v rest out' :
  choose n pending out = (Ok v, rest, out') ->
  1 <= v <= n
  /\ exists skipped line,
       pending = (skipped ++ line :: rest)%list
       /\ Str.to_int (Str.strip line) = Some v
       /\ Forall (fun l => ~ accepted n l) skipped.
Proof.
  revert out. induction pending as [|l pending IH]; intros out H; simpl in H.
  - discriminate.
  - destruct (Str.to_int (Str.strip l)) as [x|] eqn:Hx.
    + destruct ((1 <=? x) && (x <=? n)) eqn:Hr.
      * inversion H; subst. apply andb_prop in Hr as [H1 H2].
        split; [lia|]. exists [], l. auto.
      * apply IH in H as (Hv & skipped & line & -> & Hl & Hs).
        split; [exact Hv|]. exists (l :: skipped), line.
        split; [reflexivity|]. split; [exact Hl|].
        constructor; [|exact Hs]. intros (y & Hy & Hy').
        rewrite Hx in Hy. inversion Hy; subst.
        apply andb_false_iff in Hr as [Hr|Hr]; lia.
    + apply IH in H as (Hv & skipped & line & -> & Hl & Hs).
      split; [exact Hv|]. exists (l :: skipped), line.
      split; [reflexivity|]. split; [exact Hl|].
      constructor; [|exact Hs]. intros (y & Hy & _). congruence.
Qed.

(** Sooner or later an accepted line ends the loop with its number. *)
Lemma choose_accepts n skipped line v rest out :
  Forall (fun l => ~ accepted n l) skipped ->
  Str.to_int (Str.strip line) = Some v -> 1 <= v <= n ->
  exists out', choose n (skipped ++ line :: rest) out = (Ok v, rest, out').
Proof.
  intros Hs Hl Hv. revert out.
  induction Hs as [|l skipped Hl' _ IH]; intros out; simpl.
  - rewrite Hl. replace ((1 <=? v) && (v <=? n)) with true by (symmetry; apply andb_true_intro; lia).
    eauto.
  - destruct (Str.to_int (Str.strip l)) as [x|] eqn:Hx; [|apply IH].
    destruct ((1 <=? x) && (x <=? n)) eqn:Hr; [|apply IH].
    exfalso. apply Hl'. exists x. apply andb_prop in Hr. split; [exact Hx | lia].
Qed.

(** ** The page-speed lookup *)

Lemma score_chain data l c p score :
  dict_get data "lighthouseResult" (VDict []) = Ok l ->
  dict_get l "categories" (VDict []) = Ok c ->
  dict_get c "performance" (VDict []) = Ok p ->
  dict_get p "score" VNone = Ok score ->
  score <> VNone ->
  score_field data = Some score.
Proof.
  unfold score_field, score_path, dict_get. cbn [lookup_path].
  intros H1 H2 H3 H4 Hs.
  destruct data as [| | | | | |d0]; try discriminate H1.
  destruct (assoc d0 "lighthouseResult") as [v1|]; cbn in H1; injection H1 as <-;
    [|cbn in H2; injection H2 as <-; cbn in H3; injection H3 as <-;
      cbn in H4; congruence].
  destruct v1 as [| | | | | |d1]; try discriminate H2.
  destruct (assoc d1 "categories") as [v2|]; cbn in H2; injection H2 as <-;
    [|cbn in H3; injection H3 as <-; cbn in H4; congruence].
  destruct v2 as [| | | | | |d2]; try discriminate H3.
  destruct (assoc d2 "performance") as [v3|]; cbn in H3; injection H3 as <-;
    [|cbn in H4; congruence].
  destruct v3 as [| | | | | |d3]; try discriminate H4.
  destruct (assoc d3 "score") as [v4|]; cbn in H4; injection H4 as <-;
    [|congruence].
  destruct v4; congruence.
Qed.

Ltac ran :=
  cbn [stdin stdout sent]; do 3 eexists; (split; [reflexivity|]);
  try exact I; auto.

Lemma get_pagespeed_score_run P u w :
  u <> "" ->
  exists pct err out,
    get_pagespeed_score P (Some u) w
    = (Ok (pct, err), World (stdin w) out (sent w ++ [pagespeed_request P u])%list)
    /\ match net P (sent w) (pagespeed_request P u) with
       | Raise e => pct = None /\ err = VStr (str_exn P e)
       | Ok resp =>
           match resp_json resp with
           | None => pct = None /\ err = VStr (str_exn P JSONDecodeError)
           | Some data =>
               match score_field data with
               | None => pct = None
               | Some score =>
                   match pct with
                   | Some n => exists x, times100 score = Ok x /\ int_of x = Ok n
                   | None => True
                   end
               end
           end
       end.
Proof.
  intros Hu. destruct u as [|a u]; [congruence|].
  unfold get_pagespeed_score, try_except, bind, requests_get, lift, print,
    print_end, write, ret.
  cbn [stdin stdout sent].
  destruct (net P (sent w) _) as [resp|e]; [|ran].
  destruct (resp_json resp) as [data|]; [|ran].
  destruct (dict_get data "lighthouseResult" (VDict [])) as [l|] eqn:E1;
    [|destruct (score_field data); ran].
  destruct (dict_get l "categories" (VDict [])) as [c|] eqn:E2;
    [|destruct (score_field data); ran].
  destruct (dict_get c "performance" (VDict [])) as [p|] eqn:E3;
    [|destruct (score_field data); ran].
  destruct (dict_get p "score" VNone) as [score|] eqn:E4;
    [|destruct (score_field data); ran].
  assert (score = VNone \/ score <> VNone) as [->|Hs]
    by (destruct score; (left; reflexivity) || (right; discriminate)).
  - destruct (dict_get data "error" (VDict [])) as [err|];
      [destruct (dict_get err "message" (VStr "Unknown error"))|];
      destruct (score_field data); ran.
  - rewrite (score_chain _ _ _ _ _ E1 E2 E3 E4 Hs).
    destruct (times100 score) as [x|] eqn:Ex;
      [destruct (int_of x) as [n|] eqn:En;
       [destruct (str_int n) as [t|] eqn:Et|]|];
      destruct score; try congruence; ran; cbn; eauto.
Qed.

(** ** [re.search] finds the leftmost match *)

Lemma search_Some {A} (here : option ascii -> string -> option A) prev s r :
  search here prev s = Some r <->
  exists i p t,
    split_at prev s i = Some (p, t) /\ here p t = Some r
    /\ forall j p' t', (j < i)%nat ->
         split_at prev s j = Some (p', t') -> here p' t' = None.
Proof.
  revert prev. induction s as [|c s IH]; intros prev; cbn [search].
  - destruct (here prev "") as [r0|] eqn:E.
    + split.
      * intros [= <-]. exists O, prev, "". cbn. split; [reflexivity|].
        split; [exact E|]. intros; lia.
      * intros ([|i] & p & t & Hs & Hr & _); cbn in Hs; [|discriminate].
        congruence.
    + split; [discriminate|].
      intros ([|i] & p & t & Hs & Hr & _); cbn in Hs; [|discriminate].
      congruence.
  - destruct (here prev (String c s)) as [r0|] eqn:E.
    + split.
      * intros [= <-]. exists O, prev, (String c s). cbn.
        split; [reflexivity|]. split; [exact E|]. intros; lia.
      * intros ([|i] & p & t & Hs & Hr & Hmin); cbn in Hs.
        -- congruence.
        -- specialize (Hmin O prev (String c s) ltac:(lia) eq_refl). congruence.
    + rewrite IH. split.
      * intros (i & p & t & Hs & Hr & Hmin). exists (S i), p, t. cbn.
        split; [exact Hs|]. split; [exact Hr|].
        intros [|j] p' t' Hj Hs'; cbn in Hs'.
        -- congruence.
        -- apply (Hmin j); [lia | exact Hs'].
      * intros ([|i] & p & t & Hs & Hr & Hmin); cbn in Hs; [congruence|].
        exists i, p, t. split; [exact Hs|]. split; [exact Hr|].
        intros j p' t' Hj Hs'. apply (Hmin (S j)); [lia | exact Hs'].
Qed.

Lemma search_first_match {A} (here : option ascii -> string -> option A) s r :
  search here None s = Some r <-> first_match here s r.
Proof.
  rewrite search_Some. unfold first_match, matches_at. split.
  - intros (i & p & t & Hs & Hr & Hmin). exists i. split; [eauto|].
    intros j r' Hj (p' & t' & Hs' & Hr'). rewrite (Hmin j p' t' Hj Hs') in Hr'.
    discriminate.
  - intros (i & (p & t & Hs & Hr) & Hmin). exists i, p, t.
    split; [exact Hs|]. split; [exact Hr|].
    intros j p' t' Hj Hs'. destruct (here p' t') as [r'|] eqn:E; [|reflexivity].
    exfalso. apply (Hmin j r' Hj). eauto.
Qed.

Lemma search_None {A} (here : option ascii -> string -> option A) prev s :
  search here prev s = None <->
  forall i p t, split_at prev s i = Some (p, t) -> here p t = None.
Proof.
  revert prev. induction s as [|c s IH]; intros prev; cbn [search].
  - destruct (here prev "") as [r0|] eqn:E.
    + split; [discriminate|]. intros H.
      specialize (H O prev "" eq_refl). congruence.
    + split; [|reflexivity]. intros _ [|i] p t Hs; cbn in Hs; congruence.
  - destruct (here prev (String c s)) as [r0|] eqn:E.
    + split; [discriminate|]. intros H.
      specialize (H O prev (String c s) eq_refl). congruence.
    + rewrite IH. split.
      * intros H [|i] p t Hs; cbn in Hs; [congruence | eauto].
      * intros H i p t Hs. apply (H (S i)). exact Hs.
Qed.

Lemma search_no_match {A} (here : option ascii -> string -> option A) s :
  search here None s = None <-> no_match here s.
Proof.
  rewrite search_None. unfold no_match, matches_at. split.
  - intros H i r (p & t & Hs & Hr). rewrite (H i p t Hs) in Hr. discriminate.
  - intros H i p t Hs. destruct (here p t) as [r|] eqn:E; [|reflexivity].
    exfalso. apply (H i r). eauto.
Qed.

(** ** The listing lookup *)

Lemma scrape_gbp_basics_run P name city w :
  exists gbp out,
    scrape_gbp_basics P name city w
    = (Ok gbp, World (stdin w) out (sent w ++ [gbp_request P name city])%list)
    /\ match net P (sent w) (gbp_request P name city) with
       | Raise e =>
           gbp !! "rating" = Some (VStr "?")
           /\ gbp !! "review_count" = Some (VStr "?")
       | Ok resp =>
           gbp !! "rating"
           = Some (VStr (default "?" (search rating_at None (searched_text P resp))))
           /\ gbp !! "review_count"
              = Some (VStr (default "?" (search review_at None (searched_text P resp))))
       end.
Proof.
  unfold scrape_gbp_basics, try_except, bind, requests_get, print, print_end,
    write, ret, searched_text.
  cbn [stdin stdout sent].
  destruct (net P (sent w) _) as [resp|e]; cbn [stdin stdout sent];
    do 2 eexists; (split; [reflexivity|]); split; reflexivity.
Qed.

Lemma rating_at_shape prev s r : rating_at prev s = Some r -> is_rating r.
Proof.
  unfold rating_at. destruct s as [|a [|b [|c rest]]]; try discriminate.
  destruct (boundary prev (Some a)); [|discriminate].
  destruct ((49 <=? Str.code a) && (Str.code a <=? 53)) eqn:Ha; [|discriminate].
  destruct (Ascii.eqb b ".") eqn:Hb; [|discriminate].
  destruct (Str.is_digit c) eqn:Hc; [|discriminate].
  destruct (boundary (Some c) (head rest)); [|discriminate].
  cbn [andb]. intros [= <-]. apply Ascii.eqb_eq in Hb as ->.
  apply andb_prop in Ha as [H1 H2]. exists a, c. repeat split; [lia | lia | exact Hc].
Qed.

Lemma span_digits s count rest :
  span Str.is_digit s = (count, rest) -> Str.all_digits count = true.
Proof.
  revert count rest. induction s as [|c s IH]; intros count rest; cbn [span].
  - intros [= <- <-]. reflexivity.
  - destruct (Str.is_digit c) eqn:Hc.
    + destruct (span Str.is_digit s) as [a b]. intros [= <- <-].
      cbn [Str.all_digits]. rewrite Hc. exact (IH a b eq_refl).
    + intros [= <- <-]. reflexivity.
Qed.

Lemma review_at_shape prev s n : review_at prev s = Some n -> is_count n.
Proof.
  unfold review_at. destruct s as [|c s1]; [discriminate|].
  destruct (Ascii.eqb c "(" || Str.is_space c); [|discriminate].
  destruct (span Str.is_digit s1) as [count s2] eqn:Hs.
  match goal with |- (if ?l && ?t then _ else _) = _ -> _ =>
    destruct l eqn:Hl; [|discriminate]; destruct t; [|discriminate] end.
  intros [= <-]. apply andb_prop in Hl as [H1 H2].
  apply Nat.leb_le in H1, H2. split; [|lia].
  apply span_digits in Hs. unfold Str.isdigit.
  destruct count; [cbn in H1; lia | exact Hs].
Qed.

Lemma search_shape {A} (here : option ascii -> string -> option A)
    (shape : A -> Prop) s r :
  (forall p t x, here p t = Some x -> shape x) ->
  search here None s = Some r -> shape r.
Proof.
  intros Hshape Hs. apply search_Some in Hs as (i & p & t & _ & Hr & _). eauto.
Qed.

(** ** Which statements can write the announcement *)

Lemma quiet_snoc w s :
  quiet w -> s <> skipped_notice ->
  quiet (World (stdin w) (stdout w ++ [s])%list (sent w)).
Proof.
  unfold quiet. cbn [stdout]. intros Hq Hs Hin.
  apply elem_of_app in Hin as [Hin|Hin]; [auto|].
  apply list_elem_of_singleton in Hin. auto.
Qed.

Lemma last_char_cons c s :
  s <> "" -> last_char (String c s) = last_char s.
Proof. destruct s; [congruence | reflexivity]. Qed.

Lemma last_char_app s t :
  t <> "" -> last_char (s +:+ t) = last_char t.
Proof.
  intros Ht. induction s as [|c s IH]; [reflexivity|].
  change (String c s +:+ t) with (String c (s +:+ t)).
  rewrite last_char_cons; [exact IH|].
  destruct s; cbn; [exact Ht | discriminate].
Qed.

(** A text that does not end with a newline is not the announcement. *)
Lemma not_notice_by_end s t :
  t <> "" -> last_char t <> last_char skipped_notice -> s +:+ t <> skipped_notice.
Proof.
  intros Ht Hl E. apply Hl. rewrite <- E. symmetry. apply last_char_app, Ht.
Qed.

Lemma pretty_N_go_head x s :
  (0 < x)%N ->
  exists c t, pretty_N_go x s = String c t /\ Str.is_digit c = true.
Proof.
  revert s. induction (N.lt_wf_0 x) as [x _ IH]. intros s Hx.
  rewrite pretty_N_go_step by exact Hx.
  destruct (decide (x `div` 10 = 0)%N) as [E|E].
  - rewrite E, pretty_N_go_0. eexists _, _. split; [reflexivity|].
    unfold pretty_N_char. repeat case_match; reflexivity.
  - apply IH; [apply N.div_lt; lia | apply N.neq_0_lt_0, E].
Qed.

Lemma pretty_Z_head (z : Z) :
  exists c t, pretty z = String c t /\ c <> " "%char.
Proof.
  assert (forall p : positive, exists c t,
             pretty (Npos p) = String c t /\ Str.is_digit c = true) as Hp.
  { intros p. unfold pretty, pretty_N. rewrite decide_False by discriminate.
    apply pretty_N_go_head. lia. }
  destruct z as [|p|p]; unfold pretty, pretty_Z.
  - eexists _, _. split; [reflexivity | discriminate].
  - destruct (Hp p) as (c & t & E & Hc). exists c, t. split; [exact E|].
    intros ->. discriminate.
  - eexists _, _. split; [reflexivity | discriminate].
Qed.

Lemma silent_ret {A} (a : A) : silent (ret a).
Proof. intros w r w' [= <- <-] Hq. exact Hq. Qed.

Lemma silent_raise {A} e : silent (@raise A e).
Proof. intros w r w' [= <- <-] Hq. exact Hq. Qed.

Lemma silent_lift {A} (x : result A) : silent (lift x).
Proof. intros w r w' [= <- <-] Hq. exact Hq. Qed.

Lemma silent_bind {A B} (m : M A) (k : A -> M B) :
  silent m -> (forall a, silent (k a)) -> silent (bind m k).
Proof.
  intros Hm Hk w r w' H Hq. unfold bind in H.
  destruct (m w) as [[a|e] w1] eqn:E.
  - eapply Hk; [exact H|]. eapply Hm; eauto.
  - injection H as <- <-. eapply Hm; eauto.
Qed.

Lemma silent_try {A} (m : M A) (h : exn -> M A) :
  silent m -> (forall e, silent (h e)) -> silent (try_except m h).
Proof.
  intros Hm Hh w r w' H Hq. unfold try_except in H.
  destruct (m w) as [[a|e] w1] eqn:E.
  - injection H as <- <-. eapply Hm; eauto.
  - eapply Hh; [exact H|]. eapply Hm; eauto.
Qed.

Lemma silent_write s : s <> skipped_notice -> silent (write s).
Proof. intros Hs w r w' [= <- <-] Hq. apply quiet_snoc; assumption. Qed.

Lemma silent_print s : s +:+ Str.nl <> skipped_notice -> silent (print s).
Proof. apply silent_write. Qed.

Lemma silent_print_end s : silent (print_end s " ").
Proof. apply silent_write, not_notice_by_end; discriminate. Qed.


(** A written text that differs from the announcement within its literal
    beginning. *)
Ltac not_notice :=
  let E := fresh "E" in
  intros E;
  cbv [skipped_notice Str.nl Str.repeat String.append dq tick pagespeed_line] in E;
  discriminate E.

Lemma pretty_not_notice (z : Z) s t :
  (pretty z +:+ s) +:+ t <> skipped_notice.
Proof.
  destruct (pretty_Z_head z) as (c & r & -> & Hc).
  cbv [skipped_notice Str.nl String.append]. intros [= E _]. congruence.
Qed.

Lemma prefix_app (sub t : string) : String.prefix sub (sub +:+ t) = true.
Proof.
  induction sub as [|c sub IH]; [destruct t; reflexivity|].
  change (String c sub +:+ t) with (String c (sub +:+ t)).
  cbn [String.prefix]. destruct (ascii_dec c c); [exact IH | congruence].
Qed.

Lemma contains_inside (sub x t : string) :
  Str.contains sub ((x +:+ sub) +:+ t) = true.
Proof.
  induction x as [|c x IH].
  - change (Str.contains sub (sub +:+ t) = true).
    pose proof (prefix_app sub t) as H.
    destruct (sub +:+ t); cbn [Str.contains]; rewrite H; reflexivity.
  - change (Str.contains sub (String c ((x +:+ sub) +:+ t)) = true).
    cbn [Str.contains]. rewrite IH. apply orb_true_r.
Qed.

(** A rendered percentage is not the announcement. *)
Lemma percent_not_notice (x : string) :
  (x +:+ "/100") +:+ Str.nl <> skipped_notice.
Proof.
  intros E. pose proof (contains_inside "/100" x Str.nl) as H.
  rewrite E in H. vm_compute in H. discriminate H.
Qed.

Lemma silent_input p : last_char p = Some " "%char -> silent (input p).
Proof.
  intros Hp w r w' H Hq. unfold input in H.
  assert (p <> skipped_notice) as Hne.
  { intros ->. vm_compute in Hp. discriminate Hp. }
  destruct (stdin w); injection H as <- <-;
    apply (quiet_snoc (World _ (stdout w) (sent w)) p Hq Hne).
Qed.

Lemma silent_requests_get P r : silent (requests_get P r).
Proof. intros w x w' [= <- <-] Hq. exact Hq. Qed.

Lemma silent_print_options i os : silent (print_options i os).
Proof.
  revert i. induction os as [|o os IH]; intros i; cbn [print_options].
  - apply silent_ret.
  - apply silent_bind; [|intros _; apply IH]. apply silent_print. not_notice.
Qed.

Lemma choose_quiet n pending out r rest out' :
  choose n pending out = (r, rest, out') ->
  skipped_notice ∉ out -> skipped_notice ∉ out'.
Proof.
  assert (forall o : list string, skipped_notice ∉ o ->
            skipped_notice ∉ (o ++ ["    Enter number: "])%list) as Hask.
  { intros o Ho Hin. apply elem_of_app in Hin as [Hin|Hin]; [auto|].
    apply list_elem_of_singleton in Hin. discriminate Hin. }
  assert (forall o : list string, skipped_notice ∉ o ->
            skipped_notice ∉ (o ++ ["    Invalid. Try again." +:+ Str.nl])%list) as Hinv.
  { intros o Ho Hin. apply elem_of_app in Hin as [Hin|Hin]; [auto|].
    apply list_elem_of_singleton in Hin. discriminate Hin. }
  revert out. induction pending as [|l pending IH]; intros out H Hq; cbn [choose] in H.
  - injection H as <- <- <-. auto.
  - destruct (Str.to_int (Str.strip l)) as [v|];
      [destruct ((1 <=? v) && (v <=? n))|];
      try (injection H as <- <- <-; auto; fail);
      eapply IH; eauto.
Qed.

Lemma silent_read_choice n : silent (read_choice n).
Proof.
  intros w r w' H Hq. unfold read_choice in H.
  destruct (choose _ (stdin w) (stdout w)) as [[x pending] out] eqn:E.
  injection H as <- <-. unfold quiet. cbn [stdout].
  eapply choose_quiet; eauto.
Qed.

Lemma append_nonempty s t : t <> "" -> s +:+ t <> "".
Proof. destruct s; [auto | discriminate]. Qed.

Lemma silent_prompt P label options default :
  silent (prompt P label options default).
Proof.
  unfold prompt. destruct options as [|o os].
  - apply silent_bind; [|intros val; apply silent_ret].
    apply silent_input.
    rewrite !last_char_app; try reflexivity;
      repeat apply append_nonempty; discriminate.
  - apply silent_bind; [apply silent_print; not_notice|intros _].
    apply silent_bind; [apply silent_print_options|intros _].
    apply silent_bind; [apply silent_read_choice | intros v; apply silent_ret].
Qed.

Lemma silent_divider title : silent (divider title).
Proof.
  unfold divider. destruct title; apply silent_print; not_notice.
Qed.

(** Decomposing a computation into statements that are known to be silent. *)
Ltac silence :=
  repeat first
    [ apply silent_ret | apply silent_raise | apply silent_lift
    | apply silent_requests_get | apply silent_prompt | apply silent_divider
    | apply silent_print_end
    | apply silent_print;
      (not_notice || apply pretty_not_notice || apply percent_not_notice)
    | apply silent_bind; [|intros ?]
    | apply silent_try; [|intros ?]
    | progress cbv beta zeta
    | match goal with
      | |- silent (if ?b then _ else _) => destruct b
      | |- silent (match ?x with _ => _ end) => destruct x
      end ].

Lemma silent_check_website P url : silent (check_website P url).
Proof. unfold check_website. silence. Qed.

Lemma silent_get_pagespeed_score P url : silent (get_pagespeed_score P url).
Proof. unfold get_pagespeed_score. silence. Qed.

Lemma silent_scrape_gbp_basics P name city :
  silent (scrape_gbp_basics P name city).
Proof. unfold scrape_gbp_basics. silence. Qed.

Lemma silent_review_fields P gbp : silent (review_fields P gbp).
Proof. unfold review_fields. silence. Qed.

Lemma silent_print_summary P se html pct seo rr rc :
  silent (print_summary P se html pct seo rr rc).
Proof. unfold print_summary. silence. Qed.

Lemma silent_override_or o auto : silent (override_or o auto).
Proof. unfold override_or. silence. Qed.

Lemma silent_website_score_of P auto se : silent (website_score_of P auto se).
Proof. unfold website_score_of. silence; apply silent_override_or. Qed.

Lemma silent_speed_score_of P auto pct se : silent (speed_score_of P auto pct se).
Proof. unfold speed_score_of. silence; apply silent_override_or. Qed.

Lemma read_findings_quiet found pending out r rest out' :
  read_findings found pending out = (r, rest, out') ->
  skipped_notice ∉ out -> skipped_notice ∉ out'.
Proof.
  assert (forall o : list string, skipped_notice ∉ o ->
            skipped_notice ∉ (o ++ ["  > "])%list) as Hask.
  { intros o Ho Hin. apply elem_of_app in Hin as [Hin|Hin]; [auto|].
    apply list_elem_of_singleton in Hin. discriminate Hin. }
  revert found out. induction pending as [|l pending IH]; intros found out H Hq;
    cbn [read_findings] in H.
  - injection H as <- <- <-. auto.
  - match type of H with (if ?c then _ else _) = _ => destruct c end.
    + injection H as <- <- <-. auto.
    + eapply IH; eauto.
Qed.

Lemma silent_read_manual_findings : silent read_manual_findings.
Proof.
  intros w r w' H Hq. unfold read_manual_findings in H.
  destruct (read_findings _ (stdin w) (stdout w)) as [[x pending] out] eqn:E.
  injection H as <- <-. unfold quiet. cbn [stdout].
  eapply read_findings_quiet; eauto.
Qed.

Lemma silent_read_recommendations P i n acc :
  silent (read_recommendations P i n acc).
Proof.
  revert i acc. induction n as [|n IH]; intros i acc; cbn [read_recommendations].
  - apply silent_ret.
  - apply silent_bind; [apply silent_prompt | intros r; apply IH].
Qed.

Lemma silent_print_findings (fs : list string) :
  silent (foldr (fun f k => print ("    → " +:+ f) ;;; k) (ret tt) fs).
Proof.
  induction fs as [|f fs IH]; cbn [foldr]; [apply silent_ret|].
  apply silent_bind; [apply silent_print; not_notice | intros _; exact IH].
Qed.

(** All the blocks of the pipeline but the website check. *)
Ltac silence_all :=
  first
    [ apply silent_check_website | apply silent_get_pagespeed_score
    | apply silent_scrape_gbp_basics | apply silent_review_fields
    | apply silent_print_summary | apply silent_website_score_of
    | apply silent_speed_score_of | apply silent_read_manual_findings
    | apply silent_read_recommendations | apply silent_print_findings
    | silence ];
  try silence_all.

(** Carrying [quiet] over one statement [R] of a run. *)
Ltac carry R Q :=
  match type of R with
  | ?m _ = _ =>
      let S := fresh "S" in
      assert (silent m) as S by (clear; silence_all);
      apply (S _ _ _ R) in Q; clear S
  end.

Ltac carry_all Q :=
  repeat match goal with
         | R : ?m ?w0 = (_, _), Q' : quiet ?w0 |- _ => carry R Q'; clear R
         end.

(** ** The stages of [collect_data] *)

Lemma website_check_notice P has_website url w site_exists site_url html w' :
  website_check P has_website url w = (Ok (site_exists, site_url, html), w') ->
  quiet w -> ~ quiet w' -> site_exists = true /\ html = None.
Proof.
  intros H Hq Hn. unfold website_check in H.
  step H as [[se su] h] R1. carry R1 Hq.
  destruct (has_website && negb se).
  - step H as [] R2. carry R2 Hq.
    step H as answer R3. carry R3 Hq.
    step H as manual_confirm R4. carry R4 Hq.
    destruct (String.eqb manual_confirm "y").
    + step H as [] R5. apply ret_Ok in H as [[= -> -> ->] ->]. auto.
    + apply ret_Ok in H as [[= -> -> ->] ->]. contradiction.
  - apply ret_Ok in H as [[= -> -> ->] ->]. contradiction.
Qed.

Lemma collect_data_stages P w data w' :
  collect_data P w = (Ok data, w') -> collected P w data w'.
Proof.
  intros H. unfold collect_data in H. cbv beta zeta in H.
  step H as [] P1. step H as [] P2. step H as [] P3. step H as [] P4.
  step H as business_name R1. step H as business_type R2.
  step H as business_city R3. step H as website_input R4.
  step H as has_website R5. step H as [] P5.
  step H as [[site_exists site_url] html] R6.
  step H as seo R7. step H as [auto_site_score site_issues] R8.
  step H as [pagespeed_pct ps_error] R9.
  step H as gbp R10. step H as [review_rating review_count] R11.
  step H as [] P6. step H as [] P7. step H as [] P8. step H as [] P9.
  step H as [] P10.
  step H as comp_name R12. step H as comp_reviews R13.
  step H as comp_rating R14. step H as answer R15. step H as comp_has_site R16.
  step H as [] P11.
  step H as website_score R17. step H as speed_score R18.
  step H as [] P12. step H as [] P13. step H as gbp_score R19.
  step H as [] P14. step H as [] P15. step H as visibility_score R20.
  step H as [] P16. step H as [] P17. step H as geo_score R21.
  step H as [] P18. step H as [] P19. step H as [] P20.
  step H as manual_findings R22.
  step H as [] P21. step H as [] P22. step H as recommendations R23.
  step H as auditor_name R24.
  apply ret_Ok in H as [-> ->].
  unfold collected.
  exists has_website, (if has_website then website_input else VStr "None"),
    business_city, business_type, site_exists, site_url, html, seo,
    auto_site_score, site_issues, pagespeed_pct, ps_error, website_score,
    speed_score, manual_findings.
  do 7 eexists.
  split; [exact R6|]. split; [exact (lift_Ok _ _ _ _ R7)|].
  split; [exact (lift_Ok _ _ _ _ R8)|]. split; [exact R9|].
  split; [exact R17|]. split; [exact R18|].
  split; [reflexivity|]. split; [reflexivity|]. split; [reflexivity|].
  split; [cbn [app]; rewrite <- app_assoc; reflexivity|].
  split.
  - intros Q. clear - Q P1 P2 P3 P4 R1 R2 R3 R4 R5 P5. carry_all Q. exact Q.
  - intros Q. clear P1 P2 P3 P4 R1 R2 R3 R4 R5 P5 R6. carry_all Q. exact Q.
Qed.

Lemma website_score_of_no_site P auto w v w' :
  website_score_of P auto false w = (Ok v, w') -> v = VInt 1.
Proof.
  unfold website_score_of. rewrite andb_false_r. cbn [negb].
  intros H. step H as [] R. apply ret_Ok in H as [-> _]. reflexivity.
Qed.

Lemma speed_score_of_no_site P w v w' :
  speed_score_of P (pagespeed_to_score None) None false w = (Ok v, w') ->
  v = VInt 1.
Proof.
  unfold speed_score_of. cbn [pagespeed_to_score default Z.eqb negb].
  intros H. step H as [] R. apply ret_Ok in H as [-> _]. reflexivity.
Qed.

Lemma contains_app_r sub a b :
  Str.contains sub b = true -> Str.contains sub (a +:+ b) = true.
Proof.
  intros H. induction a as [|c a IH]; [exact H|].
  change (Str.contains sub (String c a +:+ b))
    with (String.prefix sub (String c (a +:+ b)) || Str.contains sub (a +:+ b)).
  rewrite IH. apply orb_true_r.
Qed.

Lemma speed_findings_improvement pct f p' :
  f ∈ speed_findings pct -> f = improvement_finding p' ->
  exists p, pct = Some p /\ 50 <= p < 70.
Proof.
  unfold speed_findings. intros Hin ->. destruct pct as [p|].
  - destruct (Z.ltb_spec p 50).
    + apply list_elem_of_singleton in Hin. exfalso.
      apply (f_equal last_char) in Hin. unfold improvement_finding in Hin.
      rewrite !last_char_app in Hin
        by (repeat apply append_nonempty; discriminate).
      vm_compute in Hin. discriminate Hin.
    + destruct (Z.ltb_spec p 70).
      * exists p. split; [reflexivity | lia].
      * inversion Hin.
  - inversion Hin.
Qed.


(** * Further properties of the code *)

(** ** Facts about [strip] *)

Lemma rev_app_rev_app s acc1 acc2 :
  String.rev_app (String.rev_app s acc1) acc2 = String.rev_app acc1 (s +:+ acc2).
Proof.
  revert acc1. induction s as [|a s IH]; intros acc1; [reflexivity|].
  cbn [String.rev_app]. rewrite IH. reflexivity.
Qed.

Lemma append_empty_r s : s +:+ "" = s.
Proof.
  induction s as [|a s IH]; [reflexivity|].
  change (String a s +:+ "") with (String a (s +:+ "")). f_equal. exact IH.
Qed.

Lemma rev_involutive s : String.rev (String.rev s) = s.
Proof. unfold String.rev. rewrite rev_app_rev_app. exact (append_empty_r s). Qed.

Lemma last_char_rev_app s acc :
  last_char (String.rev_app s acc)
  = match acc with EmptyString => head s | _ => last_char acc end.
Proof.
  revert acc. induction s as [|a s IH]; intros acc; cbn [String.rev_app].
  - destruct acc; reflexivity.
  - rewrite IH. destruct acc; reflexivity.
Qed.

Lemma last_char_rev s : last_char (String.rev s) = head s.
Proof. apply last_char_rev_app. Qed.

Lemma head_rev s : head (String.rev s) = last_char s.
Proof. rewrite <- (rev_involutive s) at 2. symmetry. apply last_char_rev. Qed.

Lemma head_lstrip s c : head (Str.lstrip s) = Some c -> Str.is_space c = false.
Proof.
  induction s as [|a s IH]; cbn [Str.lstrip]; [discriminate|].
  destruct (Str.is_space a) eqn:E; [exact IH|]. intros [= <-]. exact E.
Qed.

Lemma last_char_lstrip s :
  Str.lstrip s <> "" -> last_char (Str.lstrip s) = last_char s.
Proof.
  induction s as [|a s IH]; cbn [Str.lstrip]; [congruence|].
  destruct (Str.is_space a) eqn:E; [|reflexivity].
  intros Hne. rewrite IH by exact Hne. symmetry. apply last_char_cons.
  intros ->. apply Hne. reflexivity.
Qed.

Lemma rev_empty s : String.rev s = "" -> s = "".
Proof. intros H. rewrite <- (rev_involutive s), H. reflexivity. Qed.

Lemma strip_trimmed s : trimmed (Str.strip s).
Proof.
  unfold Str.strip, Str.rstrip. set (t := Str.lstrip s).
  set (u := Str.lstrip (String.rev t)). split; intros c.
  - rewrite head_rev. intros Hc.
    assert (u <> "") as Hu by (intros E; rewrite E in Hc; discriminate).
    unfold u in Hc. rewrite last_char_lstrip in Hc by exact Hu.
    rewrite last_char_rev in Hc. apply (head_lstrip s c Hc).
  - rewrite last_char_rev. apply head_lstrip.
Qed.

Lemma lstrip_id s :
  (forall c, head s = Some c -> Str.is_space c = false) -> Str.lstrip s = s.
Proof.
  destruct s as [|a s]; [reflexivity|]. intros H. cbn [Str.lstrip].
  rewrite (H a eq_refl). reflexivity.
Qed.

Lemma strip_id s : trimmed s -> Str.strip s = s.
Proof.
  intros [Hh Hl]. unfold Str.strip, Str.rstrip. rewrite (lstrip_id s Hh).
  rewrite lstrip_id; [apply rev_involutive|].
  intros c. rewrite head_rev. apply Hl.
Qed.

Lemma strip_idempotent s : Str.strip (Str.strip s) = Str.strip s.
Proof. apply strip_id, strip_trimmed. Qed.

Lemma trimmed_nonempty_head s : trimmed s -> s <> "" -> exists c t, s = String c t /\ Str.is_space c = false.
Proof.
  intros [Hh _] Hne. destruct s as [|c t]; [congruence|].
  exists c, t. split; [reflexivity | apply Hh; reflexivity].
Qed.

Lemma trimmed_scheme t : trimmed t -> trimmed ("https://" +:+ t).
Proof.
  intros [_ Hl]. split; intros c.
  - cbn. intros [= <-]. reflexivity.
  - destruct (decide (t = "")) as [->|Hne].
    + cbn. intros [= <-]. reflexivity.
    + rewrite last_char_app by exact Hne. apply Hl.
Qed.

(** ** [clean_url] *)

(** X1: [clean_url] gives nothing for no URL or an empty one and otherwise a
    text that starts with "http" and has no white space at its ends;
    cleaning a cleaned URL changes nothing. *)
Theorem clean_url_normal_form (url : option string) :
  (clean_url url = None <-> url = None \/ url = Some "")
  /\ (forall c, clean_url url = Some c ->
        Str.startswith c "http" = true /\ trimmed c /\ c <> "")
  /\ clean_url (clean_url url) = clean_url url.
Proof.
  assert (forall u c, u <> "" -> clean_url (Some u) = Some c ->
            Str.startswith c "http" = true /\ trimmed c /\ c <> "") as Hshape.
  { intros u c Hu. destruct u as [|a u]; [congruence|]. cbn [clean_url].
    destruct (Str.startswith (Str.strip (String a u)) "http") eqn:E;
      intros [= <-].
    - split; [exact E|]. split; [apply strip_trimmed|].
      intros Hs. rewrite Hs in E. discriminate E.
    - split; [reflexivity|]. split; [apply trimmed_scheme, strip_trimmed|].
      discriminate. }
  split; [|split].
  - destruct url as [[|a u]|]; cbn [clean_url]; split; intros H;
      try reflexivity; try discriminate; auto.
    destruct H as [H|H]; discriminate H.
  - intros c Hc. destruct url as [[|a u]|]; try discriminate Hc.
    apply (Hshape (String a u) c); [discriminate | exact Hc].
  - destruct url as [[|a u]|]; try reflexivity.
    destruct (clean_url (Some (String a u))) as [c|] eqn:Ec; [|reflexivity].
    destruct (Hshape (String a u) c ltac:(discriminate) Ec) as (Hp & Ht & Hne).
    destruct c as [|b c]; [congruence|]. cbn [clean_url].
    rewrite (strip_id _ Ht), Hp. reflexivity.
Qed.

(** ** [prompt] *)

Lemma prompt_text_run P label default w :
  exists q,
    prompt P label [] default w
    = match stdin w with
      | [] => (Raise EOFError, World [] (stdout w ++ [q])%list (sent w))
      | line :: rest =>
          (Ok (if String.eqb (Str.strip line) "" then default
               else VStr (Str.strip line)),
           World rest (stdout w ++ [q])%list (sent w))
      end.
Proof.
  eexists. unfold prompt, bind, input, ret.
  destruct (stdin w) as [|line rest]; reflexivity.
Qed.



(** What the loop does with a run of rejected lines. *)
Lemma choose_rejected n skipped pending out :
  Forall (fun l => ~ accepted n l) skipped ->
  choose n (skipped ++ pending) out
  = choose n pending (out ++ concat ((fun _ => rejected_turn) <$> skipped))%list.
Proof.
  intros Hs. revert out. induction Hs as [|l skipped Hl _ IH]; intros out.
  - cbn. rewrite app_nil_r. reflexivity.
  - cbn [app choose].
    assert (forall x, Str.to_int (Str.strip l) = Some x ->
              (1 <=? x) && (x <=? n) = false) as Hrej.
    { intros x Hx. destruct ((1 <=? x) && (x <=? n)) eqn:E; [|reflexivity].
      exfalso. apply Hl. exists x. apply andb_prop in E. split; [exact Hx | lia]. }
    replace (match Str.to_int (Str.strip l) with
             | Some val =>
                 if (1 <=? val) && (val <=? n)
                 then (Ok val, skipped ++ pending, out ++ ["    Enter number: "])
                 else choose n (skipped ++ pending)
                        ((out ++ ["    Enter number: "]) ++
                         ["    Invalid. Try again." +:+ Str.nl])
             | None =>
                 choose n (skipped ++ pending)
                   ((out ++ ["    Enter number: "]) ++
                    ["    Invalid. Try again." +:+ Str.nl])
             end)%list
      with (choose n (skipped ++ pending)
              ((out ++ ["    Enter number: "]) ++
               ["    Invalid. Try again." +:+ Str.nl]))%list.
    + rewrite IH. f_equal. cbn [fmap list_fmap concat rejected_turn].
      rewrite <- !app_assoc. reflexivity.
    + destruct (Str.to_int (Str.strip l)) as [x|] eqn:Hx; [|reflexivity].
      rewrite (Hrej x eq_refl). reflexivity.
Qed.

Lemma print_options_lines i os w :
  print_options i os w
  = (Ok tt, World (stdin w) (stdout w ++ menu_lines i os)%list (sent w)).
Proof.
  revert i w. induction os as [|o os IH]; intros i w;
    cbn [print_options menu_lines].
  - rewrite app_nil_r. destruct w; reflexivity.
  - rewrite bind_print, IH. cbn [stdin stdout sent].
    rewrite <- app_assoc. reflexivity.
Qed.

Lemma prompt_menu_run P label o os default w :
  prompt P label (o :: os) default w
  = let '(r, pending, out) :=
      choose (Z.of_nat (length (o :: os))) (stdin w)
        (stdout w ++ menu_header label (o :: os))%list in
    (match r with Ok v => Ok (VInt v) | Raise e => Raise e end,
     World pending out (sent w)).
Proof.
  unfold prompt. rewrite bind_print. unfold bind at 1.
  rewrite print_options_lines. cbn [stdin stdout sent].
  unfold bind, read_choice, ret, menu_header. cbn [stdin stdout sent].
  rewrite <- app_assoc. cbn [app].
  destruct (choose _ (stdin w) _) as [[[v|e] pending] out]; reflexivity.
Qed.

(** X3: with a non-empty list of options, when the terminal holds rejected
    lines (of ASCII characters) followed by an acceptable one, [prompt]
    returns the number read from that line and leaves the lines after it;
    it has written the menu, then for each rejected line a question and a
    complaint, then one last question; nothing is sent.  A line is read as
    [int] reads it: white space around an optional sign and digits, at
    most 4300 of them. *)
Theorem prompt_menu_takes_first_accepted P label options default
    skipped line rest out requests v :
  options <> [] ->
  Forall (fun l => Str.is_ascii l = true) skipped ->
  Forall (fun l => ~ accepted (Z.of_nat (length options)) l) skipped ->
  Str.to_int (Str.strip line) = Some v ->
  1 <= v <= Z.of_nat (length options) ->
  prompt P label options default (World (skipped ++ line :: rest) out requests)
  = (Ok (VInt v),
     World rest
       (out ++ menu_header label options
        ++ concat ((fun _ => rejected_turn) <$> skipped)
        ++ ["    Enter number: "])%list
       requests).
Proof.
  intros Hne _ Hs Hl Hv. destruct options as [|o os]; [congruence|].
  rewrite prompt_menu_run. cbn [stdin stdout sent].
  rewrite (choose_rejected _ _ _ _ Hs). cbn [choose]. rewrite Hl.
  replace ((1 <=? v) && (v <=? Z.of_nat (length (o :: os)))) with true
    by (symmetry; apply andb_true_intro; split; lia).
  rewrite <- !app_assoc. reflexivity.
Qed.

Lemma prompt_menu_takes_first_accepted_witness :
  exists out,
    prompt offline "  Score" score_opts VNone (fresh ["x"; "9"; " 3 "; "4"])
    = (Ok (VInt 3), World ["4"] out [])
    /\ length out = 11%nat.
Proof.
  eexists. split.
  - apply (prompt_menu_takes_first_accepted offline "  Score" score_opts VNone
             ["x"; "9"] " 3 " ["4"] [] [] 3).
    + discriminate.
    + repeat constructor.
    + repeat constructor; intros (x & Hx & Hr); vm_compute in Hx;
        try discriminate Hx; injection Hx as <-; cbn in Hr; lia.
    + reflexivity.
    + cbn. lia.
  - reflexivity.
Defined.



(** ** [check_website] *)

Lemma no_website_given_false url :
  no_website_given url = false ->
  exists a u, url = Some (String a u)
              /\ clean_url url
                 = Some (if Str.startswith (Str.strip (String a u)) "http"
                         then Str.strip (String a u)
                         else "https://" +:+ Str.strip (String a u)).
Proof.
  destruct url as [[|a u]|]; try discriminate. intros _. eauto.
Qed.

(** X5: [check_website] never raises and reads nothing from the terminal.
    When no website was given (nothing, an empty text, "none" or "n" in any
    letter case) it sends no request and reports no site.  Otherwise it
    sends its first request to the cleaned URL, and a second one only after
    a TLS failure of the first, to the URL with "https://" replaced by
    "http://"; the page text is returned exactly when the site is reported
    reachable, and an unreachable site is reported with the cleaned URL. *)
Theorem check_website_contained P url w :
  exists ok u html w' reqs,
    check_website P url w = (Ok (ok, u, html), w')
    /\ stdin w' = stdin w /\ sent w' = (sent w ++ reqs)%list
    /\ (length reqs <= 2)%nat
    /\ (no_website_given url = true -> reqs = [] /\ ok = false /\ u = None)
    /\ (no_website_given url = false ->
          exists clean,
            clean_url url = Some clean
            /\ reqs !! 0%nat = Some (Request clean [] true 8)
            /\ (forall second, reqs !! 1%nat = Some second ->
                  (exists m, net P (sent w) (Request clean [] true 8)
                             = Raise (SSLError m))
                  /\ second
                     = Request (Str.replace clean "https://" "http://") [] true 8)
            /\ (ok = true <-> is_Some html)
            /\ (ok = false -> u = Some clean)).
Proof.
  destruct (no_website_given url) eqn:Hg.
  - exists false, None, (Some "No website provided"), w, [].
    unfold check_website. unfold no_website_given in Hg. rewrite Hg.
    rewrite app_nil_r. repeat split; auto; try discriminate; try (cbn; lia).
  - destruct (no_website_given_false url Hg) as (a & u0 & -> & Hclean).
    set (clean := if Str.startswith (Str.strip (String a u0)) "http"
                  then Str.strip (String a u0)
                  else "https://" +:+ Str.strip (String a u0)) in *.
    unfold check_website. unfold no_website_given in Hg. rewrite Hg.
    rewrite Hclean. cbn [default from_option id].
    unfold try_except, bind, requests_get, print, write, ret.
    cbn [stdin stdout sent].
    destruct (net P (sent w) (Request clean [] true 8)) as [resp|e] eqn:E1.
    + destruct (status_code resp <? 400); cbn [stdin stdout sent];
        do 4 eexists; exists [Request clean [] true 8];
        (split; [reflexivity|]); (split; [reflexivity|]);
        (split; [reflexivity|]); (split; [cbn; lia|]);
        (split; [discriminate|]); intros _; exists clean;
        (split; [reflexivity|]); (split; [reflexivity|]);
        (split; [intros second [=]|]);
        (split; [split; [intros Hok; try discriminate Hok; eauto | intros [x Hx]; try discriminate Hx; reflexivity]
                |intros; try discriminate; reflexivity]).
    + destruct e;
        try (cbn [stdin stdout sent];
             do 4 eexists; exists [Request clean [] true 8];
             (split; [reflexivity|]); (split; [reflexivity|]);
             (split; [reflexivity|]); (split; [cbn; lia|]);
             (split; [discriminate|]); intros _; exists clean;
             (split; [reflexivity|]); (split; [reflexivity|]);
             (split; [intros second [=]|]);
             (split; [split; [discriminate | intros [x Hx]; discriminate Hx]
                     |reflexivity]); fail).
      cbn [stdin stdout sent].
      destruct (net P (sent w ++ [Request clean [] true 8])
                  (Request (Str.replace clean "https://" "http://") [] true 8))
        as [resp|e2];
        cbn [stdin stdout sent];
        do 4 eexists;
        exists [Request clean [] true 8;
                Request (Str.replace clean "https://" "http://") [] true 8];
        (split; [reflexivity|]); (split; [reflexivity|]);
        (split; [rewrite <- app_assoc; reflexivity|]); (split; [cbn; lia|]);
        (split; [discriminate|]); intros _; exists clean;
        (split; [reflexivity|]); (split; [reflexivity|]);
        (split; [intros second [= <-]; split; [eauto | reflexivity]|]);
        (split; [split; [intros Hok; try discriminate Hok; eauto | intros [x Hx]; try discriminate Hx; reflexivity]
                |intros Hok; try discriminate Hok; reflexivity]).
Qed.

Lemma check_website_contained_witness :
  exists w',
    check_website offline (Some "Example.com ") (fresh [])
    = (Ok (false, Some "https://Example.com", None), w')
    /\ sent w' = [Request "https://Example.com" [] true 8].
Proof.
  destruct (check_website_contained offline (Some "Example.com ") (fresh []))
    as (ok & u & html & w' & reqs & E & _ & Hsent & Hlen & _ & H).
  destruct (H eq_refl) as (clean & Hc & H0 & H1 & Hhtml & Hu).
  vm_compute in Hc. injection Hc as <-.
  assert (ok = false) as ->.
  { vm_compute in E. injection E as <- _ _ _. reflexivity. }
  rewrite (Hu eq_refl) in E.
  assert (html = None) as ->.
  { destruct html; [|reflexivity]. destruct (proj2 Hhtml) ; [eauto | discriminate]. }
  exists w'. split; [exact E|]. rewrite Hsent. cbn [fresh sent app].
  destruct reqs as [|r0 [|r1 reqs]]; [discriminate H0| |].
  - cbn in H0. injection H0 as ->. reflexivity.
  - exfalso. destruct (H1 r1 eq_refl) as [[m Hm] _]. vm_compute in Hm.
    discriminate Hm.
Defined.

(** ** [get_pagespeed_score] *)

Lemma score_chain_found data score :
  score_field data = Some score ->
  score <> VNone
  /\ exists l c p,
       dict_get data "lighthouseResult" (VDict []) = Ok l
       /\ dict_get l "categories" (VDict []) = Ok c
       /\ dict_get c "performance" (VDict []) = Ok p
       /\ dict_get p "score" VNone = Ok score.
Proof.
  unfold score_field, score_path. cbn [lookup_path]. intros H.
  destruct data as [| | | | | |d0]; try discriminate H.
  destruct (assoc d0 "lighthouseResult") as [[| | | | | |d1]|] eqn:E0;
    try discriminate H.
  destruct (assoc d1 "categories") as [[| | | | | |d2]|] eqn:E1;
    try discriminate H.
  destruct (assoc d2 "performance") as [[| | | | | |d3]|] eqn:E2;
    try discriminate H.
  destruct (assoc d3 "score") as [v|] eqn:E3; try discriminate H.
  assert (v = score /\ score <> VNone) as [-> Hs].
  { destruct v; try discriminate H; injection H as <-; split;
      (reflexivity || discriminate). }
  split; [exact Hs|].
  exists (VDict d1), (VDict d2), (VDict d3). cbn [dict_get].
  rewrite E0, E1, E2, E3. repeat split.
Qed.

Lemma get_pagespeed_score_with_field P u w resp data score :
  u <> "" ->
  net P (sent w) (pagespeed_request P u) = Ok resp ->
  resp_json resp = Some data ->
  score_field data = Some score ->
  exists w', get_pagespeed_score P (Some u) w = (Ok (lookup_result P score), w').
Proof.
  intros Hu En Ej Es. destruct u as [|a u]; [congruence|].
  unfold get_pagespeed_score, try_except, bind, requests_get, lift, print,
    print_end, write, ret.
  cbn [stdin stdout sent]. rewrite En, Ej.
  destruct (score_chain_found data score Es)
    as (Hs & l & c & p & E1 & E2 & E3 & E4).
  rewrite E1, E2, E3, E4. unfold lookup_result, percent_of.
  destruct (times100 score) as [x|e1] eqn:Ex;
    [destruct (int_of x) as [n|e2] eqn:Ei;
     [destruct (str_int n) as [t|e3] eqn:Et|]|];
    destruct score; try congruence; eexists; reflexivity.
Qed.

(** X6: with a URL, [get_pagespeed_score] sends exactly one request, for
    the mobile strategy and the performance category, with the API key
    among its parameters exactly when a key is configured; it reads nothing
    from the terminal.  When the response carries the score field (a score
    given as a text being ASCII), the percentage is [int(score * 100)] and
    no error is reported, provided this integer has at most 4300 digits;
    when the conversion fails, or the integer is too long to be printed,
    the percentage is unavailable and the error text is that of the
    exception. *)
Theorem get_pagespeed_score_value P u w :
  u <> "" ->
  exists r w',
    get_pagespeed_score P (Some u) w = (Ok r, w')
    /\ stdin w' = stdin w
    /\ sent w' = (sent w ++ [pagespeed_request P u])%list
    /\ req_params (pagespeed_request P u)
       = ([("url", u); ("strategy", "mobile"); ("category", "performance")]
          ++ (if String.eqb (PAGESPEED_API_KEY P) "" then []
              else [("key", PAGESPEED_API_KEY P)]))%list
    /\ forall resp data score,
         net P (sent w) (pagespeed_request P u) = Ok resp ->
         resp_json resp = Some data ->
         score_field data = Some score ->
         plain_value score = true ->
         r = match percent_of score with
             | Ok pct =>
                 if Z.abs pct <? 10 ^ 4300 then (Some pct, VNone)
                 else (None, VStr (str_exn P ValueError))
             | Raise e => (None, VStr (str_exn P e))
             end.
Proof.
  intros Hu.
  destruct (get_pagespeed_score_run P u w Hu) as (pct & err & out & E & _).
  eexists _, _. split; [exact E|]. do 3 (split; [reflexivity|]).
  intros resp data score En Ej Es _.
  destruct (get_pagespeed_score_with_field P u w resp data score Hu En Ej Es)
    as [w' E'].
  rewrite E in E'. injection E' as E' _. rewrite E'.
  unfold lookup_result, str_int.
  destruct (percent_of score) as [n|e]; [|reflexivity].
  change (Z.of_nat Str.max_str_digits) with 4300.
  destruct (Z.abs n <? 10 ^ 4300); reflexivity.
Qed.

Lemma get_pagespeed_score_value_witness :
  exists w',
    get_pagespeed_score slow_site (Some "https://joesgarage.example") (fresh [])
    = (Ok (Some 55, VNone), w')
    /\ length (sent w') = 1%nat.
Proof.
  destruct (get_pagespeed_score_value slow_site "https://joesgarage.example"
              (fresh []) ltac:(discriminate))
    as (r & w' & E & _ & Hsent & _ & H).
  rewrite (H _ _ _ eq_refl eq_refl eq_refl eq_refl) in E.
  exists w'. split; [exact E|]. rewrite Hsent. reflexivity.
Defined.

Example percent_of_values :
  percent_of (VInt 1) = Ok 100
  /\ percent_of (VBool true) = Ok 100
  /\ percent_of (VFloat (F64.lit 57 100)) = Ok 56
  /\ percent_of (VFloat S754_nan) = Raise ValueError
  /\ percent_of (VStr "0.9") = Raise ValueError
  /\ percent_of (VList []) = Raise TypeError.
Proof. repeat split; vm_compute; reflexivity. Qed.

(** ** [pagespeed_to_score] *)

(** X7: [pagespeed_to_score] has no score exactly for no percentage; every
    integer, also below 0 or above 100, gets a score from 1 to 5, never 0,
    and a larger integer never a smaller score. *)
Theorem pagespeed_to_score_total (pct : option Z) :
  (pagespeed_to_score pct = None <-> pct = None)
  /\ (forall p, pct = Some p ->
        exists s, pagespeed_to_score pct = Some s /\ 1 <= s <= 5
                  /\ (p < 30 -> s = 1) /\ (90 <= p -> s = 5)
                  /\ forall q t, pagespeed_to_score (Some q) = Some t ->
                                 p <= q -> s <= t).
Proof.
  split.
  - destruct pct; cbn; split; congruence.
  - intros p ->. unfold pagespeed_to_score. eexists. split; [reflexivity|].
    repeat match goal with
           | |- context [?a <=? p] => destruct (Z.leb_spec a p)
           end;
      (split; [lia|]); (split; [lia|]); (split; [lia|]);
      intros q t [= <-] Hq;
      repeat match goal with
             | |- context [?a <=? q] => destruct (Z.leb_spec a q)
             end; lia.
Qed.

Lemma pagespeed_to_score_total_witness :
  pagespeed_to_score (Some 120) = Some 5
  /\ pagespeed_to_score (Some (-3)) = Some 1.
Proof.
  split.
  - destruct (proj2 (pagespeed_to_score_total (Some 120)) 120 eq_refl)
      as (s & Hs & _ & _ & H5 & _).
    rewrite Hs. f_equal. apply H5. lia.
  - destruct (proj2 (pagespeed_to_score_total (Some (-3))) (-3) eq_refl)
      as (s & Hs & _ & H1 & _).
    rewrite Hs. f_equal. apply H1. lia.
Defined.

(** ** [scrape_gbp_basics] and the review fields *)

(** X8: [scrape_gbp_basics] sends exactly one request, to the search
    address followed by the quoted business name and city, and reads
    nothing from the terminal; its result always has the three keys
    "rating", "review_count" and "has_hours", the two texts never empty;
    after a failed request the hours are reported as not found. *)
Theorem scrape_gbp_basics_shape P name city w :
  exists gbp w',
    scrape_gbp_basics P name city w = (Ok gbp, w')
    /\ stdin w' = stdin w
    /\ sent w' = (sent w ++ [gbp_request P name city])%list
    /\ req_url (gbp_request P name city)
       = "https://www.google.com/search?q="
         +:+ quote P (str P name +:+ " " +:+ str P city)
    /\ dom gbp = ({["rating"; "review_count"; "has_hours"]} : gset string)
    /\ filled (default VNone (gbp !! "rating"))
    /\ filled (default VNone (gbp !! "review_count"))
    /\ (forall e, net P (sent w) (gbp_request P name city) = Raise e ->
          gbp !! "has_hours" = Some (VBool false)).
Proof.
  assert (forall s, search rating_at None s <> Some "") as Hr.
  { intros s Hs. apply (search_shape rating_at is_rating) in Hs;
      [|apply rating_at_shape]. destruct Hs as (a & c & [=] & _). }
  assert (forall s, search review_at None s <> Some "") as Hc.
  { intros s Hs. apply (search_shape review_at is_count) in Hs;
      [|apply review_at_shape]. destruct Hs as [_ Hlen]. cbn in Hlen. lia. }
  assert (forall o : option string, o <> Some "" -> default "?" o <> "") as Hd.
  { intros [x|] Ho; cbn; [congruence | discriminate]. }
  unfold scrape_gbp_basics, try_except, bind, requests_get, print, print_end,
    write, ret.
  cbn [stdin stdout sent].
  destruct (net P (sent w) _) as [resp|e]; cbn [stdin stdout sent];
    eexists _, _; (split; [reflexivity|]); cbn [stdin sent];
    do 3 (split; [reflexivity|]);
    (split; [rewrite !dom_insert_L, dom_singleton_L; set_solver|]);
    (split; [eexists; split; [reflexivity|]; try discriminate; apply Hd, Hr|]);
    (split; [eexists; split; [reflexivity|]; try discriminate; apply Hd, Hc|]);
    intros e' [=]; reflexivity.
Qed.

Lemma scrape_gbp_basics_shape_witness :
  exists gbp w',
    scrape_gbp_basics offline (VStr "Joe's Garage") VNone (fresh [])
    = (Ok gbp, w')
    /\ gbp !! "has_hours" = Some (VBool false)
    /\ req_url <$> sent w'
       = ["https://www.google.com/search?q=Joe's Garage None"].
Proof.
  destruct (scrape_gbp_basics_shape offline (VStr "Joe's Garage") VNone (fresh []))
    as (gbp & w' & E & _ & Hsent & Hurl & _ & _ & _ & Hfail).
  exists gbp, w'. split; [exact E|].
  split; [apply (Hfail (RequestError "offline")); reflexivity|].
  rewrite Hsent. cbn [fresh sent app fmap list_fmap]. rewrite Hurl. reflexivity.
Defined.



(** ** [auto_website_score] *)

Lemma missing_flags (seo : gmap string bool) (k : string) :
  k ∈ ["city_in_title"; "city_in_h1"; "city_in_content";
       "service_mentioned"; "is_mobile_ready"; "has_phone"] ->
  missing (flags_seo (seo_flags seo)) k = missing seo k.
Proof.
  intros Hk. unfold seo_flags. cbn [fmap list_fmap].
  repeat (apply elem_of_cons in Hk as [-> | Hk];
          [generalize (missing seo "city_in_title") (missing seo "city_in_h1")
             (missing seo "city_in_content") (missing seo "service_mentioned")
             (missing seo "is_mobile_ready") (missing seo "has_phone");
           intros m1 m2 m3 m4 m5 m6; vm_compute;
           first [now destruct m1 | now destruct m2 | now destruct m3
                 | now destruct m4 | now destruct m5 | now destruct m6] |]).
  apply elem_of_nil in Hk. destruct Hk.
Qed.

Lemma auto_website_score_flags (seo : gmap string bool) :
  auto_website_score true seo
  = auto_website_score true (flags_seo (seo_flags seo)).
Proof.
  rewrite !auto_website_score_cases.
  unfold derived_score, penalties, issues_of, penalty_table, issue_table.
  cbn [negb foldr fst snd filter list_filter fmap list_fmap].
  rewrite !missing_flags by (repeat constructor). reflexivity.
Qed.

Lemma flags_checked_true : flags_checked = true.
Proof. vm_compute. reflexivity. Qed.

Lemma all_flags_complete (f : list bool) : f ∈ all_flags (length f).
Proof.
  induction f as [|b f IH]; cbn [length all_flags]; [apply list_elem_of_here|].
  apply elem_of_app. destruct b; [left | right]; apply list_elem_of_fmap;
    exists f; auto.
Qed.

Lemma flags_table_row (f : list bool) :
  length f = 6%nat ->
  (flag_score f = 5 <-> flag_issues f = [])
  /\ length (flag_issues f) = length (filter (fun b => b = false) f)
  /\ forall g, length g = 6%nat -> flags_le f g = true ->
       flag_score f <= flag_score g
       /\ (length (flag_issues g) <= length (flag_issues f))%nat.
Proof.
  intros Hf. pose proof flags_checked_true as H. unfold flags_checked in H.
  cbv zeta in H. rewrite forallb_forall in H.
  assert (In (f, flag_score f, length (flag_issues f))
            ((fun f => (f, flag_score f, length (flag_issues f)))
               <$> all_flags 6)) as Hin.
  { apply list_elem_of_In, list_elem_of_fmap. exists f. split; [reflexivity|].
    rewrite <- Hf. apply all_flags_complete. }
  specialize (H _ Hin). cbv beta iota in H.
  apply andb_prop in H as [H Hall]. apply andb_prop in H as [H5 Hn].
  apply Nat.eqb_eq in Hn. split; [|split; [exact Hn|]].
  - apply Bool.eqb_prop in H5. split; intros E.
    + apply Z.eqb_eq in E. rewrite E in H5. symmetry in H5.
      apply Nat.eqb_eq in H5. destruct (flag_issues f); [reflexivity|discriminate].
    + rewrite E in H5. cbn in H5. apply Z.eqb_eq in H5. exact H5.
  - intros g Hg Hle. rewrite forallb_forall in Hall.
    assert (In (g, flag_score g, length (flag_issues g))
              ((fun f => (f, flag_score f, length (flag_issues f)))
                 <$> all_flags 6)) as Hing.
    { apply list_elem_of_In, list_elem_of_fmap. exists g. split; [reflexivity|].
      rewrite <- Hg. apply all_flags_complete. }
    specialize (Hall _ Hing). cbv beta iota in Hall. rewrite Hle in Hall.
    cbn [implb] in Hall. apply andb_prop in Hall as [H1 H2].
    apply Z.leb_le in H1. apply Nat.leb_le in H2. auto.
Qed.

Lemma auto_website_score_as_flags seo s issues :
  auto_website_score true seo = Ok (s, issues) ->
  s = flag_score (seo_flags seo) /\ issues = flag_issues (seo_flags seo).
Proof.
  rewrite auto_website_score_flags. unfold flag_score, flag_issues.
  intros ->. auto.
Qed.

(** X10: with a website, the score is 5 exactly when no issue is reported,
    and there is one issue for each of the six signals that is not true
    (a key that is absent counts as not true; other keys are ignored). *)
Theorem auto_website_score_issue_count seo s issues :
  auto_website_score true seo = Ok (s, issues) ->
  (s = 5 <-> issues = [])
  /\ length issues = length (filter (fun b => b = false) (seo_flags seo))
  /\ forall seo',
       seo_flags seo' = seo_flags seo ->
       auto_website_score true seo' = Ok (s, issues).
Proof.
  intros H. pose proof (auto_website_score_as_flags _ _ _ H) as [-> ->].
  destruct (flags_table_row (seo_flags seo) eq_refl) as (H5 & Hn & _).
  split; [exact H5|]. split; [exact Hn|].
  intros seo' Hf. rewrite auto_website_score_flags, Hf.
  rewrite <- auto_website_score_flags. exact H.
Qed.

Lemma auto_website_score_issue_count_witness :
  auto_website_score true (<["noise" := true]> tie_seo)
  = Ok (4, ["City not in page title"]).
Proof.
  assert (auto_website_score true tie_seo = Ok (4, ["City not in page title"]))
    as H by (vm_compute; reflexivity).
  destruct (auto_website_score_issue_count _ _ _ H) as (_ & _ & Hsame).
  apply Hsame. vm_compute. reflexivity.
Defined.

(** X11: making more signals true never lowers the website score and never
    adds an issue. *)
Theorem auto_website_score_monotone seo seo' s issues s' issues' :
  auto_website_score true seo = Ok (s, issues) ->
  auto_website_score true seo' = Ok (s', issues') ->
  (forall k, missing seo' k = true -> missing seo k = true) ->
  s <= s' /\ (length issues' <= length issues)%nat.
Proof.
  intros H H' Hle.
  pose proof (auto_website_score_as_flags _ _ _ H) as [-> ->].
  pose proof (auto_website_score_as_flags _ _ _ H') as [-> ->].
  destruct (flags_table_row (seo_flags seo) eq_refl) as (_ & _ & Hmono).
  apply Hmono; [reflexivity|].
  unfold seo_flags. cbn [fmap list_fmap flags_le].
  pose proof (Hle "city_in_title") as H1. pose proof (Hle "city_in_h1") as H2.
  pose proof (Hle "city_in_content") as H3.
  pose proof (Hle "service_mentioned") as H4.
  pose proof (Hle "is_mobile_ready") as H5. pose proof (Hle "has_phone") as H6.
  revert H1 H2 H3 H4 H5 H6.
  generalize (missing seo "city_in_title") (missing seo "city_in_h1")
    (missing seo "city_in_content") (missing seo "service_mentioned")
    (missing seo "is_mobile_ready") (missing seo "has_phone")
    (missing seo' "city_in_title") (missing seo' "city_in_h1")
    (missing seo' "city_in_content") (missing seo' "service_mentioned")
    (missing seo' "is_mobile_ready") (missing seo' "has_phone").
  clear. intros a1 a2 a3 a4 a5 a6 b1 b2 b3 b4 b5 b6 H1 H2 H3 H4 H5 H6.
  assert (forall a b : bool, (b = true -> a = true) -> implb (negb a) (negb b) = true)
    as Himp by (intros [] []; cbn; auto; intros X; symmetry; exact (X eq_refl)).
  rewrite !Himp by assumption. reflexivity.
Qed.

Lemma auto_website_score_monotone_witness :
  exists s s',
    auto_website_score true ∅ = Ok (s, all_issues)
    /\ auto_website_score true tie_seo = Ok (s', ["City not in page title"])
    /\ s <= s'.
Proof.
  destruct (auto_website_score true ∅) as [[s i]|] eqn:E;
    [|vm_compute in E; discriminate E].
  destruct (auto_website_score true tie_seo) as [[s' i']|] eqn:E';
    [|vm_compute in E'; discriminate E'].
  destruct (auto_website_score_monotone ∅ tie_seo s i s' i' E E') as [Hs _].
  { intros k _. unfold missing. rewrite lookup_empty. reflexivity. }
  exists s, s'. vm_compute in E, E'. injection E as _ <-. injection E' as _ <-.
  split; [reflexivity|]. split; [reflexivity | exact Hs].
Defined.

(** ** [check_website_seo_basics] *)

Lemma contains_empty (s : string) : Str.contains "" s = true.
Proof. destruct s; reflexivity. Qed.

Lemma lower_app (a b : string) :
  Str.lower (a +:+ b) = Str.lower a +:+ Str.lower b.
Proof.
  induction a as [|c a IH]; [reflexivity|].
  change (String c a +:+ b) with (String c (a +:+ b)).
  cbn [Str.lower]. rewrite IH. reflexivity.
Qed.

Lemma lower_char_comma (c : ascii) :
  (Str.code (Str.lower_char c) =? 44) = (Str.code c =? 44).
Proof.
  destruct c as [[] [] [] [] [] [] [] []]; vm_compute; reflexivity.
Qed.

Lemma before_comma_lower (s : string) :
  Str.before_comma (Str.lower s) = Str.lower (Str.before_comma s).
Proof.
  induction s as [|c s IH]; cbn [Str.lower Str.before_comma]; [reflexivity|].
  rewrite lower_char_comma. destruct (Str.code c =? 44); [reflexivity|].
  cbn [Str.lower]. now rewrite IH.
Qed.

Lemma before_comma_app (a rest : string) :
  Str.before_comma (a +:+ "," +:+ rest) = Str.before_comma a.
Proof.
  induction a as [|c a IH]; [reflexivity|].
  change (String c a +:+ "," +:+ rest) with (String c (a +:+ "," +:+ rest)).
  cbn [Str.before_comma]. now rewrite IH.
Qed.

Lemma is_space_lower_char (a : ascii) :
  Str.is_space (Str.lower_char a) = Str.is_space a.
Proof. destruct a as [[] [] [] [] [] [] [] []]; vm_compute; reflexivity. Qed.

Lemma lstrip_lower_blank (s : string) :
  Str.lstrip (Str.lower s) = "" <-> Str.lstrip s = "".
Proof.
  induction s as [|a s IH]; [reflexivity|]. cbn [Str.lower Str.lstrip].
  rewrite is_space_lower_char.
  destruct (Str.is_space a); [exact IH | split; discriminate].
Qed.

Lemma lstrip_blank_last (u : string) (c : ascii) :
  Str.lstrip u = "" -> last_char u = Some c -> Str.is_space c = true.
Proof.
  induction u as [|a u IH]; [discriminate|]. cbn [Str.lstrip].
  destruct (Str.is_space a) eqn:E; [|discriminate]. intros Hu.
  destruct u as [|b u]; [intros [= <-]; exact E|].
  rewrite last_char_cons by discriminate. exact (IH Hu).
Qed.

Lemma strip_blank (s : string) : Str.strip s = "" <-> Str.lstrip s = "".
Proof.
  unfold Str.strip, Str.rstrip. split.
  - intros H. apply rev_empty in H.
    destruct (Str.lstrip s) as [|a r] eqn:L; [reflexivity|]. exfalso.
    assert (Str.is_space a = false) as Ha
      by (apply (head_lstrip s); rewrite L; reflexivity).
    rewrite (lstrip_blank_last _ a H) in Ha; [discriminate|].
    rewrite last_char_rev. reflexivity.
  - intros ->. reflexivity.
Qed.

Lemma signal_dom (a b c d e f : bool) :
  dom ({[ "city_in_title" := a; "city_in_h1" := b; "city_in_content" := c;
          "service_mentioned" := d; "is_mobile_ready" := e;
          "has_phone" := f ]} : gmap string bool) = signal_keys.
Proof.
  rewrite !dom_insert_L, dom_singleton_L. unfold signal_keys.
  cbn [list_to_set foldr]. set_solver.
Qed.

Section Signals.
Variable P : Platform.


(** X13: only the part of the city before its first comma is looked for:
    what follows the comma does not change the outcome. *)
Theorem check_website_seo_basics_city_part (html : option string)
    (c rest : string) (business_type : pyval) :
  check_website_seo_basics P html (VStr (c +:+ "," +:+ rest)) business_type
  = check_website_seo_basics P html (VStr (Str.before_comma c)) business_type.
Proof.
  destruct html as [[|h0 page]|]; cbn [check_website_seo_basics lower_of];
    try reflexivity.
  rewrite !before_comma_lower, before_comma_app.
  assert (Str.before_comma (Str.before_comma c) = Str.before_comma c) as ->;
    [|reflexivity].
  induction c as [|a c IH]; cbn [Str.before_comma]; [reflexivity|].
  destruct (Str.code a =? 44) eqn:E; [reflexivity|].
  cbn [Str.before_comma]. now rewrite E, IH.
Qed.

(** X14: a city whose part before the first comma is blank is found
    everywhere: the signals for the title and for the content are true on
    any page, and the one for the headline is true as soon as the page has
    a headline. *)
Theorem check_website_seo_basics_blank_city (html : option string)
    (c : string) (business_type : pyval) (seo : gmap string bool) :
  Str.strip (Str.before_comma c) = "" ->
  html <> None -> html <> Some "" ->
  check_website_seo_basics P html (VStr c) business_type = Ok seo ->
  seo !! "city_in_title" = Some true
  /\ seo !! "city_in_content" = Some true
  /\ seo !! "city_in_h1"
     = Some (negb (bool_decide
          (find_all_h1 (BeautifulSoup P (default "" html)) = []))).
Proof.
  intros Hc Hn He H.
  destruct html as [[|h0 page]|]; [congruence | | congruence].
  cbn [check_website_seo_basics lower_of default from_option id] in H |- *.
  destruct business_type as [| | | |t| |]; cbn [lower_of] in H;
    try discriminate H.
  destruct (Str.first_word (Str.lower t)); [|discriminate H].
  assert (Str.strip (Str.before_comma (Str.lower c)) = "") as E.
  { rewrite before_comma_lower. apply strip_blank, lstrip_lower_blank,
      strip_blank, Hc. }
  rewrite E in H. injection H as <-.
  rewrite !contains_empty.
  split; [reflexivity|]. split; [reflexivity|].
  rewrite lookup_insert_ne by discriminate. rewrite lookup_insert. f_equal.
  destruct (find_all_h1 _) as [|h hs]; [reflexivity|].
  cbn [fmap list_fmap existsb]. now rewrite contains_empty.
Qed.

End Signals.

Lemma check_website_seo_basics_blank_city_witness :
  exists seo,
    check_website_seo_basics offline (Some "Tacos and more") (VStr " , TX")
      (VStr "Restaurant") = Ok seo
    /\ seo !! "city_in_title" = Some true
    /\ seo !! "city_in_content" = Some true.
Proof.
  assert (exists seo,
            check_website_seo_basics offline (Some "Tacos and more")
              (VStr " , TX") (VStr "Restaurant") = Ok seo) as [seo E].
  { cbn [check_website_seo_basics lower_of].
    destruct (Str.first_word _) eqn:W; [|vm_compute in W; discriminate W].
    eexists; reflexivity. }
  exists seo. split; [exact E|].
  destruct (check_website_seo_basics_blank_city offline
              (Some "Tacos and more") " , TX" (VStr "Restaurant") seo)
    as (H1 & H2 & _); [reflexivity | discriminate | discriminate | exact E |].
  split; assumption.
Defined.

(** ** The telephone number looked for by [check_website_seo_basics] *)

Lemma append_assoc (a b c : string) : (a +:+ b) +:+ c = a +:+ (b +:+ c).
Proof.
  induction a as [|x a IH]; [reflexivity|].
  change ((String x a +:+ b) +:+ c) with (String x ((a +:+ b) +:+ c)).
  rewrite IH. reflexivity.
Qed.

Lemma digits_spec (n : nat) (s r : string) :
  digits n s = Some r <-> exists d, s = d +:+ r /\ digit_group n d.
Proof.
  revert s. induction n as [|n IH]; intros s; cbn [digits].
  - split.
    + intros [= <-]. exists "". repeat split.
    + intros (d & -> & Hl & _). destruct d; [reflexivity | discriminate Hl].
  - destruct s as [|c s].
    + split; [discriminate|]. intros (d & E & Hl & _).
      destruct d; [discriminate Hl | discriminate E].
    + destruct (Str.is_digit c) eqn:Hc.
      * rewrite IH. split.
        -- intros (d & -> & Hl & Hd). exists (String c d). split; [reflexivity|].
           split; [cbn; lia | cbn [Str.all_digits]; rewrite Hc; exact Hd].
        -- intros (d & E & Hl & Hd). destruct d as [|c' d]; [discriminate Hl|].
           injection E as <- ->. cbn [Str.all_digits] in Hd.
           apply andb_prop in Hd as [_ Hd]. exists d.
           split; [reflexivity|]. split; [cbn in Hl; lia | exact Hd].
      * split; [discriminate|]. intros (d & E & Hl & Hd).
        destruct d as [|c' d]; [discriminate Hl|]. injection E as <- _.
        cbn [Str.all_digits] in Hd. rewrite Hc in Hd. discriminate Hd.
Qed.

Lemma digit_group_head (n : nat) (d : string) :
  digit_group (S n) d -> exists c r, d = String c r /\ Str.is_digit c = true.
Proof.
  intros [Hl Hd]. destruct d as [|c r]; [discriminate Hl|].
  cbn [Str.all_digits] in Hd. apply andb_prop in Hd as [Hc _]. eauto.
Qed.

Lemma is_digit_not_bracket (c : ascii) :
  Str.is_digit c = true -> c <> "("%char.
Proof. intros H ->. discriminate H. Qed.

Lemma is_sep_not_bracket (c : ascii) : is_sep c = true -> c <> ")"%char.
Proof. intros H ->. discriminate H. Qed.

(** Dropping an optional bracket [b] in front of [s]. *)
Lemma skip_bracket (b : ascii) (s : string) :
  exists op, (op = "" \/ op = String b "")
    /\ s = op +:+ match s with
                  | String c r => if Ascii.eqb c b then r else s
                  | EmptyString => s
                  end.
Proof.
  destruct s as [|c r]; [exists ""; auto|].
  destruct (Ascii.eqb_spec c b) as [->|Hne]; [exists (String b "") | exists ""];
    auto.
Qed.

Lemma skip_bracket_app (b : ascii) (op R : string) :
  op = "" \/ op = String b "" -> (forall r, R <> String b r) ->
  match op +:+ R with
  | String c r => if Ascii.eqb c b then r else op +:+ R
  | EmptyString => op +:+ R
  end = R.
Proof.
  intros [-> | ->] HR;
    [change ("" +:+ R) with R | change (String b "" +:+ R) with (String b R)].
  - destruct R as [|c r]; [reflexivity|].
    destruct (Ascii.eqb_spec c b) as [->|Hne]; [|reflexivity].
    destruct (HR r eq_refl).
  - cbv iota. rewrite Ascii.eqb_refl. reflexivity.
Qed.

Lemma phone_at_spec (prev : option ascii) (s : string) :
  phone_at prev s = Some tt <->
  exists m post, s = m +:+ post /\ phone_number m.
Proof.
  change (phone_at prev s)
    with (s2 ← digits 3 (match s with String "(" r => r | _ => s end);
          s4 ← after_sep (match s2 with String ")" r => r | _ => s2 end);
          s5 ← digits 3 s4;
          s6 ← after_sep s5;
          _ ← digits 4 s6;
          Some tt).
  assert (forall x y, after_sep x = Some y <->
            exists c, x = String c y /\ is_sep c = true) as Hsep.
  { intros x y. unfold after_sep. destruct x as [|c x].
    - split; [discriminate | intros (c & E & _); discriminate E].
    - destruct (is_sep c) eqn:E.
      + split; [intros [= <-]; eauto | intros (c' & [= <- <-] & _); reflexivity].
      + split; [discriminate|]. intros (c' & [= <- <-] & H). congruence. }
  assert (forall x, (match x with String "(" r => r | _ => x end)
                    = match x with
                      | String c r => if Ascii.eqb c "(" then r else x
                      | EmptyString => x
                      end) as Hop.
  { intros [|c r]; [reflexivity|].
    destruct c as [[] [] [] [] [] [] [] []]; reflexivity. }
  assert (forall x, (match x with String ")" r => r | _ => x end)
                    = match x with
                      | String c r => if Ascii.eqb c ")" then r else x
                      | EmptyString => x
                      end) as Hcl.
  { intros [|c r]; [reflexivity|].
    destruct c as [[] [] [] [] [] [] [] []]; reflexivity. }
  rewrite Hop. split.
  - intros H.
    destruct (skip_bracket "(" s) as (op & Hop' & Es).
    destruct (digits 3 _) as [s2|] eqn:D1; [|discriminate H].
    cbn [mbind option_bind] in H. rewrite Hcl in H.
    destruct (skip_bracket ")" s2) as (cl & Hcl' & E2).
    destruct (after_sep _) as [s4|] eqn:S1; [|discriminate H].
    cbn [mbind option_bind] in H.
    destruct (digits 3 s4) as [s5|] eqn:D2; [|discriminate H].
    cbn [mbind option_bind] in H.
    destruct (after_sep s5) as [s6|] eqn:S2; [|discriminate H].
    cbn [mbind option_bind] in H.
    destruct (digits 4 s6) as [s7|] eqn:D3; [|discriminate H].
    apply digits_spec in D1 as (a & E1 & Ha).
    apply Hsep in S1 as (c1 & E3 & Hc1).
    apply digits_spec in D2 as (b & E4 & Hb).
    apply Hsep in S2 as (c2 & E5 & Hc2).
    apply digits_spec in D3 as (c & E6 & Hc).
    exists (op +:+ a +:+ cl +:+ String c1 b +:+ String c2 c), s7.
    split.
    + rewrite Es, E1, E2, E3, E4, E5, E6 at 1.
      rewrite !append_assoc. reflexivity.
    + exists op, cl, a, b, c, c1, c2. repeat split; auto; apply Ha || apply Hb || apply Hc.
  - intros (m & post & -> & op & cl & a & b & c & c1 & c2 & -> & Hop' & Hcl'
            & Ha & Hb & Hc & Hc1 & Hc2).
    destruct (digit_group_head _ _ Ha) as (a0 & ar & Ea & Ha0).
    rewrite !append_assoc.
    change (String c1 b +:+ String c2 c +:+ post)
      with (String c1 (b +:+ String c2 (c +:+ post))).
    rewrite skip_bracket_app;
      [ | exact Hop'
        | intros r E; rewrite Ea in E; injection E as E _;
          exact (is_digit_not_bracket a0 Ha0 E) ].
    assert (digits 3 (a +:+ (cl +:+ String c1 (b +:+ String c2 (c +:+ post))))
            = Some (cl +:+ String c1 (b +:+ String c2 (c +:+ post)))) as ->
      by (apply digits_spec; exists a; split; [reflexivity | exact Ha]).
    cbn [mbind option_bind]. rewrite Hcl.
    rewrite skip_bracket_app;
      [ | exact Hcl'
        | intros r E; injection E as E _;
          exact (is_sep_not_bracket c1 Hc1 E) ].
    assert (after_sep (String c1 (b +:+ String c2 (c +:+ post)))
            = Some (b +:+ String c2 (c +:+ post))) as ->
      by (apply Hsep; eauto).
    cbn [mbind option_bind].
    assert (digits 3 (b +:+ String c2 (c +:+ post))
            = Some (String c2 (c +:+ post))) as ->
      by (apply digits_spec; exists b; split; [reflexivity | exact Hb]).
    cbn [mbind option_bind].
    assert (after_sep (String c2 (c +:+ post)) = Some (c +:+ post)) as ->
      by (apply Hsep; eauto).
    cbn [mbind option_bind].
    assert (digits 4 (c +:+ post) = Some post) as ->
      by (apply digits_spec; exists c; split; [reflexivity | exact Hc]).
    reflexivity.
Qed.

Lemma all_digits_app (x y : string) :
  Str.all_digits (x +:+ y) = Str.all_digits x && Str.all_digits y.
Proof.
  induction x as [|c x IH]; [reflexivity|].
  change (String c x +:+ y) with (String c (x +:+ y)).
  cbn [Str.all_digits]. rewrite IH, andb_assoc. reflexivity.
Qed.

Lemma phone_number_not_digits (m : string) :
  phone_number m -> Str.all_digits m = false.
Proof.
  intros (op & cl & a & b & c & c1 & c2 & -> & _ & _ & _ & _ & _ & Hc1 & _).
  rewrite !all_digits_app.
  change (String c1 b +:+ String c2 c) with (String c1 (b +:+ String c2 c)).
  cbn [Str.all_digits].
  replace (Str.is_digit c1) with false; [rewrite !andb_false_r; reflexivity|].
  destruct c1 as [[] [] [] [] [] [] [] []]; vm_compute in Hc1 |- *; congruence.
Qed.

Lemma split_at_app (prev : option ascii) (s : string) (i : nat)
    (p : option ascii) (t : string) :
  split_at prev s i = Some (p, t) -> exists pre, s = pre +:+ t.
Proof.
  revert prev s. induction i as [|i IH]; intros prev s H.
  - assert (Some (prev, s) = Some (p, t)) as E by (destruct s; exact H).
    injection E as _ ->. exists "". reflexivity.
  - destruct s as [|c s]; [discriminate H|].
    change (split_at (Some c) s i = Some (p, t)) in H.
    apply IH in H as [pre ->]. exists (String c pre). reflexivity.
Qed.

Lemma split_at_length (prev : option ascii) (pre t : string) :
  exists p, split_at prev (pre +:+ t) (String.length pre) = Some (p, t).
Proof.
  revert prev. induction pre as [|c pre IH]; intros prev.
  - exists prev. destruct t; reflexivity.
  - change (split_at prev (String c pre +:+ t) (String.length (String c pre)))
      with (split_at (Some c) (pre +:+ t) (String.length pre)).
    apply IH.
Qed.

Lemma search_phone (text : string) :
  is_Some (search phone_at None text) <->
  exists pre m post, text = pre +:+ m +:+ post /\ phone_number m.
Proof.
  split.
  - intros [[] H]. apply search_Some in H as (i & p & t & Hs & Hr & _).
    apply split_at_app in Hs as [pre ->].
    apply phone_at_spec in Hr as (m & post & -> & Hm). eauto.
  - intros (pre & m & post & -> & Hm).
    destruct (search phone_at None (pre +:+ m +:+ post)) as [[]|] eqn:E;
      [eexists; reflexivity|]. exfalso.
    destruct (split_at_length None pre (m +:+ post)) as [p Hs].
    pose proof (proj1 (search_None phone_at None _) E _ _ _ Hs) as Hn.
    assert (phone_at p (m +:+ post) = Some tt) as Hy
      by (apply phone_at_spec; eauto).
    congruence.
Qed.

Section Phone.
Variable P : Platform.

(** X27: for a page whose text is made of ASCII characters, and a city and
    a type of business that are ASCII texts, the signal [has_phone] is true
    exactly when the text of the page holds a telephone number somewhere:
    three digits, with or without brackets, a separator (white space,
    hyphen or dot), three digits, a separator and four digits.  A text
    made of digits only holds none. *)
Theorem has_phone_signal (html : option string) (city business_type : pyval)
    (seo : gmap string bool) :
  html <> None -> html <> Some "" ->
  Str.is_ascii (get_text (BeautifulSoup P (default "" html)) "" false) = true ->
  plain_value city = true -> plain_value business_type = true ->
  check_website_seo_basics P html city business_type = Ok seo ->
  (seo !! "has_phone" = Some true <->
   exists pre m post,
     get_text (BeautifulSoup P (default "" html)) "" false
     = pre +:+ m +:+ post
     /\ phone_number m)
  /\ forall pre m post,
       Str.all_digits (pre +:+ m +:+ post) = true -> ~ phone_number m.
Proof.
  intros Hn He _ _ _ H. split.
  - destruct html as [[|h0 page]|]; [congruence | | congruence].
    cbn [check_website_seo_basics default from_option id] in H |- *.
    destruct (lower_of city) as [c|]; [|discriminate H].
    destruct (lower_of business_type) as [t|]; [|discriminate H].
    destruct (Str.first_word t); [|discriminate H].
    injection H as <-. rewrite <- search_phone.
    repeat (rewrite lookup_insert_ne by discriminate).
    rewrite lookup_singleton_eq.
    destruct (search phone_at None _) as [[]|]; split;
      try reflexivity; try discriminate.
    + intros _. eexists. reflexivity.
    + intros [x Hx]. discriminate Hx.
  - intros pre m post Hd Hm. rewrite !all_digits_app in Hd.
    apply andb_prop in Hd as [_ Hd]. apply andb_prop in Hd as [Hd _].
    rewrite (phone_number_not_digits m Hm) in Hd. discriminate Hd.
Qed.

End Phone.

Lemma has_phone_signal_witness :
  exists seo,
    check_website_seo_basics offline (Some "Call (281) 555-0142 today")
      (VStr "Humble, TX") (VStr "Auto Repair") = Ok seo
    /\ seo !! "has_phone" = Some true.
Proof.
  assert (exists seo,
            check_website_seo_basics offline (Some "Call (281) 555-0142 today")
              (VStr "Humble, TX") (VStr "Auto Repair") = Ok seo) as [seo E].
  { cbn [check_website_seo_basics lower_of].
    destruct (Str.first_word _) eqn:W; [|vm_compute in W; discriminate W].
    eexists; reflexivity. }
  exists seo. split; [exact E|].
  apply (has_phone_signal offline (Some "Call (281) 555-0142 today")
           (VStr "Humble, TX") (VStr "Auto Repair") seo);
    [discriminate | discriminate | reflexivity | reflexivity | reflexivity
     | exact E |].
  exists "Call ", "(281) 555-0142", " today". split; [reflexivity|].
  exists "(", ")", "281", "555", "0142", " "%char, "-"%char.
  repeat split; auto.
Defined.

(** ** The findings loop of [collect_data] *)

(** Once the list holds a finding, no line ends the loop: every line is
    read, and the input runs out. *)
Lemma read_findings_stuck (found : list string) (pending out : list string) :
  (exists f, last found = Some f /\ f <> "") ->
  read_findings found pending out
  = (Raise EOFError, [],
     (out ++ replicate (S (length pending)) "  > ")%list).
Proof.
  revert found out. induction pending as [|l pending IH]; intros found out Hf;
    cbn [read_findings length replicate].
  - reflexivity.
  - destruct Hf as (f & Hlast & Hne).
    assert (found <> []) as Hnil by (intros ->; discriminate Hlast).
    replace (match found with [] => true | _ :: _ => false end) with false
      by (destruct found; congruence).
    rewrite Hlast. cbn [from_option orb].
    replace (String.eqb "" f) with false
      by (symmetry; apply String.eqb_neq; congruence).
    rewrite andb_false_r. rewrite IH.
    + rewrite <- app_assoc. reflexivity.
    + destruct (String.eqb_spec (Str.strip l) "") as [E|E].
      * exists f. auto.
      * exists (Str.strip l). split; [apply last_snoc | exact E].
Qed.

(** What the loop does on a terminal. *)
Lemma read_manual_findings_run (w : world) :
  read_manual_findings w
  = match stdin w with
    | [] => (Raise EOFError, World [] (stdout w ++ ["  > "])%list (sent w))
    | l :: rest =>
        if String.eqb (Str.strip l) "" then
          (Ok [], World rest (stdout w ++ ["  > "])%list (sent w))
        else
          (Raise EOFError,
           World [] (stdout w ++ replicate (2 + length rest) "  > ")%list
             (sent w))
    end.
Proof.
  unfold read_manual_findings. destruct (stdin w) as [|l rest];
    cbn [read_findings]; [reflexivity|].
  destruct (String.eqb_spec (Str.strip l) "") as [E|E]; cbn [andb orb].
  - reflexivity.
  - rewrite read_findings_stuck.
    + rewrite <- app_assoc. reflexivity.
    + exists (Str.strip l). split; [reflexivity | exact E].
Qed.

(** What [read_manual_findings] returns when it returns. *)
Lemma read_manual_findings_Ok (w : world) (fs : list string) (w' : world) :
  read_manual_findings w = (Ok fs, w') ->
  fs = [] /\ sent w' = sent w
  /\ exists l, stdin w = l :: stdin w' /\ Str.strip l = "".
Proof.
  rewrite read_manual_findings_run.
  destruct (stdin w) as [|l rest]; [discriminate|].
  destruct (String.eqb_spec (Str.strip l) "") as [E|E]; [|discriminate].
  intros [= <- <-]. split; [reflexivity|]. split; [reflexivity|].
  exists l. auto.
Qed.



(** ** Overriding a detected score *)

Lemma is_digit_not_space (c : ascii) :
  Str.is_digit c = true -> Str.is_space c = false.
Proof.
  destruct c as [[] [] [] [] [] [] [] []]; vm_compute; congruence.
Qed.

Lemma all_digits_last (s : string) (c : ascii) :
  Str.all_digits s = true -> last_char s = Some c -> Str.is_digit c = true.
Proof.
  induction s as [|a s IH]; [discriminate|]. cbn [Str.all_digits].
  intros Hd. apply andb_prop in Hd as [Ha Hs].
  destruct s as [|b s]; [intros [= <-]; exact Ha|].
  rewrite last_char_cons by discriminate. exact (IH Hs).
Qed.

Lemma all_digits_trimmed (s : string) : Str.all_digits s = true -> trimmed s.
Proof.
  intros Hd. split; intros c Hc; apply is_digit_not_space.
  - destruct s as [|a s]; [discriminate Hc|]. injection Hc as <-.
    cbn [Str.all_digits] in Hd. apply andb_prop in Hd as [Ha _]. exact Ha.
  - exact (all_digits_last s c Hd Hc).
Qed.

Lemma digit_count_all_digits (s : string) :
  Str.all_digits s = true -> Str.digit_count s = String.length s.
Proof.
  induction s as [|c s IH]; [reflexivity|]. cbn [Str.all_digits].
  intros Hd. apply andb_prop in Hd as [Hc Hs].
  cbn [Str.digit_count String.length]. rewrite Hc, (IH Hs). reflexivity.
Qed.

Lemma to_int_all_digits (s : string) :
  Str.all_digits s = true ->
  Str.to_int s
  = if (Str.max_str_digits <? String.length s)%nat then None
    else Str.int_digits 0 false s.
Proof.
  intros Hd. unfold Str.to_int. rewrite (strip_id s (all_digits_trimmed s Hd)).
  rewrite (digit_count_all_digits s Hd).
  destruct (Str.max_str_digits <? String.length s)%nat; [reflexivity|].
  destruct s as [|c s]; [reflexivity|].
  cbn [Str.all_digits] in Hd. apply andb_prop in Hd as [Hc _].
  destruct c as [[] [] [] [] [] [] [] []];
    first [reflexivity | vm_compute in Hc; discriminate Hc].
Qed.

Lemma int_digits_all_digits (s : string) (acc : Z) (prev : bool) :
  Str.all_digits s = true -> s <> "" \/ prev = true -> 0 <= acc ->
  exists z, Str.int_digits acc prev s = Some z /\ 0 <= z.
Proof.
  revert acc prev. induction s as [|c s IH]; intros acc prev Hd Hne Hacc.
  - destruct Hne as [Hne | ->]; [congruence|]. exists acc. auto.
  - cbn [Str.all_digits] in Hd. apply andb_prop in Hd as [Hc Hs].
    cbn [Str.int_digits]. rewrite Hc. apply IH; [exact Hs | auto |].
    assert (0 <= Str.digit_val c); [|lia].
    unfold Str.is_digit in Hc. unfold Str.digit_val. lia.
Qed.

Lemma digit_val_pretty_N_char (m : N) :
  (m < 10)%N ->
  Str.is_digit (pretty_N_char m) = true
  /\ Str.digit_val (pretty_N_char m) = Z.of_N m.
Proof.
  intros Hm.
  assert (m = 0 \/ m = 1 \/ m = 2 \/ m = 3 \/ m = 4 \/ m = 5 \/ m = 6
          \/ m = 7 \/ m = 8 \/ m = 9)%N as H by lia.
  repeat destruct H as [->|H]; try subst m; split; reflexivity.
Qed.

Lemma pretty_N_go_all_digits (x : N) (s : string) :
  Str.all_digits s = true -> Str.all_digits (pretty_N_go x s) = true.
Proof.
  revert s. induction (N.lt_wf_0 x) as [x _ IH]. intros s Hs.
  destruct (decide (x = 0)%N) as [->|Hx]; [rewrite pretty_N_go_0; exact Hs|].
  rewrite pretty_N_go_step by lia. apply IH; [apply N.div_lt; lia|].
  cbn [Str.all_digits]. rewrite Hs.
  destruct (digit_val_pretty_N_char (x `mod` 10)) as [-> _];
    [apply N.mod_lt; discriminate | reflexivity].
Qed.

Lemma int_digits_pretty_N_go (x : N) (s : string) :
  (0 < x)%N ->
  Str.int_digits 0 false (pretty_N_go x s) = Str.int_digits (Z.of_N x) true s.
Proof.
  revert s. induction (N.lt_wf_0 x) as [x _ IH]. intros s Hx.
  rewrite pretty_N_go_step by exact Hx.
  destruct (digit_val_pretty_N_char (x `mod` 10)) as [Hd Hv];
    [apply N.mod_lt; discriminate|].
  pose proof (N.div_mod x 10 ltac:(discriminate)) as Hdm.
  assert (x `div` 10 < x)%N as Hlt by (apply N.div_lt; lia).
  revert Hd Hv Hdm Hlt.
  generalize (x `mod` 10)%N (x `div` 10)%N. intros r q Hd Hv Hdm Hlt.
  destruct (decide (q = 0)%N) as [E|E].
  - rewrite E, pretty_N_go_0. cbn [Str.int_digits]. rewrite Hd, Hv.
    f_equal. lia.
  - rewrite IH by lia.
    cbn [Str.int_digits]. rewrite Hd, Hv. f_equal. lia.
Qed.

Lemma pretty_N_go_length (k : nat) (x : N) (s : string) :
  (x < 10 ^ N.of_nat k)%N ->
  (String.length (pretty_N_go x s) <= k + String.length s)%nat.
Proof.
  revert x s. induction k as [|k IH]; intros x s Hx.
  - assert (x = 0%N) as -> by (change (10 ^ N.of_nat 0)%N with 1%N in Hx; lia).
    rewrite pretty_N_go_0. lia.
  - destruct (decide (x = 0)%N) as [->|Hne]; [rewrite pretty_N_go_0; lia|].
    rewrite pretty_N_go_step by lia.
    assert (x `div` 10 < 10 ^ N.of_nat k)%N as Hq.
    { apply N.Div0.div_lt_upper_bound.
      rewrite Nat2N.inj_succ, N.pow_succ_r' in Hx. exact Hx. }
    specialize (IH _ (String (pretty_N_char (x `mod` 10)) s) Hq).
    cbn [String.length] in IH. lia.
Qed.

(** The decimal text of a non-negative integer is made of digits, as many
    as the integer has. *)
Lemma pretty_digits (z : Z) :
  0 <= z ->
  Str.isdigit (pretty z) = true /\ Str.all_digits (pretty z) = true
  /\ Str.int_digits 0 false (pretty z) = Some z
  /\ (z < 10 ^ Z.of_nat Str.max_str_digits ->
        (String.length (pretty z) <= Str.max_str_digits)%nat).
Proof.
  intros Hz. destruct z as [|p|p];
    [repeat split; intros _; cbn; unfold Str.max_str_digits; lia | | lia].
  unfold pretty, pretty_Z, pretty, pretty_positive, pretty, pretty_N.
  rewrite decide_False by discriminate.
  assert (Str.all_digits (pretty_N_go (N.pos p) "") = true) as Hd
    by (apply pretty_N_go_all_digits; reflexivity).
  split; [|split; [exact Hd|split]].
  - destruct (pretty_N_go_head (N.pos p) "") as (c & t & E & _); [lia|].
    unfold Str.isdigit. rewrite <- Hd. rewrite E. reflexivity.
  - rewrite int_digits_pretty_N_go by lia. reflexivity.
  - intros Hlt.
    pose proof (pretty_N_go_length Str.max_str_digits (N.pos p) "") as Hl.
    cbn [String.length] in Hl. rewrite Nat.add_0_r in Hl. apply Hl.
    apply N2Z.inj_lt. rewrite N2Z.inj_pow, nat_N_Z. exact Hlt.
Qed.

(** Reading back the decimal text of a non-negative integer of at most
    4300 digits. *)
Lemma to_int_pretty (z : Z) :
  0 <= z < 10 ^ Z.of_nat Str.max_str_digits ->
  Str.isdigit (pretty z) = true /\ Str.to_int (pretty z) = Some z.
Proof.
  intros [Hz Hlt]. destruct (pretty_digits z Hz) as (Hd & Ha & Hv & Hl).
  split; [exact Hd|]. rewrite to_int_all_digits by exact Ha.
  replace (Str.max_str_digits <? String.length (pretty z))%nat with false
    by (symmetry; apply Nat.ltb_ge, Hl, Hlt).
  exact Hv.
Qed.

Lemma isdigit_to_int (o : string) :
  Str.isdigit o = true ->
  if (Str.max_str_digits <? String.length o)%nat then Str.to_int o = None
  else exists z, Str.to_int o = Some z /\ 0 <= z.
Proof.
  intros Hd. assert (Str.all_digits o = true /\ o <> "") as [Ha Hne]
    by (destruct o; [discriminate Hd | split; [exact Hd | discriminate]]).
  rewrite to_int_all_digits by exact Ha.
  destruct (Str.max_str_digits <? String.length o)%nat; [reflexivity|].
  apply int_digits_all_digits; [exact Ha | auto | lia].
Qed.

(** [int(override) if override.isdigit() else auto] on a text. *)
Lemma override_or_text (o : string) (auto : Z) (w : world) :
  exists r,
    override_or (VStr o) auto w = (r, w)
    /\ (Str.isdigit o = false -> r = Ok (VInt auto))
    /\ (Str.isdigit o = true ->
        if (Str.max_str_digits <? String.length o)%nat
        then r = Raise ValueError
        else exists v, r = Ok (VInt v) /\ Str.to_int o = Some v /\ 0 <= v).
Proof.
  unfold override_or. destruct (Str.isdigit o) eqn:Hd.
  - pose proof (isdigit_to_int o Hd) as H.
    destruct (Str.max_str_digits <? String.length o)%nat.
    + rewrite H. eexists. split; [reflexivity|]. split; [discriminate | auto].
    + destruct H as (z & -> & Hz). eexists. split; [reflexivity|].
      split; [discriminate | eauto].
  - exists (Ok (VInt auto)). split; [reflexivity|].
    split; [auto | discriminate].
Qed.

Section Override.
Variable P : Platform.

(** X16: the score detected for a reachable website can be replaced from
    the terminal.  One line is read (taken here from ASCII characters).  A
    line that is not made of digits keeps the detected score; the decimal
    text of a non-negative integer of at most 4300 digits replaces it by
    that integer, which need not lie between 1 and 5; a longer run of
    digits raises [ValueError]. *)
Theorem website_score_override (auto : Z) (w : world) (l : string)
    (rest : list string) :
  auto <> 0 -> stdin w = l :: rest -> Str.is_ascii l = true ->
  exists r w',
    website_score_of P auto true w = (r, w')
    /\ stdin w' = rest /\ sent w' = sent w
    /\ (Str.isdigit (Str.strip l) = false -> r = Ok (VInt auto))
    /\ (forall z, 0 <= z < 10 ^ 4300 -> Str.strip l = pretty z ->
          r = Ok (VInt z))
    /\ (Str.isdigit (Str.strip l) = true ->
        (4300 < String.length (Str.strip l))%nat -> r = Raise ValueError).
Proof.
  intros Hauto Hin _. unfold website_score_of.
  replace (negb (auto =? 0) && true) with true
    by (symmetry; rewrite andb_true_r; apply negb_true_iff, Z.eqb_neq, Hauto).
  rewrite bind_print. unfold bind at 1.
  destruct (prompt_text_run P "  Override? (leave blank to accept)" (VStr "")
              (World (stdin w)
                 (stdout w ++ [(Str.nl +:+ "  Website Quality — auto-detected score: "
                                +:+ pretty auto +:+ "/5") +:+ Str.nl])%list
                 (sent w))) as [q ->].
  cbn [stdin stdout sent]. rewrite Hin.
  set (o := if String.eqb (Str.strip l) "" then VStr ""
            else VStr (Str.strip l)).
  assert (o = VStr (Str.strip l)) as ->.
  { unfold o. destruct (String.eqb_spec (Str.strip l) "") as [->|]; reflexivity. }
  destruct (override_or_text (Str.strip l) auto
              (World rest
                 ((stdout w ++ [(Str.nl +:+ "  Website Quality — auto-detected score: "
                                +:+ pretty auto +:+ "/5") +:+ Str.nl]) ++ [q])%list
                 (sent w))) as (r & -> & Hno & Hyes).
  exists r. eexists. split; [reflexivity|]. cbn [stdin sent].
  split; [reflexivity|]. split; [reflexivity|]. split; [exact Hno|]. split.
  - intros z Hz E.
    destruct (to_int_pretty z Hz) as [Hd Hv].
    destruct (pretty_digits z (proj1 Hz)) as (_ & _ & _ & Hl).
    rewrite <- E in Hd, Hv, Hl. specialize (Hyes Hd).
    replace (Str.max_str_digits <? String.length (Str.strip l))%nat
      with false in Hyes
      by (symmetry; apply Nat.ltb_ge, Hl, Hz).
    destruct Hyes as (v & -> & Hv' & _). congruence.
  - intros Hd Hlong. specialize (Hyes Hd).
    replace (Str.max_str_digits <? String.length (Str.strip l))%nat
      with true in Hyes by (symmetry; apply Nat.ltb_lt, Hlong).
    exact Hyes.
Qed.

End Override.

Lemma website_score_override_witness :
  exists w',
    website_score_of offline 4 true (fresh [" 0 "; "next"])
    = (Ok (VInt 0), w')
    /\ stdin w' = ["next"].
Proof.
  destruct (website_score_override offline 4 (fresh [" 0 "; "next"])
              " 0 " ["next"]) as (r & w' & E & Hin & _ & _ & Hv & _);
    [lia | reflexivity | reflexivity |].
  exists w'. rewrite E, (Hv 0); [split; [reflexivity | exact Hin] | |].
  - split; [lia|]. apply Z.pow_pos_nonneg; lia.
  - vm_compute. reflexivity.
Defined.

(** ** The requests of a run *)

Lemma sends_le {A} (n k : nat) (m : M A) :
  (n <= k)%nat -> sends n m -> sends k m.
Proof.
  intros Hle Hm w r w' H. destruct (Hm w r w' H) as (reqs & E & Hn).
  exists reqs. split; [exact E | lia].
Qed.

Lemma sends_same {A} (m : M A) :
  (forall w r w', m w = (r, w') -> sent w' = sent w) -> sends 0 m.
Proof.
  intros Hm w r w' H. exists []. rewrite app_nil_r. split; [eauto | reflexivity].
Qed.

Lemma sends_none {A} (m : M A) w r w' :
  sends 0 m -> m w = (r, w') -> sent w' = sent w.
Proof.
  intros Hm H. destruct (Hm w r w' H) as (reqs & E & Hn).
  destruct reqs; [|cbn in Hn; lia]. rewrite app_nil_r in E. exact E.
Qed.

Lemma sends_ret {A} (a : A) : sends 0 (ret a).
Proof. apply sends_same. intros w r w' [= <- <-]. reflexivity. Qed.

Lemma sends_raise {A} e : sends 0 (@raise A e).
Proof. apply sends_same. intros w r w' [= <- <-]. reflexivity. Qed.

Lemma sends_lift {A} (x : result A) : sends 0 (lift x).
Proof. apply sends_same. intros w r w' [= <- <-]. reflexivity. Qed.

Lemma sends_bind {A B} (a b : nat) (m : M A) (k : A -> M B) :
  sends a m -> (forall x, sends b (k x)) -> sends (a + b) (bind m k).
Proof.
  intros Hm Hk w r w' H. unfold bind in H.
  destruct (m w) as [[x|e] w1] eqn:E.
  - destruct (Hm _ _ _ E) as (r1 & E1 & H1).
    destruct (Hk x _ _ _ H) as (r2 & E2 & H2).
    exists (r1 ++ r2)%list. rewrite E2, E1, <- app_assoc.
    split; [reflexivity | rewrite length_app; lia].
  - injection H as <- <-. destruct (Hm _ _ _ E) as (r1 & E1 & H1).
    exists r1. split; [exact E1 | lia].
Qed.

Lemma sends_try {A} (a b : nat) (m : M A) (h : exn -> M A) :
  sends a m -> (forall e, sends b (h e)) -> sends (a + b) (try_except m h).
Proof.
  intros Hm Hh w r w' H. unfold try_except in H.
  destruct (m w) as [[x|e] w1] eqn:E.
  - injection H as <- <-. destruct (Hm _ _ _ E) as (r1 & E1 & H1).
    exists r1. split; [exact E1 | lia].
  - destruct (Hm _ _ _ E) as (r1 & E1 & H1).
    destruct (Hh e _ _ _ H) as (r2 & E2 & H2).
    exists (r1 ++ r2)%list. rewrite E2, E1, <- app_assoc.
    split; [reflexivity | rewrite length_app; lia].
Qed.

Lemma sends_write s : sends 0 (write s).
Proof. apply sends_same. intros w r w' [= <- <-]. reflexivity. Qed.

Lemma sends_print s : sends 0 (print s).
Proof. apply sends_write. Qed.

Lemma sends_print_end s e : sends 0 (print_end s e).
Proof. apply sends_write. Qed.

Lemma sends_input p : sends 0 (input p).
Proof.
  apply sends_same. intros w r w' H. unfold input in H.
  destruct (stdin w); injection H as <- <-; reflexivity.
Qed.

Lemma sends_requests_get P q : sends 1 (requests_get P q).
Proof.
  intros w r w' [= <- <-]. exists [q]. split; [reflexivity | cbn; lia].
Qed.

Lemma sends_print_options i os : sends 0 (print_options i os).
Proof.
  revert i. induction os as [|o os IH]; intros i; cbn [print_options].
  - apply sends_ret.
  - apply (sends_bind 0 0); [apply sends_print | intros _; apply IH].
Qed.

Lemma sends_read_choice n : sends 0 (read_choice n).
Proof.
  apply sends_same. intros w r w' H. unfold read_choice in H.
  destruct (choose _ (stdin w) (stdout w)) as [[x pending] out].
  injection H as <- <-. reflexivity.
Qed.

Lemma sends_prompt P label options default :
  sends 0 (prompt P label options default).
Proof.
  unfold prompt. destruct options as [|o os].
  - apply (sends_bind 0 0); [apply sends_input | intros val; apply sends_ret].
  - apply (sends_bind 0 0); [apply sends_print | intros _].
    apply (sends_bind 0 0); [apply sends_print_options | intros _].
    apply (sends_bind 0 0); [apply sends_read_choice | intros v; apply sends_ret].
Qed.

Lemma sends_divider title : sends 0 (divider title).
Proof. unfold divider. destruct title; apply sends_print. Qed.

Lemma sends_read_manual_findings : sends 0 read_manual_findings.
Proof.
  apply sends_same. intros w r w' H. unfold read_manual_findings in H.
  destruct (read_findings _ (stdin w) (stdout w)) as [[x pending] out].
  injection H as <- <-. reflexivity.
Qed.

(** Decomposing a computation into statements that send nothing. *)
Ltac local :=
  repeat first
    [ apply sends_ret | apply sends_raise | apply sends_lift
    | apply sends_prompt | apply sends_divider | apply sends_print_end
    | apply sends_print | apply sends_read_manual_findings
    | apply (sends_bind 0 0); [|intros ?]
    | apply (sends_try 0 0); [|intros ?]
    | progress cbv beta zeta
    | match goal with
      | |- sends 0 (if ?b then _ else _) => destruct b
      | |- sends 0 (match ?x with _ => _ end) => destruct x
      end ].

Lemma sends_read_recommendations P i n acc :
  sends 0 (read_recommendations P i n acc).
Proof.
  revert i acc. induction n as [|n IH]; intros i acc; cbn [read_recommendations].
  - apply sends_ret.
  - apply (sends_bind 0 0); [apply sends_prompt | intros r; apply IH].
Qed.

Lemma sends_print_findings (fs : list string) :
  sends 0 (foldr (fun f k => print ("    → " +:+ f) ;;; k) (ret tt) fs).
Proof.
  induction fs as [|f fs IH]; cbn [foldr]; [apply sends_ret|].
  apply (sends_bind 0 0); [apply sends_print | intros _; exact IH].
Qed.

Lemma sends_override_or o auto : sends 0 (override_or o auto).
Proof. unfold override_or. local. Qed.

Lemma sends_review_fields P gbp : sends 0 (review_fields P gbp).
Proof. unfold review_fields. local. Qed.

Lemma sends_print_summary P se html pct seo rr rc :
  sends 0 (print_summary P se html pct seo rr rc).
Proof. unfold print_summary. local. Qed.

Lemma sends_website_score_of P auto se : sends 0 (website_score_of P auto se).
Proof. unfold website_score_of. local; apply sends_override_or. Qed.

Lemma sends_speed_score_of P auto pct se :
  sends 0 (speed_score_of P auto pct se).
Proof. unfold speed_score_of. local; apply sends_override_or. Qed.

Lemma sends_check_website P url : sends 2 (check_website P url).
Proof.
  unfold check_website.
  match goal with |- sends _ (if ?c then _ else _) => destruct c end;
    [apply (sends_le 0); [lia | apply sends_ret]|].
  apply (sends_try 1 1).
  - apply (sends_bind 1 0); [apply sends_requests_get | intros resp]. local.
  - intros e. destruct e; try (apply (sends_le 0); [lia | solve [local]]).
    apply (sends_try 1 0).
    + apply (sends_bind 1 0); [apply sends_requests_get | intros resp]. local.
    + intros _. apply sends_ret.
Qed.

Lemma sends_website_check P has_website url :
  sends 2 (website_check P has_website url).
Proof.
  unfold website_check.
  apply (sends_bind 2 0); [apply sends_check_website | intros [[se su] h]].
  local.
Qed.

Lemma sends_get_pagespeed_score P url : sends 1 (get_pagespeed_score P url).
Proof.
  unfold get_pagespeed_score.
  destruct url as [[|a u]|]; try (apply (sends_le 0); [lia | apply sends_ret]).
  apply (sends_bind 0 1); [apply sends_print_end | intros _].
  apply (sends_try 1 0).
  - apply (sends_bind 1 0); [apply sends_requests_get | intros resp]. local.
  - intros e. local.
Qed.

Lemma sends_scrape_gbp_basics P name city :
  sends 1 (scrape_gbp_basics P name city).
Proof.
  unfold scrape_gbp_basics.
  apply (sends_bind 0 1); [apply sends_print_end | intros _].
  apply (sends_try 1 0).
  - apply (sends_bind 1 0); [apply sends_requests_get | intros resp]. local.
  - intros e. local.
Qed.

(** All the blocks of the pipeline that send nothing. *)
Ltac local_all :=
  first
    [ apply sends_review_fields | apply sends_print_summary
    | apply sends_website_score_of | apply sends_speed_score_of
    | apply sends_read_recommendations | apply sends_print_findings
    | local ];
  try local_all.

Section Requests.
Variable P : Platform.

(** X17: a run of the data collection sends at most four requests,
    whether it returns a record or stops on an exception: at most two for
    the website, one to the page-speed service and one listing search. *)
Theorem collect_data_sends_four (w : world)
    (r : result (gmap string pyval)) (w' : world) :
  collect_data P w = (r, w') ->
  exists reqs, sent w' = (sent w ++ reqs)%list /\ (length reqs <= 4)%nat.
Proof.
  revert w r w'. change (sends 4 (collect_data P)).
  unfold collect_data. cbv beta zeta.
  do 9 (apply (sends_bind 0 4); [solve [local_all] | intros ?]).
  apply (sends_bind 0 4); [solve [local_all] | intros _].
  apply (sends_bind 2 2); [apply sends_website_check | intros [[se su] h]].
  apply (sends_bind 0 2); [solve [local_all] | intros seo].
  apply (sends_bind 0 2); [solve [local_all] | intros [score issues]].
  apply (sends_bind 1 1);
    [destruct se; [apply sends_get_pagespeed_score
                  | apply (sends_le 0); [lia | apply sends_ret]]
    | intros [pct err]].
  apply (sends_bind 1 0); [apply sends_scrape_gbp_basics | intros gbp].
  local_all.
Qed.

End Requests.

Lemma collect_data_sends_four_witness :
  exists reqs,
    sent (snd (collect_data slow_site measured_site)) = ([] ++ reqs)%list
    /\ (length reqs <= 4)%nat.
Proof.
  destruct (collect_data slow_site measured_site) as [r w'] eqn:E.
  exact (collect_data_sends_four slow_site measured_site r w' E).
Defined.

(** ** The record returned by [collect_data] *)

Lemma prompt_menu_value P label o os default w v w' :
  prompt P label (o :: os) default w = (Ok v, w') ->
  exists n, v = VInt n /\ 1 <= n <= Z.of_nat (length (o :: os)).
Proof.
  rewrite prompt_menu_run.
  destruct (choose _ (stdin w) _) as [[[n|e] pending] out] eqn:E;
    [|discriminate].
  intros [= <- <-]. exists n. split; [reflexivity|].
  apply choose_Ok in E as [Hn _]. exact Hn.
Qed.

Lemma prompt_text_value P label default w v w' :
  prompt P label [] default w = (Ok v, w') ->
  exists l, stdin w = l :: stdin w' /\ v = text_answer default l.
Proof.
  destruct (prompt_text_run P label default w) as [q ->].
  destruct (stdin w) as [|l rest]; [discriminate|].
  intros [= <- <-]. exists l. split; reflexivity.
Qed.

Lemma text_answer_of default l : answer_of default (text_answer default l).
Proof.
  unfold text_answer, answer_of.
  destruct (String.eqb_spec (Str.strip l) "") as [E|E]; [left; reflexivity|].
  right. exists (Str.strip l). split; [reflexivity|].
  split; [exact E | apply strip_trimmed].
Qed.

Lemma override_or_value o auto w v w' :
  override_or o auto w = (Ok v, w') ->
  exists n, v = VInt n /\ (n = auto \/ 0 <= n).
Proof.
  destruct o as [| | | |o| |]; try discriminate.
  destruct (override_or_text o auto w) as (r & -> & Hno & Hyes).
  intros [= -> <-]. destruct (Str.isdigit o).
  - specialize (Hyes eq_refl).
    destruct (Str.max_str_digits <? String.length o)%nat; [discriminate Hyes|].
    destruct Hyes as (n & [= ->] & _ & Hn). eauto.
  - specialize (Hno eq_refl). injection Hno as ->. eauto.
Qed.

Lemma website_score_of_value P auto se w v w' :
  0 <= auto ->
  website_score_of P auto se w = (Ok v, w') -> exists n, v = VInt n /\ 0 <= n.
Proof.
  intros Hauto H. unfold website_score_of in H.
  destruct (negb (auto =? 0) && se).
  - step H as [] R1. step H as o R2.
    apply override_or_value in H as (n & -> & Hn). exists n.
    split; [reflexivity | lia].
  - destruct (negb se).
    + step H as [] R1. apply ret_Ok in H as [-> _]. exists 1.
      split; [reflexivity | lia].
    + apply prompt_menu_value in H as (n & -> & Hn). exists n.
      split; [reflexivity | lia].
Qed.

Lemma speed_score_of_value P pct se w v w' :
  speed_score_of P (pagespeed_to_score pct) pct se w = (Ok v, w') ->
  exists n, v = VInt n /\ 0 <= n.
Proof.
  intros H. unfold speed_score_of in H. cbv zeta in H.
  assert (0 <= default 0 (pagespeed_to_score pct)) as Hauto.
  { destruct pct as [p|]; cbn [pagespeed_to_score default from_option id];
      [|lia]. repeat case_match; lia. }
  destruct (negb (default 0 (pagespeed_to_score pct) =? 0)).
  - step H as [] R1. step H as o R2.
    apply override_or_value in H as (n & -> & Hn). exists n.
    split; [reflexivity | lia].
  - destruct (negb se).
    + step H as [] R1. apply ret_Ok in H as [-> _]. exists 1.
      split; [reflexivity | lia].
    + step H as [] R1. step H as [] R2.
      apply prompt_menu_value in H as (n & -> & Hn). exists n.
      split; [reflexivity | lia].
Qed.

Lemma auto_website_score_value se seo score issues :
  auto_website_score se seo = Ok (score, issues) -> 1 <= score <= 5.
Proof.
  destruct se; [|cbn; intros [= <- <-]; lia].
  rewrite auto_website_score_cases. intros [= <- <-].
  apply derived_score_range.
Qed.

Lemma read_recommendations_value P i n acc w rs w' :
  read_recommendations P i n acc w = (Ok rs, w') ->
  exists new,
    rs = (acc ++ new)%list /\ (length new <= n)%nat
    /\ Forall (fun r => exists s, r = VStr s /\ s <> "" /\ trimmed s) new.
Proof.
  revert i acc w. induction n as [|n IH]; intros i acc w H;
    cbn [read_recommendations] in H.
  - apply ret_Ok in H as [-> _]. exists []. rewrite app_nil_r.
    split; [reflexivity|]. split; [reflexivity | constructor].
  - step H as r R. apply prompt_text_value in R as (l & _ & ->).
    apply IH in H as (new & -> & Hlen & Hall).
    unfold text_answer. destruct (String.eqb_spec (Str.strip l) "") as [E|E];
      cbn [truthy].
    + exists new. split; [reflexivity|]. split; [lia | exact Hall].
    + replace (negb (Str.strip l =? "")%string) with true
        by (symmetry; apply negb_true_iff, String.eqb_neq, E).
      exists (VStr (Str.strip l) :: new). rewrite <- app_assoc.
      split; [reflexivity|]. split; [cbn [length]; lia|].
      constructor; [|exact Hall].
      exists (Str.strip l). split; [reflexivity|].
      split; [exact E | apply strip_trimmed].
Qed.

Lemma check_website_none_given P url w :
  no_website_given url = true ->
  check_website P url w = (Ok (false, None, Some "No website provided"), w).
Proof.
  intros Hg. unfold check_website. unfold no_website_given in Hg.
  rewrite Hg. reflexivity.
Qed.

(** [bool(website_input and website_input.lower() not in ("none","n",""))] *)
Lemma typed_has_website (website_input : pyval) w b w' :
  (if truthy website_input then
     l <- lift (lower_of website_input) ;;
     ret (negb (bool_decide (l ∈ ["none"; "n"; ""])))
   else ret false) w = (Ok b, w') ->
  w' = w /\ b = negb (no_website_given (str_arg website_input)).
Proof.
  destruct website_input as [| [] | z | f | s | l | d]; cbn [truthy];
    try (intros [= <- <-]; auto; fail); try discriminate.
  - destruct (negb (z =? 0)); [discriminate | intros [= <- <-]; auto].
  - destruct f; try discriminate; intros [= <- <-]; auto.
  - cbn [str_arg no_website_given].
    destruct (String.eqb s ""); cbn [negb orb]; intros [= <- <-]; auto.
  - destruct l; cbn [negb]; [intros [= <- <-]; auto | discriminate].
  - destruct d; cbn [negb]; [intros [= <- <-]; auto | discriminate].
Qed.

Lemma website_check_requests P has_website url w se su h w' :
  website_check P has_website url w = (Ok (se, su, h), w') ->
  exists reqs,
    sent w' = (sent w ++ reqs)%list /\ (length reqs <= 2)%nat
    /\ (has_website = false ->
          reqs = [] /\ se = false /\ h = Some "No website provided")
    /\ (se = true -> has_website = true).
Proof.
  intros H.
  destruct (sends_website_check P has_website url w _ _ H) as (reqs & E & L).
  exists reqs. split; [exact E|]. split; [exact L|].
  assert (has_website = false ->
          reqs = [] /\ se = false /\ h = Some "No website provided") as Hno.
  { intros ->. unfold website_check in H. cbv iota in H.
    unfold bind at 1 in H.
    rewrite (check_website_none_given P None w eq_refl) in H.
    cbn [andb] in H. unfold ret in H. injection H as <- <- <- <-.
    split; [|auto]. apply (f_equal length) in E.
    rewrite length_app in E. destruct reqs; [reflexivity | cbn in E; lia]. }
  split; [exact Hno|].
  intros ->. destruct has_website; [reflexivity|].
  destruct (Hno eq_refl) as (_ & Hse & _). discriminate Hse.
Qed.

Lemma get_pagespeed_score_requests P url w r w' :
  get_pagespeed_score P url w = (r, w') ->
  exists reqs,
    sent w' = (sent w ++ reqs)%list
    /\ (reqs = [] \/ exists u, reqs = [pagespeed_request P u]).
Proof.
  destruct url as [[|a u]|].
  - intros [= <- <-]. exists []. rewrite app_nil_r. auto.
  - destruct (get_pagespeed_score_run P (String a u) w) as (pct & err & out & -> & _);
      [discriminate|].
    intros [= <- <-]. exists [pagespeed_request P (String a u)]. eauto.
  - intros [= <- <-]. exists []. rewrite app_nil_r. auto.
Qed.

Lemma bind_prompt_text {B} P label default (k : pyval -> M B) w l rest :
  stdin w = l :: rest ->
  bind (prompt P label [] default) k w
  = k (text_answer default l)
      (World rest (stdout w ++ [question P label default])%list (sent w)).
Proof.
  intros Hin. unfold prompt. unfold bind, input, ret, question, text_answer.
  rewrite Hin. reflexivity.
Qed.

Lemma bind_divider {B} title (k : unit -> M B) w :
  exists line,
    bind (divider title) k w
    = k tt (World (stdin w) (stdout w ++ [line])%list (sent w)).
Proof. unfold divider. destruct title; eexists; apply bind_print. Qed.

Lemma typed_no_website (site : string) w :
  no_website_given (Some (Str.strip site)) = true ->
  (if truthy (text_answer (VStr "") site) then
     l <- lift (lower_of (text_answer (VStr "") site)) ;;
     ret (negb (bool_decide (l ∈ ["none"; "n"; ""])))
   else ret false) w = (Ok false, w).
Proof.
  intros Hg. unfold text_answer.
  destruct (String.eqb (Str.strip site) "") eqn:E; [reflexivity|].
  cbn [truthy]. rewrite E. cbn [negb]. unfold no_website_given in Hg.
  rewrite E in Hg. cbn [orb] in Hg.
  unfold bind, lift, lower_of, ret. rewrite Hg. reflexivity.
Qed.

Lemma website_check_no_site P url w :
  website_check P false url w
  = (Ok (false, None, Some "No website provided"), w).
Proof.
  unfold website_check. cbv iota. unfold bind at 1.
  rewrite (check_website_none_given P None w eq_refl). reflexivity.
Qed.

Lemma seo_basics_blank_answer P (a : ascii) (page city ty : string) :
  Str.strip ty = "" \/ Str.strip city = "" ->
  check_website_seo_basics P (Some (String a page)) (text_answer VNone city)
    (text_answer VNone ty) = Raise AttributeError.
Proof.
  intros Hb. unfold text_answer. cbn [check_website_seo_basics].
  destruct (String.eqb_spec (Str.strip city) "") as [Ec|Ec]; [reflexivity|].
  destruct Hb as [Et|Et]; [|contradiction]. rewrite Et. reflexivity.
Qed.

Lemma trimmed_None : trimmed "None".
Proof. split; intros c [= <-]; reflexivity. Qed.

(** The statements of a run of [collect_data] that returned. *)
Ltac collect_steps H :=
  unfold collect_data in H; cbv beta zeta in H;
  step H as [] P1; step H as [] P2; step H as [] P3; step H as [] P4;
  step H as business_name R1; step H as business_type R2;
  step H as business_city R3; step H as website_input R4;
  step H as has_website R5; step H as [] P5;
  step H as [[site_exists site_url] html] R6;
  step H as seo R7; step H as [auto_site_score site_issues] R8;
  step H as [pagespeed_pct ps_error] R9;
  step H as gbp R10; step H as [review_rating review_count] R11;
  step H as [] P6; step H as [] P7; step H as [] P8; step H as [] P9;
  step H as [] P10;
  step H as comp_name R12; step H as comp_reviews R13;
  step H as comp_rating R14; step H as answer R15; step H as comp_has_site R16;
  step H as [] P11;
  step H as website_score R17; step H as speed_score R18;
  step H as [] P12; step H as [] P13; step H as gbp_score R19;
  step H as [] P14; step H as [] P15; step H as visibility_score R20;
  step H as [] P16; step H as [] P17; step H as geo_score R21;
  step H as [] P18; step H as [] P19; step H as [] P20;
  step H as manual_findings R22;
  step H as [] P21; step H as [] P22; step H as recommendations R23;
  step H as auditor_name R24;
  apply ret_Ok in H as [-> ->].

(** A statement [R] of a run that sends nothing. *)
Ltac same_sent R :=
  match type of R with
  | ?m ?w0 = (?r, ?w1) =>
      let E := fresh "S" in
      assert (sent w1 = sent w0) as E
        by (apply (sends_none m w0 r w1); [clear; local_all | exact R]);
      clear R
  end.

Section Record.
Variable P : Platform.

(** X18: a returned record holds exactly the twenty fields of the report.
    The three scores asked from a menu lie between 1 and 5; the website
    and speed scores are non-negative integers; the two "has a website"
    fields are booleans; the date is the one of the day. *)
Theorem collect_data_record (w : world) (data : gmap string pyval) (w' : world) :
  collect_data P w = (Ok data, w') ->
  dom data = record_keys
  /\ (forall k, k ∈ ["gbp_score"; "visibility_score"; "geo_score"] ->
        exists n, data !! k = Some (VInt n) /\ 1 <= n <= 5)
  /\ (forall k, k ∈ ["website_score"; "speed_score"] ->
        exists n, data !! k = Some (VInt n) /\ 0 <= n)
  /\ (forall k, k ∈ ["has_website"; "comp_has_site"] ->
        exists b, data !! k = Some (VBool b))
  /\ data !! "audit_date" = Some (VStr (today P)).
Proof.
  intros H. collect_steps H.
  apply lift_Ok in R8. apply auto_website_score_value in R8.
  apply website_score_of_value in R17 as (ws & -> & Hws); [|lia].
  apply speed_score_of_value in R18 as (ss & -> & Hss).
  apply prompt_menu_value in R19 as (g & -> & Hg).
  apply prompt_menu_value in R20 as (v & -> & Hv).
  apply prompt_menu_value in R21 as (ge & -> & Hge).
  cbn [length score_opts] in Hg, Hv, Hge.
  split; [|split; [|split; [|split]]].
  - rewrite !dom_insert_L, dom_empty_L. unfold record_keys.
    cbn [list_to_set foldr]. set_solver.
  - intros k Hk. repeat (apply elem_of_cons in Hk as [->|Hk]);
      [..|apply elem_of_nil in Hk; destruct Hk]; eexists;
      (split; [reflexivity|]); assumption.
  - intros k Hk. repeat (apply elem_of_cons in Hk as [->|Hk]);
      [..|apply elem_of_nil in Hk; destruct Hk]; eexists;
      (split; [reflexivity|]); assumption.
  - intros k Hk. repeat (apply elem_of_cons in Hk as [->|Hk]);
      [..|apply elem_of_nil in Hk; destruct Hk]; eexists; reflexivity.
  - reflexivity.
Qed.

(** X19: the operator's own findings never reach the record: its findings
    are the issues of the website score followed by the page-speed
    finding, and nothing else.  The loop that asks for more returned
    without any. *)
Theorem collect_data_findings_automatic (w : world)
    (data : gmap string pyval) (w' : world) :
  collect_data P w = (Ok data, w') ->
  exists (site_exists : bool) (seo : gmap string bool) (score : Z)
         (issues : list string) (pct : option Z),
    data !! "has_website" = Some (VBool site_exists)
    /\ auto_website_score site_exists seo = Ok (score, issues)
    /\ data !! "findings"
       = Some (VList (VStr <$> (issues ++ speed_findings pct)%list)).
Proof.
  intros H. collect_steps H.
  apply read_manual_findings_Ok in R22 as [-> _].
  exists site_exists, seo, auto_site_score, site_issues, pagespeed_pct.
  split; [reflexivity|]. split; [exact (lift_Ok _ _ _ _ R8)|].
  rewrite app_nil_r. reflexivity.
Qed.

(** X20: the record holds at most three recommendations, each a
    non-empty text without white space at its ends: blank answers are
    dropped, not stored. *)
Theorem collect_data_recommendations (w : world)
    (data : gmap string pyval) (w' : world) :
  collect_data P w = (Ok data, w') ->
  exists rs,
    data !! "recommendations" = Some (VList rs)
    /\ (length rs <= 3)%nat
    /\ Forall (fun r => exists s, r = VStr s /\ s <> "" /\ trimmed s) rs.
Proof.
  intros H. collect_steps H.
  apply read_recommendations_value in R23 as (new & -> & Hlen & Hall).
  exists new. split; [reflexivity|]. split; [exact Hlen | exact Hall].
Qed.


(** X22: the requests of a run that returned a record, in order: those of
    the website check (at most two, none when no website was given), at
    most one to the page-speed service (none when the record says that
    there is no website), and last the listing search for the recorded
    name and city. *)
Theorem collect_data_requests (w : world) (data : gmap string pyval)
    (w' : world) :
  collect_data P w = (Ok data, w') ->
  exists name city site speed,
    data !! "business_name" = Some name
    /\ data !! "business_city" = Some city
    /\ sent w' = (sent w ++ site ++ speed ++ [gbp_request P name city])%list
    /\ (length site <= 2)%nat
    /\ (speed = [] \/ exists u, speed = [pagespeed_request P u])
    /\ (data !! "has_website" = Some (VBool false) -> speed = [])
    /\ (data !! "website_url" = Some (VStr "None") -> site = []).
Proof.
  intros H. collect_steps H.
  pose proof R5 as T5. apply typed_has_website in T5 as [_ Hhas].
  apply website_check_requests in R6 as (site & E6 & L6 & Hno & _).
  match type of R9 with
  | _ ?wa = (_, ?wb) =>
      assert (exists speed,
                sent wb = (sent wa ++ speed)%list
                /\ (speed = [] \/ exists u, speed = [pagespeed_request P u])
                /\ (site_exists = false -> speed = []))
        as (speed & E9 & Hsp & Hsp0)
  end.
  { destruct site_exists.
    - apply get_pagespeed_score_requests in R9 as (speed & E & Hs).
      exists speed. split; [exact E|]. split; [exact Hs | discriminate].
    - apply ret_Ok in R9 as [_ ->]. exists []. rewrite app_nil_r. auto. }
  clear R9.
  match type of R10 with
  | _ ?wa = (_, ?wb) =>
      assert (sent wb = (sent wa ++ [gbp_request P business_name business_city])%list)
        as E10
  end.
  { match type of R10 with
    | _ ?wa = _ =>
        destruct (scrape_gbp_basics_run P business_name business_city wa)
          as (gbp0 & out & E & _)
    end.
    rewrite E in R10. injection R10 as _ <-. reflexivity. }
  clear R10.
  same_sent P1. same_sent P2. same_sent P3. same_sent P4. same_sent R1.
  same_sent R2. same_sent R3. same_sent R4. same_sent R5. same_sent P5.
  same_sent R7. same_sent R8. same_sent R11. same_sent P6. same_sent P7.
  same_sent P8. same_sent P9. same_sent P10. same_sent R12. same_sent R13.
  same_sent R14. same_sent R15. same_sent R16. same_sent P11.
  same_sent R17. same_sent R18. same_sent P12. same_sent P13. same_sent R19.
  same_sent P14. same_sent P15. same_sent R20. same_sent P16. same_sent P17.
  same_sent R21. same_sent P18. same_sent P19. same_sent P20. same_sent R22.
  same_sent P21. same_sent P22. same_sent R23. same_sent R24.
  exists business_name, business_city, site, speed.
  split; [reflexivity|]. split; [reflexivity|].
  split; [rewrite !app_assoc; congruence|]. split; [exact L6|].
  split; [exact Hsp|]. split.
  - intros Hw. apply Hsp0.
    assert (Some (VBool site_exists) = Some (VBool false)) as Hw'
      by (rewrite <- Hw; reflexivity).
    congruence.
  - intros Hu. apply Hno.
    assert (Some (if has_website then website_input else VStr "None")
            = Some (VStr "None")) as Hu' by (rewrite <- Hu; reflexivity).
    destruct has_website; [|reflexivity].
    injection Hu' as ->. cbn in Hhas. discriminate Hhas.
Qed.

(** X23: when no website is given, the signals are looked for in the
    text "No website provided", with the city and the business type as
    typed.  If one of these two answers was blank, the run stops there
    with [AttributeError], after the fourth answer and before any request
    is sent. *)
Theorem collect_data_blank_identity (w : world) (name ty city site : string)
    (rest : list string) :
  stdin w = name :: ty :: city :: site :: rest ->
  no_website_given (Some (Str.strip site)) = true ->
  Str.strip ty = "" \/ Str.strip city = "" ->
  exists w',
    collect_data P w = (Raise AttributeError, w')
    /\ stdin w' = rest /\ sent w' = sent w.
Proof.
  intros Hin Hg Hb. unfold collect_data. cbv beta zeta.
  rewrite !bind_print.
  match goal with |- context [bind (divider ?t) ?k ?w0] =>
    destruct (bind_divider t k w0) as [line ->] end.
  cbn [stdin stdout sent].
  rewrite (bind_prompt_text P _ _ _ _ name (ty :: city :: site :: rest))
    by exact Hin.
  rewrite (bind_prompt_text P _ _ _ _ ty (city :: site :: rest))
    by reflexivity.
  rewrite (bind_prompt_text P _ _ _ _ city (site :: rest)) by reflexivity.
  rewrite (bind_prompt_text P _ _ _ _ site rest) by reflexivity.
  cbn [stdin stdout sent].
  unfold bind at 1. rewrite typed_no_website by exact Hg.
  match goal with |- context [bind (divider ?t) ?k ?w0] =>
    destruct (bind_divider t k w0) as [line2 ->] end.
  unfold bind at 1. rewrite website_check_no_site.
  unfold bind at 1, lift at 1.
  change (truthy (from_option VStr VNone (Some "No website provided")))
    with true. cbv iota.
  rewrite seo_basics_blank_answer by exact Hb.
  eexists. split; [reflexivity|]. split; reflexivity.
Qed.

End Record.

Lemma collect_data_record_witness :
  exists data w',
    collect_data offline joes_garage = (Ok data, w')
    /\ dom data = record_keys
    /\ data !! "audit_date" = Some (VStr "November 04, 2026").
Proof.
  assert (shown (collect_data offline joes_garage) <> None) as Hs
    by (vm_compute; discriminate).
  destruct (collect_data offline joes_garage) as [[data|e] w'] eqn:E;
    [|contradiction Hs; reflexivity].
  destruct (collect_data_record offline joes_garage data w' E)
    as (H1 & _ & _ & _ & H5).
  exists data, w'. auto.
Defined.

Lemma collect_data_findings_automatic_witness :
  exists data w' issues pct,
    collect_data offline joes_garage = (Ok data, w')
    /\ data !! "findings"
       = Some (VList (VStr <$> (issues ++ speed_findings pct)%list)).
Proof.
  assert (shown (collect_data offline joes_garage) <> None) as Hs
    by (vm_compute; discriminate).
  destruct (collect_data offline joes_garage) as [[data|e] w'] eqn:E;
    [|contradiction Hs; reflexivity].
  destruct (collect_data_findings_automatic offline joes_garage data w' E)
    as (se & seo & score & issues & pct & _ & _ & H).
  exists data, w', issues, pct. auto.
Defined.

Lemma collect_data_recommendations_witness :
  exists data w' rs,
    collect_data offline joes_garage = (Ok data, w')
    /\ data !! "recommendations" = Some (VList rs)
    /\ (length rs <= 3)%nat.
Proof.
  assert (shown (collect_data offline joes_garage) <> None) as Hs
    by (vm_compute; discriminate).
  destruct (collect_data offline joes_garage) as [[data|e] w'] eqn:E;
    [|contradiction Hs; reflexivity].
  destruct (collect_data_recommendations offline joes_garage data w' E)
    as (rs & H1 & H2 & _).
  exists data, w', rs. auto.
Defined.


Lemma collect_data_requests_witness :
  exists data w' name city site speed,
    collect_data offline joes_garage = (Ok data, w')
    /\ sent w' = ([] ++ site ++ speed ++ [gbp_request offline name city])%list
    /\ (length site <= 2)%nat.
Proof.
  assert (shown (collect_data offline joes_garage) <> None) as Hs
    by (vm_compute; discriminate).
  destruct (collect_data offline joes_garage) as [[data|e] w'] eqn:E;
    [|contradiction Hs; reflexivity].
  destruct (collect_data_requests offline joes_garage data w' E)
    as (name & city & site & speed & _ & _ & H1 & H2 & _).
  exists data, w', name, city, site, speed. auto.
Defined.

Lemma collect_data_blank_identity_witness :
  exists w',
    collect_data offline (fresh ["Joe's Garage"; " "; "Humble, TX"; "None"; "x"])
    = (Raise AttributeError, w')
    /\ stdin w' = ["x"].
Proof.
  destruct (collect_data_blank_identity offline
              (fresh ["Joe's Garage"; " "; "Humble, TX"; "None"; "x"])
              "Joe's Garage" " " "Humble, TX" "None" ["x"])
    as (w' & H1 & H2 & _);
    [reflexivity | vm_compute; reflexivity | left; vm_compute; reflexivity |].
  exists w'. auto.
Defined.

(** ** The report *)

Lemma overview_checked : forallb overview_exact (scores_below 29) = true.
Proof. vm_compute. reflexivity. Qed.

Lemma color_eqb_eq (a b : color) : color_eqb a b = true -> a = b.
Proof. destruct a, b; (reflexivity || discriminate). Qed.

Lemma overview_exact_spec (t : Z) :
  0 <= t <= 28 ->
  total_pct t = Ok (4 * t) /\ overall_col t = Ok (overall_band t).
Proof.
  intros Ht.
  pose proof (forallb_scores_below overview_exact 29 t overview_checked
                ltac:(lia)) as H.
  unfold overview_exact in H.
  destruct (total_pct t) as [pct|]; [|discriminate H].
  destruct (overall_col t) as [c|]; [|discriminate H].
  apply andb_prop in H as [H1 H2]. apply Z.eqb_eq in H1.
  apply color_eqb_eq in H2. subst. auto.
Qed.

Lemma replace_char (a b : ascii) (s : string) :
  chars (Str.replace s (String a "") (String b ""))
  = (fun c => if Ascii.eqb c a then b else c) <$> chars s.
Proof.
  unfold Str.replace. induction s as [|c s IH]; [reflexivity|].
  cbn [Str.replace_go String.length Nat.pred String.prefix chars fmap list_fmap].
  rewrite Ascii.eqb_sym.
  destruct (ascii_dec a c) as [->|Hne].
  - rewrite Ascii.eqb_refl. destruct s; cbn [String.prefix];
      change (String b "" +:+ ?x) with (String b x); cbn [chars]; f_equal;
      exact IH.
  - replace (Ascii.eqb a c) with false
      by (symmetry; apply Ascii.eqb_neq; exact Hne).
    cbn [chars]. f_equal. exact IH.
Qed.

Lemma chars_lower (s : string) : chars (Str.lower s) = Str.lower_char <$> chars s.
Proof.
  induction s as [|c s IH]; [reflexivity|].
  cbn [Str.lower chars fmap list_fmap]. f_equal. exact IH.
Qed.

Lemma safe_char_plain (c : ascii) :
  safe_char c <> " "%char /\ safe_char c <> "/"%char
  /\ Str.is_upper (safe_char c) = false.
Proof.
  destruct c as [[] [] [] [] [] [] [] []]; vm_compute;
    repeat split; congruence.
Qed.

Lemma safe_char_steps (c : ascii) :
  Str.lower_char
    ((fun c => if Ascii.eqb c "/" then "-"%char else c)
       ((fun c => if Ascii.eqb c " " then "_"%char else c) c))
  = safe_char c.
Proof. destruct c as [[] [] [] [] [] [] [] []]; vm_compute; reflexivity. Qed.

(** X24: for a business name of ASCII characters, the file name is made
    from it character by character: a space becomes an underscore, a slash
    a hyphen, a capital letter its small letter.  It therefore holds no
    space, no slash and no capital letter.  A business name that is not a
    text (the question was left blank) raises [AttributeError]. *)
Theorem safe_name_characters (business_name : pyval) :
  plain_value business_name = true ->
  match safe_name business_name with
  | Ok name =>
      exists s,
        business_name = VStr s
        /\ chars name = safe_char <$> chars s
        /\ Forall (fun c => c <> " "%char /\ c <> "/"%char
                            /\ Str.is_upper c = false) (chars name)
  | Raise e => e = AttributeError /\ forall s, business_name <> VStr s
  end.
Proof.
  intros _.
  destruct business_name as [| | | |s| |]; cbn [safe_name];
    try (split; [reflexivity | intros s; discriminate]).
  exists s. split; [reflexivity|].
  assert (chars (Str.lower (Str.replace (Str.replace s " " "_") "/" "-"))
          = safe_char <$> chars s) as E.
  { rewrite chars_lower, !replace_char, <- !list_fmap_compose.
    apply list_fmap_ext. intros i c _. apply safe_char_steps. }
  split; [exact E|]. rewrite E. apply Forall_fmap, Forall_forall.
  intros c _. apply safe_char_plain.
Qed.

Lemma safe_name_characters_witness :
  plain_value (VStr "Joe's Garage / Humble") = true
  /\ exists name,
       safe_name (VStr "Joe's Garage / Humble") = Ok name
       /\ chars name = safe_char <$> chars "Joe's Garage / Humble".
Proof.
  split; [reflexivity|].
  pose proof (safe_name_characters (VStr "Joe's Garage / Humble") eq_refl) as H.
  destruct (safe_name (VStr "Joe's Garage / Humble")) as [name|e] eqn:E.
  - destruct H as (s & Es & Hc & _). injection Es as <-.
    exists name. split; [reflexivity | exact Hc].
  - destruct H as [_ H]. destruct (H _ eq_refl).
Defined.

Section Report.
Variable P : Platform.

(** X25: for a returned record the sum of the five category scores is
    defined and at least 3.  Up to a total of 28, hence whenever the five
    scores lie between 1 and 5, the percentage of the overview is exactly
    four times the total, and the overall colour is red below 10 points,
    orange from 10 to 17 and green from 18.  At 29 the percentage shown is
    115, not 116. *)
Theorem report_overview (w : world) (data : gmap string pyval) (w' : world) :
  collect_data P w = (Ok data, w') ->
  (exists t,
     total_score data = Some t /\ 3 <= t
     /\ (t <= 28 ->
           total_pct t = Ok (4 * t) /\ overall_col t = Ok (overall_band t)))
  /\ total_pct 29 = Ok 115.
Proof.
  intros H. split; [|vm_compute; reflexivity]. collect_steps H.
  apply lift_Ok in R8. apply auto_website_score_value in R8.
  apply website_score_of_value in R17 as (ws & -> & Hws); [|lia].
  apply speed_score_of_value in R18 as (ss & -> & Hss).
  apply prompt_menu_value in R19 as (g & -> & Hg).
  apply prompt_menu_value in R20 as (v & -> & Hv).
  apply prompt_menu_value in R21 as (ge & -> & Hge).
  cbn [length score_opts] in Hg, Hv, Hge.
  exists (ws + (ss + (g + (v + (ge + 0))))).
  split; [reflexivity|]. split; [lia|].
  intros Ht. apply overview_exact_spec. lia.
Qed.


End Report.

Lemma report_overview_witness :
  exists data w' t,
    collect_data offline joes_garage = (Ok data, w')
    /\ total_score data = Some t /\ 3 <= t.
Proof.
  assert (shown (collect_data offline joes_garage) <> None) as Hs
    by (vm_compute; discriminate).
  destruct (collect_data offline joes_garage) as [[data|e] w'] eqn:E;
    [|contradiction Hs; reflexivity].
  destruct (report_overview offline joes_garage data w' E)
    as [(t & H1 & H2 & _) _].
  exists data, w', t. auto.
Defined.


(** ** The patterns of the listing lookup *)

Lemma all_chars_digits (s : string) :
  all_chars Str.is_digit s = Str.all_digits s.
Proof. induction s as [|c s IH]; [reflexivity|]. cbn. rewrite IH. reflexivity. Qed.

Lemma span_spec (p : ascii -> bool) (s a b : string) :
  span p s = (a, b) <->
  s = a +:+ b /\ all_chars p a = true /\ not_headed p b.
Proof.
  revert a b. induction s as [|c s IH]; intros a b; cbn [span].
  - split.
    + intros [= <- <-]. repeat split. intros c [=].
    + intros (E & _ & _). destruct a; [|discriminate E].
      change ("" +:+ b) with b in E. subst b. reflexivity.
  - destruct (p c) eqn:Hc.
    + destruct (span p s) as [a0 b0] eqn:Es.
      destruct (proj1 (IH a0 b0) eq_refl) as (E0 & Ha0 & Hb0). split.
      * intros [= <- <-]. split; [rewrite E0; reflexivity|].
        split; [cbn [all_chars]; rewrite Hc; exact Ha0 | exact Hb0].
      * intros (E & Ha & Hb). destruct a as [|c' a].
        -- change ("" +:+ b) with b in E. subst b.
           specialize (Hb c eq_refl). congruence.
        -- change (String c' a +:+ b) with (String c' (a +:+ b)) in E.
           injection E as <- E. cbn [all_chars] in Ha.
           apply andb_prop in Ha as [_ Ha].
           assert ((a0, b0) = (a, b)) as Es' by (apply IH; auto).
           injection Es' as -> ->. reflexivity.
    + split.
      * intros [= <- <-]. repeat split. intros c' [= <-]. exact Hc.
      * intros (E & Ha & Hb). destruct a as [|c' a].
        -- change ("" +:+ b) with b in E. subst b. reflexivity.
        -- change (String c' a +:+ b) with (String c' (a +:+ b)) in E.
           injection E as <- E. cbn [all_chars] in Ha. rewrite Hc in Ha.
           discriminate Ha.
Qed.

Lemma ci_prefix_spec (lit s r : string) :
  ci_prefix lit s = Some r <-> exists g, s = g +:+ r /\ Str.lower g = lit.
Proof.
  revert s. induction lit as [|a lit IH]; intros s.
  - destruct s; cbn [ci_prefix]; split.
    + intros [= <-]. exists "". split; reflexivity.
    + intros (g & E & Hg). destruct g; [|discriminate Hg].
      change ("" +:+ r) with r in E. subst r. reflexivity.
    + intros [= <-]. exists "". split; reflexivity.
    + intros (g & E & Hg). destruct g; [|discriminate Hg].
      change ("" +:+ r) with r in E. subst r. reflexivity.
  - destruct s as [|c s]; cbn [ci_prefix].
    + split; [discriminate|]. intros (g & E & Hg).
      destruct g; [discriminate Hg | discriminate E].
    + destruct (Ascii.eqb_spec (Str.lower_char c) a) as [Ea|Ea].
      * rewrite IH. split.
        -- intros (g & -> & Hg). exists (String c g).
           split; [reflexivity|]. cbn [Str.lower]. rewrite Ea, Hg. reflexivity.
        -- intros (g & E & Hg). destruct g as [|c' g]; [discriminate Hg|].
           change (String c' g +:+ r) with (String c' (g +:+ r)) in E.
           injection E as <- E. cbn [Str.lower] in Hg. injection Hg as _ Hg.
           eauto.
      * split; [discriminate|]. intros (g & E & Hg).
        destruct g as [|c' g]; [discriminate Hg|].
        change (String c' g +:+ r) with (String c' (g +:+ r)) in E.
        injection E as <- E. cbn [Str.lower] in Hg. injection Hg as Hc _.
        congruence.
Qed.

Lemma rating_at_spec (prev : option ascii) (s r : string) :
  rating_at prev s = Some r <-> rating_phrase prev s r.
Proof.
  assert (forall a, (49 <=? Str.code a) && (Str.code a <=? 53) = true ->
            Str.is_word a = true) as Hw1.
  { intros a. destruct a as [[] [] [] [] [] [] [] []]; vm_compute; congruence. }
  assert (forall a, Str.is_digit a = true -> Str.is_word a = true) as Hw2.
  { intros a. destruct a as [[] [] [] [] [] [] [] []]; vm_compute; congruence. }
  unfold rating_at, rating_phrase, boundary. split.
  - destruct s as [|a [|b [|c rest]]]; try discriminate.
    destruct ((49 <=? Str.code a) && (Str.code a <=? 53)) eqn:Ha;
      [|rewrite andb_false_r; discriminate].
    destruct (Ascii.eqb_spec b ".") as [->|]; [|rewrite andb_false_r; discriminate].
    destruct (Str.is_digit c) eqn:Hc; [|rewrite andb_false_r; discriminate].
    cbn [word_opt]. rewrite (Hw1 a Ha), (Hw2 c Hc), !andb_true_r.
    destruct (word_opt prev); [discriminate|].
    destruct (word_opt (head rest)) eqn:Hn; [discriminate|].
    intros [= <-]. exists rest. split; [reflexivity|].
    split; [|auto]. exists a, c. apply andb_prop in Ha as [H1 H2].
    repeat split; [lia | lia | exact Hc].
  - intros (rest & -> & (a & c & -> & Ha & Hc) & Hp & Hn).
    change ((String a (String "." (String c "")) +:+ rest))
      with (String a (String "." (String c rest))).
    assert ((49 <=? Str.code a) && (Str.code a <=? 53) = true) as Ha'
      by (apply andb_true_intro; split; apply Z.leb_le; lia).
    cbn [word_opt Ascii.eqb Bool.eqb].
    rewrite Ha', Hc, Hp, Hn, (Hw2 c Hc), (Hw1 a Ha'). reflexivity.
Qed.

Lemma lower_char_s (c : ascii) :
  Ascii.eqb (Str.lower_char c) "s" = true ->
  Str.lower (String c "") = "s" /\ Str.is_word c = true.
Proof. destruct c as [[] [] [] [] [] [] [] []]; vm_compute; auto; discriminate. Qed.

Lemma reviews_here_spec (t : string) :
  reviews_here t = true <-> review_word t.
Proof.
  unfold reviews_here, review_word, boundary. cbn [word_opt].
  change (Str.is_word "w") with true. split.
  - destruct (ci_prefix "review" t) as [r|] eqn:E; [|discriminate].
    apply ci_prefix_spec in E as (g & -> & Hg).
    destruct r as [|c r'].
    + intros _. exists g, "". auto.
    + cbn [head word_opt]. intros H. apply orb_prop in H as [H|H].
      * apply andb_prop in H as [Hs Hb]. apply lower_char_s in Hs as [Hs Hw].
        rewrite Hw in Hb. exists (g +:+ String c ""), r'.
        split; [rewrite append_assoc; reflexivity|].
        split; [right; rewrite lower_app, Hg, Hs; reflexivity|].
        destruct (word_opt (head r')); [discriminate Hb | reflexivity].
      * exists g, (String c r'). split; [reflexivity|]. split; [auto|].
        cbn [head word_opt]. destruct (Str.is_word c); [discriminate H|reflexivity].
  - intros (r & rest & -> & [Hr|Hr] & Hn).
    + assert (ci_prefix "review" (r +:+ rest) = Some rest) as ->
        by (apply ci_prefix_spec; eauto).
      destruct rest as [|c rest']; [reflexivity|].
      cbn [head word_opt] in Hn |- *. rewrite Hn. apply orb_true_r.
    + assert (exists g c, r = g +:+ String c "" /\ Str.lower g = "review"
                          /\ Ascii.eqb (Str.lower_char c) "s" = true
                          /\ Str.is_word c = true) as (g & c & -> & Hg & Hs & Hw).
      { destruct r as [|c1 [|c2 [|c3 [|c4 [|c5 [|c6 [|c7 [|c8 r]]]]]]]];
          try discriminate Hr.
        exists (String c1 (String c2 (String c3 (String c4 (String c5
                  (String c6 "")))))), c7.
        cbn [Str.lower] in Hr |- *. injection Hr as E1 E2 E3 E4 E5 E6 E7.
        split; [reflexivity|]. split; [congruence|].
        assert (Ascii.eqb (Str.lower_char c7) "s" = true) as Hs
          by (rewrite E7; reflexivity).
        split; [exact Hs | apply lower_char_s, Hs]. }
      rewrite append_assoc.
      assert (ci_prefix "review" (g +:+ String c "" +:+ rest)
              = Some (String c rest)) as ->
        by (apply ci_prefix_spec; exists g; split; [reflexivity | exact Hg]).
      cbn [head word_opt]. rewrite Hs, Hw, Hn. reflexivity.
Qed.

Lemma review_word_head (t : string) :
  review_word t ->
  exists c t', t = String c t' /\ Str.is_digit c = false /\ Str.is_space c = false.
Proof.
  intros (r & rest & -> & Hr & _).
  assert (exists c r', r = String c r' /\ Str.lower_char c = "r"%char)
    as (c & r' & -> & Hc).
  { destruct r as [|c r']; [destruct Hr; discriminate|].
    exists c, r'. split; [reflexivity|].
    destruct Hr as [Hr|Hr]; cbn [Str.lower] in Hr; injection Hr as E _;
      exact E. }
  exists c, (r' +:+ rest). split; [reflexivity|].
  destruct c as [[] [] [] [] [] [] [] []]; vm_compute in Hc |- *;
    auto; discriminate Hc.
Qed.

Lemma google_head (g t : string) :
  Str.lower g = "google" ->
  exists c t', g +:+ t = String c t'
               /\ Str.is_digit c = false /\ Str.is_space c = false.
Proof.
  intros Hg. destruct g as [|c g']; [discriminate Hg|].
  exists c, (g' +:+ t). split; [reflexivity|].
  cbn [Str.lower] in Hg. injection Hg as Hc _.
  destruct c as [[] [] [] [] [] [] [] []]; vm_compute in Hc |- *;
    auto; discriminate Hc.
Qed.

Lemma not_headed_cons (p : ascii -> bool) (c : ascii) (t : string) :
  p c = false -> not_headed p (String c t).
Proof. intros Hc c' [= <-]. exact Hc. Qed.

Lemma not_headed_blank (p : ascii -> bool) (ws t : string) :
  (forall c, Str.is_space c = true -> p c = false) ->
  all_chars Str.is_space ws = true -> not_headed p t ->
  not_headed p (ws +:+ t).
Proof.
  intros Hp Hws Ht. destruct ws as [|c ws]; [exact Ht|].
  cbn [all_chars] in Hws. apply andb_prop in Hws as [Hc _].
  apply not_headed_cons, Hp, Hc.
Qed.

Lemma space_not_digit (c : ascii) :
  Str.is_space c = true -> Str.is_digit c = false.
Proof. destruct c as [[] [] [] [] [] [] [] []]; vm_compute; congruence. Qed.

Lemma review_at_spec (prev : option ascii) (s n : string) :
  review_at prev s = Some n <-> review_phrase s n.
Proof.
  unfold review_at, review_phrase. split.
  - destruct s as [|c s1]; [discriminate|].
    destruct (Ascii.eqb c "(" || Str.is_space c) eqn:Hlead; [|discriminate].
    destruct (span Str.is_digit s1) as [count s2] eqn:Hs1.
    destruct (span Str.is_space s2) as [ws s3] eqn:Hs2.
    apply span_spec in Hs1 as (-> & Hcount & _).
    apply span_spec in Hs2 as (-> & Hws & _).
    destruct ((1 <=? String.length count)%nat
              && (String.length count <=? 5)%nat) eqn:Hlen; [|discriminate].
    cbn [andb].
    assert (is_count count) as Hn.
    { apply andb_prop in Hlen as [H1 H2]. apply Nat.leb_le in H1, H2.
      split; [|lia]. rewrite all_chars_digits in Hcount. unfold Str.isdigit.
      destruct count; [cbn in H1; lia | exact Hcount]. }
    assert (c = "("%char \/ Str.is_space c = true) as Hc.
    { apply orb_prop in Hlead as [H|H]; [left; apply Ascii.eqb_eq, H | auto]. }
    destruct (reviews_here s3) eqn:Hr.
    + intros [= <-]. exists c, ws, s3. split; [reflexivity|].
      split; [exact Hc|]. split; [exact Hn|]. split; [exact Hws|].
      left. apply reviews_here_spec, Hr.
    + cbn [orb]. destruct (ci_prefix "google" s3) as [s4|] eqn:Hg;
        [|discriminate].
      destruct (span Str.is_space s4) as [gap s5] eqn:Hs4.
      apply ci_prefix_spec in Hg as (g & -> & Hg).
      apply span_spec in Hs4 as (-> & Hgap & _).
      destruct (String.eqb_spec gap "") as [|Hne]; [discriminate|].
      cbn [negb andb]. destruct (reviews_here s5) eqn:Hr5; [|discriminate].
      intros [= <-]. exists c, ws, (g +:+ gap +:+ s5).
      split; [reflexivity|]. split; [exact Hc|]. split; [exact Hn|].
      split; [exact Hws|]. right. exists g, gap, s5.
      split; [reflexivity|]. split; [exact Hg|]. split; [exact Hne|].
      split; [exact Hgap|]. apply reviews_here_spec, Hr5.
  - intros (lead & ws & tail & -> & Hlead & [Hd Hlen] & Hws & Htail).
    replace (Ascii.eqb lead "(" || Str.is_space lead) with true
      by (destruct Hlead as [-> | ->]; [reflexivity | symmetry; apply orb_true_r]).
    assert (exists c t', tail = String c t' /\ Str.is_digit c = false
                         /\ Str.is_space c = false) as (c0 & t0 & Et & Hd0 & Hs0).
    { destruct Htail as [Hw | (g & gap & tail' & -> & Hg & _)];
        [apply review_word_head, Hw | apply google_head, Hg]. }
    assert (Str.all_digits n = true) as Hall
      by (unfold Str.isdigit in Hd; destruct n; [discriminate Hd | exact Hd]).
    assert (span Str.is_digit (n +:+ ws +:+ tail) = (n, ws +:+ tail)) as ->.
    { apply span_spec. split; [reflexivity|].
      split; [rewrite all_chars_digits; exact Hall|].
      apply not_headed_blank; [apply space_not_digit | exact Hws|].
      rewrite Et. apply not_headed_cons, Hd0. }
    assert (span Str.is_space (ws +:+ tail) = (ws, tail)) as ->.
    { apply span_spec. split; [reflexivity|]. split; [exact Hws|].
      rewrite Et. apply not_headed_cons, Hs0. }
    replace ((1 <=? String.length n)%nat && (String.length n <=? 5)%nat)
      with true
      by (symmetry; apply andb_true_intro; split; apply Nat.leb_le; lia).
    cbn [andb].
    destruct Htail as [Hw | (g & gap & tail' & -> & Hg & Hne & Hgap & Hw)].
    + rewrite (proj2 (reviews_here_spec tail) Hw). reflexivity.
    + destruct (reviews_here (g +:+ gap +:+ tail')); [reflexivity|].
      cbn [orb].
      assert (ci_prefix "google" (g +:+ gap +:+ tail') = Some (gap +:+ tail'))
        as -> by (apply ci_prefix_spec; eauto).
      assert (span Str.is_space (gap +:+ tail') = (gap, tail')) as ->.
      { apply span_spec. split; [reflexivity|]. split; [exact Hgap|].
        destruct (review_word_head tail' Hw) as (c1 & t1 & -> & _ & Hs1).
        apply not_headed_cons, Hs1. }
      replace (String.eqb gap "") with false
        by (symmetry; apply String.eqb_neq, Hne).
      cbn [negb andb]. rewrite (proj2 (reviews_here_spec tail') Hw).
      reflexivity.
Qed.

(** ** The terminal along a run *)

Lemma continues_refl (w : world) : continues w w.
Proof. split; exists []; [reflexivity | rewrite app_nil_r; reflexivity]. Qed.

Lemma continues_trans (w1 w2 w3 : world) :
  continues w1 w2 -> continues w2 w3 -> continues w1 w3.
Proof.
  intros [[u1 E1] [o1 F1]] [[u2 E2] [o2 F2]]. split.
  - exists (u1 ++ u2)%list. rewrite E1, E2, app_assoc. reflexivity.
  - exists (o1 ++ o2)%list. rewrite F2, F1, app_assoc. reflexivity.
Qed.

Lemma continues_written (w : world) (out : list string) :
  continues w (World (stdin w) (stdout w ++ out)%list (sent w)).
Proof. split; [exists [] | exists out]; reflexivity. Qed.

Lemma orderly_ret {A} (a : A) : orderly (ret a).
Proof. intros w r w' [= <- <-]. apply continues_refl. Qed.

Lemma orderly_raise {A} e : orderly (@raise A e).
Proof. intros w r w' [= <- <-]. apply continues_refl. Qed.

Lemma orderly_lift {A} (x : result A) : orderly (lift x).
Proof. intros w r w' [= <- <-]. apply continues_refl. Qed.

Lemma orderly_bind {A B} (m : M A) (k : A -> M B) :
  orderly m -> (forall a, orderly (k a)) -> orderly (bind m k).
Proof.
  intros Hm Hk w r w' H. unfold bind in H.
  destruct (m w) as [[a|e] w1] eqn:E.
  - eapply continues_trans; [eapply Hm, E | eapply Hk, H].
  - injection H as <- <-. eapply Hm, E.
Qed.

Lemma orderly_try {A} (m : M A) (h : exn -> M A) :
  orderly m -> (forall e, orderly (h e)) -> orderly (try_except m h).
Proof.
  intros Hm Hh w r w' H. unfold try_except in H.
  destruct (m w) as [[a|e] w1] eqn:E.
  - injection H as <- <-. eapply Hm, E.
  - eapply continues_trans; [eapply Hm, E | eapply Hh, H].
Qed.

Lemma orderly_write s : orderly (write s).
Proof. intros w r w' [= <- <-]. apply continues_written. Qed.

Lemma orderly_print s : orderly (print s).
Proof. apply orderly_write. Qed.

Lemma orderly_print_end s e : orderly (print_end s e).
Proof. apply orderly_write. Qed.

Lemma orderly_input p : orderly (input p).
Proof.
  intros w r w' H. unfold input in H.
  destruct (stdin w) as [|l rest] eqn:E; injection H as <- <-; split;
    cbn [stdin stdout]; eauto.
  - exists []. rewrite E. reflexivity.
  - exists [l]. rewrite E. reflexivity.
Qed.

Lemma orderly_requests_get P q : orderly (requests_get P q).
Proof.
  intros w r w' [= <- <-]. split; cbn [stdin stdout]; exists [];
    [reflexivity | rewrite app_nil_r; reflexivity].
Qed.

Lemma orderly_print_options i os : orderly (print_options i os).
Proof.
  revert i. induction os as [|o os IH]; intros i; cbn [print_options].
  - apply orderly_ret.
  - apply orderly_bind; [apply orderly_print | intros _; apply IH].
Qed.

Lemma choose_continues n pending out r rest out' :
  choose n pending out = (r, rest, out') ->
  (exists used, pending = (used ++ rest)%list)
  /\ (exists o, out' = (out ++ o)%list).
Proof.
  revert out. induction pending as [|l pending IH]; intros out H;
    cbn [choose] in H.
  - injection H as <- <- <-. split; [exists [] | eexists]; reflexivity.
  - assert (forall o1,
              choose n pending ((out ++ ["    Enter number: "]) ++ o1)%list
              = (r, rest, out') ->
              (exists used, l :: pending = (used ++ rest)%list)
              /\ (exists o, out' = (out ++ o)%list)) as Hagain.
    { intros o1 H1. apply IH in H1 as [[used ->] [o ->]]. split.
      - exists (l :: used). reflexivity.
      - eexists. rewrite <- !app_assoc. reflexivity. }
    destruct (Str.to_int (Str.strip l)) as [v|];
      [destruct ((1 <=? v) && (v <=? n))|]; try (eapply Hagain; exact H).
    injection H as <- <- <-. split; [exists [l] | eexists]; reflexivity.
Qed.

Lemma orderly_read_choice n : orderly (read_choice n).
Proof.
  intros w r w' H. unfold read_choice in H.
  destruct (choose _ (stdin w) (stdout w)) as [[x pending] out] eqn:E.
  injection H as <- <-. apply choose_continues in E. exact E.
Qed.

Lemma orderly_prompt P label options default :
  orderly (prompt P label options default).
Proof.
  unfold prompt. destruct options as [|o os].
  - apply orderly_bind; [apply orderly_input | intros val; apply orderly_ret].
  - apply orderly_bind; [apply orderly_print | intros _].
    apply orderly_bind; [apply orderly_print_options | intros _].
    apply orderly_bind; [apply orderly_read_choice | intros v; apply orderly_ret].
Qed.

Lemma orderly_divider title : orderly (divider title).
Proof. unfold divider. destruct title; apply orderly_print. Qed.

Lemma read_findings_continues found pending out r rest out' :
  read_findings found pending out = (r, rest, out') ->
  (exists used, pending = (used ++ rest)%list)
  /\ (exists o, out' = (out ++ o)%list).
Proof.
  revert found out. induction pending as [|l pending IH]; intros found out H;
    cbn [read_findings] in H.
  - injection H as <- <- <-. split; [exists [] | eexists]; reflexivity.
  - match type of H with (if ?c then _ else _) = _ => destruct c end.
    + injection H as <- <- <-. split; [exists [l] | eexists]; reflexivity.
    + apply IH in H as [[used ->] [o ->]]. split.
      * exists (l :: used). reflexivity.
      * eexists. rewrite <- !app_assoc. reflexivity.
Qed.

Lemma orderly_read_manual_findings : orderly read_manual_findings.
Proof.
  intros w r w' H. unfold read_manual_findings in H.
  destruct (read_findings _ (stdin w) (stdout w)) as [[x pending] out] eqn:E.
  injection H as <- <-. apply read_findings_continues in E. exact E.
Qed.

(** Decomposing a computation into orderly statements. *)
Ltac in_order :=
  repeat first
    [ apply orderly_ret | apply orderly_raise | apply orderly_lift
    | apply orderly_requests_get | apply orderly_prompt | apply orderly_divider
    | apply orderly_print_end | apply orderly_print
    | apply orderly_read_manual_findings
    | apply orderly_bind; [|intros ?]
    | apply orderly_try; [|intros ?]
    | progress cbv beta zeta
    | match goal with
      | |- orderly (if ?b then _ else _) => destruct b
      | |- orderly (match ?x with _ => _ end) => destruct x
      end ].

Lemma orderly_read_recommendations P i n acc :
  orderly (read_recommendations P i n acc).
Proof.
  revert i acc. induction n as [|n IH]; intros i acc; cbn [read_recommendations].
  - apply orderly_ret.
  - apply orderly_bind; [apply orderly_prompt | intros r; apply IH].
Qed.

Lemma orderly_print_findings (fs : list string) :
  orderly (foldr (fun f k => print ("    → " +:+ f) ;;; k) (ret tt) fs).
Proof.
  induction fs as [|f fs IH]; cbn [foldr]; [apply orderly_ret|].
  apply orderly_bind; [apply orderly_print | intros _; exact IH].
Qed.

Lemma orderly_override_or o auto : orderly (override_or o auto).
Proof. unfold override_or. in_order. Qed.

Lemma orderly_check_website P url : orderly (check_website P url).
Proof. unfold check_website. in_order. Qed.

Lemma orderly_website_check P has_website url :
  orderly (website_check P has_website url).
Proof.
  unfold website_check.
  apply orderly_bind; [apply orderly_check_website | intros [[se su] h]].
  in_order.
Qed.

Lemma orderly_get_pagespeed_score P url : orderly (get_pagespeed_score P url).
Proof. unfold get_pagespeed_score. in_order. Qed.

Lemma orderly_scrape_gbp_basics P name city :
  orderly (scrape_gbp_basics P name city).
Proof. unfold scrape_gbp_basics. in_order. Qed.

Lemma orderly_review_fields P gbp : orderly (review_fields P gbp).
Proof. unfold review_fields. in_order. Qed.

Lemma orderly_print_summary P se html pct seo rr rc :
  orderly (print_summary P se html pct seo rr rc).
Proof. unfold print_summary. in_order. Qed.

Lemma orderly_website_score_of P auto se : orderly (website_score_of P auto se).
Proof. unfold website_score_of. in_order; apply orderly_override_or. Qed.

Lemma orderly_speed_score_of P auto pct se :
  orderly (speed_score_of P auto pct se).
Proof. unfold speed_score_of. in_order; apply orderly_override_or. Qed.

(** All the blocks of the pipeline. *)
Ltac in_order_all :=
  first
    [ apply orderly_website_check | apply orderly_get_pagespeed_score
    | apply orderly_scrape_gbp_basics | apply orderly_review_fields
    | apply orderly_print_summary | apply orderly_website_score_of
    | apply orderly_speed_score_of | apply orderly_read_recommendations
    | apply orderly_print_findings | in_order ];
  try in_order_all.

(** A statement [R] of a run, seen from the terminal. *)
Ltac seen R :=
  match type of R with
  | ?m ?w0 = (?r, ?w1) =>
      let E := fresh "T" in
      assert (orderly m) as E by (clear; in_order_all);
      apply (fun X => X w0 r w1 R) in E
  end.

Ltac seen_all :=
  repeat match goal with
         | R : _ ?w0 = (_, ?w1) |- _ =>
             lazymatch goal with
             | _ : continues w0 w1 |- _ => fail
             | _ => seen R
             end
         end.

(** Following the statements of a run from one world to a later one. *)
Ltac along :=
  first [ apply continues_refl
        | eapply continues_trans; [eassumption | along] ].

(** ** The website of a run *)

Lemma replace_nonempty (s old new : string) :
  s <> "" -> new <> "" -> Str.replace s old new <> "".
Proof.
  intros Hs Hn. destruct s as [|c s]; [congruence|].
  unfold Str.replace. cbn [Str.replace_go].
  destruct (String.prefix old (String c s)); [|discriminate].
  destruct new; [congruence | discriminate].
Qed.

Lemma check_website_url P url w se su h w' :
  check_website P url w = (Ok (se, su, h), w') ->
  se = true -> exists u, su = Some u /\ u <> "".
Proof.
  intros H ->. destruct (no_website_given url) eqn:Hg.
  - rewrite (check_website_none_given P url w Hg) in H. discriminate H.
  - destruct (no_website_given_false url Hg) as (a & u0 & -> & Hclean).
    assert (exists clean, clean_url (Some (String a u0)) = Some clean
                          /\ clean <> "") as (clean & Ec & Hne).
    { eexists. split; [exact Hclean|].
      destruct (Str.startswith (Str.strip (String a u0)) "http") eqn:E;
        [|discriminate].
      intros E0. rewrite E0 in E. discriminate E. }
    unfold check_website in H. unfold no_website_given in Hg. rewrite Hg in H.
    rewrite Ec in H. cbn [default from_option id] in H.
    unfold try_except, bind, requests_get, print, write, ret in H.
    cbn [stdin stdout sent] in H.
    destruct (net P (sent w) (Request clean [] true 8)) as [resp|e].
    + destruct (status_code resp <? 400); inversion H; subst; eauto.
    + destruct e; try (inversion H; fail).
      cbn [stdin stdout sent] in H.
      destruct (net P _ _) as [resp|e]; inversion H; subst.
      eexists. split; [reflexivity|].
      apply replace_nonempty; [exact Hne | discriminate].
Qed.

Lemma website_check_url P has_website (s : string) w su h w' :
  s <> "" ->
  website_check P has_website (VStr s) w = (Ok (true, su, h), w') ->
  exists u, su = Some u /\ u <> "".
Proof.
  intros Hs H. unfold website_check in H.
  step H as [[se su0] h0] R1.
  destruct (has_website && negb se) eqn:Hb.
  - step H as [] R2. step H as answer R3. step H as confirm R4.
    destruct (String.eqb confirm "y").
    + step H as [] R5. apply ret_Ok in H as [E _]. inversion E; subst.
      cbn [str_arg]. destruct s as [|c s]; [congruence|]. cbn [clean_url].
      eexists. split; [reflexivity|].
      destruct (Str.startswith (Str.strip (String c s)) "http") eqn:Eh;
        [|discriminate].
      intros E0. rewrite E0 in Eh. discriminate Eh.
    + apply ret_Ok in H as [E _]. inversion E; subst.
      apply (check_website_url _ _ _ _ _ _ _ R1 eq_refl).
  - apply ret_Ok in H as [E _]. inversion E; subst.
    apply (check_website_url _ _ _ _ _ _ _ R1 eq_refl).
Qed.

Lemma issues_known se seo score issues f :
  auto_website_score se seo = Ok (score, issues) -> f ∈ issues ->
  f = "No website found" \/ f ∈ all_issues.
Proof.
  destruct se.
  - rewrite auto_website_score_cases. intros [= <- <-] Hf. right.
    unfold issues_of in Hf. apply list_elem_of_fmap in Hf as (ki & -> & Hki).
    apply list_elem_of_filter in Hki as [_ Hki].
    unfold all_issues. apply list_elem_of_fmap. eauto.
  - cbn. intros [= <- <-] Hf. apply list_elem_of_singleton in Hf. auto.
Qed.

Lemma issue_not_improvement (f : string) (p : Z) :
  f = "No website found" \/ f ∈ all_issues -> f <> improvement_finding p.
Proof.
  intros Hf E. assert (head f = Some "M"%char) as Hh by (rewrite E; reflexivity).
  destruct Hf as [-> | Hf]; [discriminate Hh|].
  unfold all_issues, issue_table in Hf. cbn [fmap list_fmap snd] in Hf.
  repeat (apply elem_of_cons in Hf as [-> | Hf]; [discriminate Hh|]).
  apply elem_of_nil in Hf. exact Hf.
Qed.

(** * The properties of the specification *)

(** ** C1: the website score *)

Example tie_in_code :
  auto_website_score true tie_seo = Ok (4, ["City not in page title"]).
Proof. vm_compute. reflexivity. Qed.

(** C1: for every subset of the six signals being false (website
    reachable), [auto_website_score] returns 5 minus the fixed penalties of
    the missing signals, rounded to the nearest integer and not below 1;
    the issues are those of the missing signals.  The rounding is the one
    of the language, [round]: a tie goes to the even neighbour, so that
    4.5 gives 4. *)
Theorem auto_website_score_half_even (seo : gmap string bool) :
  auto_website_score true seo
  = Ok (derived_score round_half_even seo, issues_of seo).
Proof. apply auto_website_score_cases. Qed.

(** ** C2: the speed score *)

(** C2: for percentages between 0 and 100, [pagespeed_to_score] answers
    with a score from 1 to 5 fixed by the thresholds 90, 70, 50 and 30, and
    a larger percentage never gets a smaller score. *)
Theorem pagespeed_to_score_thresholds (p q : Z) :
  0 <= p <= 100 -> 0 <= q <= 100 ->
  exists s t,
    pagespeed_to_score (Some p) = Some s
    /\ pagespeed_to_score (Some q) = Some t
    /\ 1 <= s <= 5
    /\ (90 <= p <-> s = 5)
    /\ (70 <= p <= 89 <-> s = 4)
    /\ (50 <= p <= 69 <-> s = 3)
    /\ (30 <= p <= 49 <-> s = 2)
    /\ (p <= 29 <-> s = 1)
    /\ (p <= q -> s <= t).
Proof.
  intros Hp Hq. unfold pagespeed_to_score. eexists _, _.
  split; [reflexivity|]. split; [reflexivity|].
  repeat match goal with
         | |- context [?a <=? ?b] => destruct (Z.leb_spec a b)
         end; lia.
Qed.

Lemma pagespeed_to_score_thresholds_witness :
  exists s t,
    pagespeed_to_score (Some 55) = Some s
    /\ pagespeed_to_score (Some 90) = Some t
    /\ s = 3 /\ t = 5.
Proof.
  destruct (pagespeed_to_score_thresholds 55 90 ltac:(lia) ltac:(lia))
    as (s & t & Hs & Ht & _ & _ & _ & H3 & _ & _ & _).
  exists s, t. split; [exact Hs|]. split; [exact Ht|].
  split; [apply H3; lia|]. injection Ht as <-. reflexivity.
Defined.

(** ** C4: the score bands *)

(** C4: for a score out of 5 or out of 25, [score_color] and [score_label]
    give the same band: below 40% of the maximum the lowest one (red,
    "Needs Work"), from 40% to below 70% the middle one (orange, "Fair"),
    from 70% the top one (green, "Good"); the comparison made in binary64
    agrees with the exact one at every score up to 1000. *)
Theorem score_bands_consistent (s m : Z) :
  m = 5 \/ m = 25 -> 0 <= s <= 1000 ->
  score_color s m = Ok (tier_color (band s m))
  /\ score_label s m = Ok (tier_label (band s m)).
Proof.
  intros Hm Hs.
  assert (in_band m s = true) as H.
  { assert (0 <= s < Z.of_nat 1001) as Hr by lia.
    destruct Hm as [-> | ->].
    - exact (forallb_scores_below (in_band 5) 1001 s bands_checked_5 Hr).
    - exact (forallb_scores_below (in_band 25) 1001 s bands_checked_25 Hr). }
  unfold in_band in H.
  destruct (score_color s m) as [c|]; [|discriminate].
  destruct (score_label s m) as [l|]; [|discriminate].
  apply andb_prop in H as [Hc Hl]. apply String.eqb_eq in Hl. subst l.
  split; [|reflexivity]. f_equal.
  destruct c, (tier_color (band s m)); simpl in Hc; congruence.
Qed.

Lemma score_bands_consistent_witness :
  score_color 2 5 = Ok ORANGE /\ score_label 2 5 = Ok "Fair".
Proof.
  apply (score_bands_consistent 2 5); [left; reflexivity | lia].
Defined.

Example bands_at_the_boundaries :
  band 1 5 = Lowest /\ band 2 5 = Middle /\ band 3 5 = Middle
  /\ band 4 5 = Top /\ band 9 25 = Lowest /\ band 10 25 = Middle
  /\ band 17 25 = Middle /\ band 18 25 = Top.
Proof. repeat split. Qed.

(** ** C10: the menu prompt *)



(** ** C7: the page-speed lookup *)

(** C7: [get_pagespeed_score] never raises.  Without a URL it returns no
    percentage and "No website"; when the request fails it returns no
    percentage and the text of the exception; when the body is not JSON the
    same; and when the response lacks the percentage field it returns no
    percentage. *)
Theorem get_pagespeed_score_degrades P url w :
  exists pct err w',
    get_pagespeed_score P url w = (Ok (pct, err), w')
    /\ (url = None \/ url = Some "" -> pct = None /\ err = VStr "No website")
    /\ forall u, url = Some u -> u <> "" ->
         (forall e, net P (sent w) (pagespeed_request P u) = Raise e ->
            pct = None /\ err = VStr (str_exn P e))
         /\ (forall resp, net P (sent w) (pagespeed_request P u) = Ok resp ->
               resp_json resp = None ->
               pct = None /\ err = VStr (str_exn P JSONDecodeError))
         /\ (forall resp data,
               net P (sent w) (pagespeed_request P u) = Ok resp ->
               resp_json resp = Some data -> score_field data = None ->
               pct = None).
Proof.
  destruct url as [u|].
  - destruct (decide (u = "")) as [->|Hu].
    + exists None, (VStr "No website"), w. split; [reflexivity|].
      split; [auto|]. intros u [= <-] Hu. congruence.
    + destruct (get_pagespeed_score_run P u w Hu) as (pct & err & out & E & H).
      exists pct, err, (World (stdin w) out (sent w ++ [pagespeed_request P u])%list).
      split; [exact E|]. split; [intros [[=]|[= ->]]; congruence|].
      intros u' [= <-] _. split; [|split].
      * intros e He. rewrite He in H. exact H.
      * intros resp Hr Hj. rewrite Hr, Hj in H. exact H.
      * intros resp data Hr Hj Hs. rewrite Hr, Hj, Hs in H. exact H.
  - exists None, (VStr "No website"), w. split; [reflexivity|].
    split; [auto|]. intros u [=].
Qed.

Lemma get_pagespeed_score_degrades_witness :
  exists w',
    get_pagespeed_score offline (Some "https://joesgarage.example") (fresh [])
    = (Ok (None, VStr "offline"), w').
Proof.
  destruct (get_pagespeed_score_degrades offline
              (Some "https://joesgarage.example") (fresh []))
    as (pct & err & w' & E & _ & H).
  destruct (H _ eq_refl ltac:(discriminate)) as (Hfail & _ & _).
  destruct (Hfail (RequestError "offline") eq_refl) as [-> ->].
  exists w'. exact E.
Defined.

(** ** C5: the reachability check *)

(** On the first request the status decides. *)
Lemma check_website_first_answer P u w resp :
  u <> "" -> Str.lower u ∉ ["none"; "n"; ""] ->
  net P (sent w) (Request (default "" (clean_url (Some u))) [] true 8) = Ok resp ->
  exists w',
    check_website P (Some u) w
    = (Ok (bool_decide (status_code resp < 400),
           Some (default "" (clean_url (Some u))),
           if bool_decide (status_code resp < 400) then Some (resp_text resp)
           else None), w').
Proof.
  intros Hu Hl Hn. unfold check_website.
  replace (String.eqb u "") with false
    by (symmetry; apply String.eqb_neq, Hu).
  rewrite bool_decide_false by exact Hl. cbn [orb].
  unfold try_except, bind, requests_get. rewrite Hn.
  destruct (Z.ltb_spec (status_code resp) 400).
  - rewrite bool_decide_true by lia. eexists. reflexivity.
  - rewrite bool_decide_false by lia. eexists. reflexivity.
Qed.

(** C5 fails on the fallback: the HTTPS request of "example.com" fails on
    TLS, the HTTP request is answered with status 500, and [check_website]
    reports the site as reachable. *)
Theorem check_website_fallback_ignores_status :
  check_website tls_broken (Some "example.com") (fresh [])
  = (Ok (true, Some "http://example.com", Some "Internal Server Error"),
     World [] []
       [Request "https://example.com" [] true 8;
        Request "http://example.com" [] true 8])
  /\ net tls_broken [Request "https://example.com" [] true 8]
       (Request "http://example.com" [] true 8)
     = Ok (Response 500 "http://example.com" "Internal Server Error" None).
Proof. split; vm_compute; reflexivity. Qed.

(** ** C8: the listing lookup *)


(** A count that starts the text is not found: no bracket and no white
    space stands before it. *)
Example count_at_start_is_missed :
  exists gbp w',
    scrape_gbp_basics bare_count (VStr "Joe's Garage") (VStr "Humble, TX")
      (fresh []) = (Ok gbp, w')
    /\ gbp !! "rating" = Some (VStr "4.8")
    /\ gbp !! "review_count" = Some (VStr "?").
Proof.
  destruct (scrape_gbp_basics_run bare_count (VStr "Joe's Garage")
              (VStr "Humble, TX") (fresh [])) as (gbp & out & E & H).
  eexists gbp, _. split; [exact E|].
  match type of H with
  | match ?n with _ => _ end =>
      let v := eval vm_compute in n in change n with v in H
  end.
  lazy beta iota in H. destruct H as [-> ->].
  split; vm_compute; reflexivity.
Qed.



(** ** C3: no website *)

(** C3: whenever a run of [collect_data] ends with no website established
    ([has_website] false in the record), the record's website score is 1,
    its speed score is 1 and its findings hold "No website found". *)
Theorem no_website_forces_scores P w data w' :
  collect_data P w = (Ok data, w') ->
  data !! "has_website" = Some (VBool false) ->
  data !! "website_score" = Some (VInt 1)
  /\ data !! "speed_score" = Some (VInt 1)
  /\ exists findings,
       data !! "findings" = Some (VList findings)
       /\ VStr "No website found" ∈ findings.
Proof.
  intros H Hw. apply collect_data_stages in H.
  destruct H as (hw & url & city & type & se & su & html & seo & auto & issues
                 & pct & err & ws & ss & manual & wa & wb & wc & wd & we & wf
                 & wg & _ & _ & Hauto & Hpct & Hws & Hss & Hd1 & Hd2 & Hd3
                 & Hd4 & _).
  rewrite Hd1 in Hw. injection Hw as ->.
  cbn in Hauto. injection Hauto as <- <-.
  apply ret_Ok in Hpct as [[= -> ->] _].
  apply website_score_of_no_site in Hws as ->.
  apply speed_score_of_no_site in Hss as ->.
  split; [exact Hd2|]. split; [exact Hd3|].
  eexists. split; [exact Hd4|]. cbn [app fmap list_fmap]. apply list_elem_of_here.
Qed.

Lemma no_website_forces_scores_witness :
  exists data w',
    collect_data offline joes_garage = (Ok data, w')
    /\ data !! "has_website" = Some (VBool false)
    /\ data !! "website_score" = Some (VInt 1)
    /\ data !! "speed_score" = Some (VInt 1).
Proof.
  assert (shown (collect_data offline joes_garage)
          = Some [Some (VBool false); Some (VInt 1); Some (VInt 1);
                  Some (VList [VStr "No website found"])]) as Hs
    by (vm_compute; reflexivity).
  destruct (collect_data offline joes_garage) as [[data|e] w'] eqn:E;
    [|discriminate Hs].
  cbn [shown fst fmap list_fmap] in Hs. injection Hs as Hw _ _ _.
  destruct (no_website_forces_scores offline joes_garage data w' E Hw)
    as (H1 & H2 & _).
  exists data, w'. auto.
Defined.

(** ** C6: a percentage of 55 *)



(** ** C9: a site confirmed by hand *)

(** C9: with a website, [auto_website_score] always returns a score from 1
    to 5; on an empty dictionary of signals all six penalties apply, the
    score is 1 and the six issues are produced; and whenever a run of
    [collect_data] announced that the SEO checks were skipped, the findings
    of its record begin with these six issues. *)
Theorem manual_confirm_keeps_penalties :
  (forall seo, exists s issues,
      auto_website_score true seo = Ok (s, issues) /\ 1 <= s <= 5)
  /\ auto_website_score true ∅ = Ok (1, all_issues)
  /\ (forall P w data w',
        quiet w -> collect_data P w = (Ok data, w') -> ~ quiet w' ->
        exists rest,
          data !! "findings" = Some (VList (VStr <$> (all_issues ++ rest)%list))).
Proof.
  split.
  { intros seo. eexists _, _. split; [apply auto_website_score_cases|].
    apply derived_score_range. }
  split; [vm_compute; reflexivity|].
  intros P w data w' Hq H Hn. apply collect_data_stages in H.
  destruct H as (hw & url & city & type & se & su & html & seo & auto & issues
                 & pct & err & ws & ss & manual & wa & wb & wc & wd & we & wf
                 & wg & Hcheck & Hseo & Hauto & _ & _ & _ & _ & _ & _ & Hd4
                 & Hbefore & Hafter).
  destruct (website_check_notice _ _ _ _ _ _ _ _ Hcheck (Hbefore Hq)
              (fun Q => Hn (Hafter Q))) as [-> ->].
  cbn in Hseo. injection Hseo as <-.
  assert (issues = all_issues) as ->.
  { vm_compute in Hauto. injection Hauto as _ <-. vm_compute. reflexivity. }
  exists (speed_findings pct ++ manual)%list. exact Hd4.
Qed.

Lemma manual_confirm_keeps_penalties_witness :
  exists data w' rest,
    collect_data offline confirmed_by_hand = (Ok data, w')
    /\ skipped_notice ∈ stdout w'
    /\ data !! "findings" = Some (VList (VStr <$> (all_issues ++ rest)%list)).
Proof.
  destruct manual_confirm_keeps_penalties as (_ & _ & Hflow).
  assert (shown (collect_data offline confirmed_by_hand) <> None) as Hs
    by (vm_compute; discriminate).
  assert (announced (collect_data offline confirmed_by_hand) = true) as Ha
    by (vm_compute; reflexivity).
  destruct (collect_data offline confirmed_by_hand) as [[data|e] w'] eqn:E;
    [|exfalso; apply Hs; reflexivity].
  unfold announced in Ha. cbn [snd] in Ha.
  apply bool_decide_eq_true in Ha.
  destruct (Hflow offline confirmed_by_hand data w') as (rest & Hd).
  - unfold quiet. cbn [confirmed_by_hand fresh stdout]. apply not_elem_of_nil.
  - exact E.
  - intros Q. exact (Q Ha).
  - exists data, w', rest. auto.
Defined.
